(** * dl_har_model: evaluation driver and Attend-and-Discriminate model

    A shallow embedding of [eval.py] (the evaluation driver) and of
    [models/AttendAndDiscriminate.py] (the network), with the properties
    the specification states about them.

    Conventions.
    - Python integers are [Z]; tensor dimensions, which are never
      negative, are [nat].
    - Tensor entries, losses and logits are real numbers ([R]): the
      arithmetic is the exact one, rounding of the 32-bit floats is not
      modelled. Where the code divides by a norm that can be zero, the
      entries are [xreal] and the quotient of zero by zero is not a
      number.
    - Metrics that sklearn computes from integer counts are rationals
      ([Q]) with an explicit not-a-number value.
    - A Python exception is an [Err] result; [bind] propagates it, as an
      uncaught exception does. *)

From Stdlib Require Import String Ascii DecimalString Bool Arith ZArith QArith
  Qround Reals List Lia Lra.
Import ListNotations.

Set Implicit Arguments.

Local Open Scope nat_scope.

(** ** Exceptions and the result monad *)

Inductive exn : Type :=
| UnboundLocalError
| IndexError
| ValueError
| KeyError
| RuntimeError
| FileNotFoundError
| UnpicklingError
| TypeError
| ZeroDivisionError.

Inductive result (A : Type) : Type :=
| Ok (a : A)
| Err (e : exn).

Arguments Ok {A} a.
Arguments Err {A} e.

Definition bind {A B : Type} (m : result A) (k : A -> result B) : result B :=
  match m with
  | Ok a => k a
  | Err e => Err e
  end.

Notation "x <- m ;; k" := (bind m (fun x => k))
  (at level 61, m at next level, right associativity).
Notation "' p <- m ;; k" := (bind m (fun x => let p := x in k))
  (at level 61, p pattern, m at next level, right associativity).

Definition raises {A : Type} (m : result A) : Prop := exists e, m = Err e.

Definition from_option {A : Type} (e : exn) (o : option A) : result A :=
  match o with
  | Some a => Ok a
  | None => Err e
  end.

(** [l[i]] on a Python list or a numpy array, for an index [i >= 0]. *)
Definition getitem {A : Type} (l : list A) (i : nat) : result A :=
  from_option IndexError (nth_error l i).

(** ** Tensors *)

(** A tensor: its shape and its entries in row-major order. *)
Record Tensor : Type := mkTensor {
  shape : list nat;
  data : list R
}.

(** A two-dimensional tensor by rows. *)
Definition Matrix : Type := list (list R).

(** An entry that may be the result of dividing zero by zero: a real
    number, or not a number. *)
Inductive xreal : Type :=
| Real (r : R)
| NotANumber.

Definition XMatrix : Type := list (list xreal).

Definition numel (s : list nat) : nat := fold_right Nat.mul 1%nat s.

(** ** sklearn.metrics on label sequences *)

Inductive pyfloat : Type :=
| Fin (q : Q)
| NaN.

Fixpoint count_correct (y_true y_pred : list Z) : nat :=
  match y_true, y_pred with
  | t :: ts, p :: ps => (if Z.eqb t p then 1 else 0) + count_correct ts ps
  | _, _ => 0
  end.

(** Per-class counts of the confusion matrix. *)
Fixpoint tp (c : Z) (y_true y_pred : list Z) : nat :=
  match y_true, y_pred with
  | t :: ts, p :: ps =>
      (if Z.eqb t c && Z.eqb p c then 1 else 0) + tp c ts ps
  | _, _ => 0
  end.

Fixpoint fp (c : Z) (y_true y_pred : list Z) : nat :=
  match y_true, y_pred with
  | t :: ts, p :: ps =>
      (if negb (Z.eqb t c) && Z.eqb p c then 1 else 0) + fp c ts ps
  | _, _ => 0
  end.

Fixpoint fn (c : Z) (y_true y_pred : list Z) : nat :=
  match y_true, y_pred with
  | t :: ts, p :: ps =>
      (if Z.eqb t c && negb (Z.eqb p c) then 1 else 0) + fn c ts ps
  | _, _ => 0
  end.

Definition qnat (n : nat) : Q := inject_Z (Z.of_nat n).

(** [check_consistent_length]: sklearn refuses sequences of different
    lengths. *)
Definition check_consistent_length (y_true y_pred : list Z) : result unit :=
  if Nat.eqb (length y_true) (length y_pred) then Ok tt else Err ValueError.

(** [metrics.accuracy_score]: the fraction of positions that agree; the
    mean of no observation is not a number. *)
Definition accuracy_score (y_true y_pred : list Z) : result pyfloat :=
  _ <- check_consistent_length y_true y_pred ;;
  match y_true with
  | [] => Ok NaN
  | _ => Ok (Fin (qnat (count_correct y_true y_pred) / qnat (length y_true))%Q)
  end.

(** The labels sklearn scores: those present in either sequence. *)
Definition present_labels (y_true y_pred : list Z) : list Z :=
  nodup Z.eq_dec (y_true ++ y_pred).

(** F1 of one class, [2 tp / (2 tp + fp + fn)]; a class with an empty
    denominator scores 0 (sklearn's [zero_division] default). *)
Definition f1_class (c : Z) (y_true y_pred : list Z) : Q :=
  let d := (2 * tp c y_true y_pred + fp c y_true y_pred + fn c y_true y_pred)%nat in
  if Nat.eqb d 0 then 0%Q else (qnat (2 * tp c y_true y_pred) / qnat d)%Q.

Definition support (c : Z) (y_true : list Z) : nat :=
  count_occ Z.eq_dec y_true c.

Definition qsum (l : list Q) : Q := fold_right Qplus 0%Q l.

Inductive average : Type := Macro | Weighted.

(** [metrics.f1_score] with [average="macro"] (plain mean of the
    per-class scores) and [average="weighted"] (mean weighted by the
    number of true instances of each class). *)
Definition f1_score (y_true y_pred : list Z) (avg : average) : result pyfloat :=
  _ <- check_consistent_length y_true y_pred ;;
  let labels := present_labels y_true y_pred in
  match labels with
  | [] => Ok NaN
  | _ =>
      match avg with
      | Macro =>
          Ok (Fin (qsum (map (fun c => f1_class c y_true y_pred) labels)
                   / qnat (length labels))%Q)
      | Weighted =>
          Ok (Fin (qsum (map (fun c => qnat (support c y_true)
                                       * f1_class c y_true y_pred)%Q labels)
                   / qnat (length y_true))%Q)
      end
  end.

(** ** The running-average meter *)

(** Modelled from the spec: [utils.AverageMeter], the running mean
    tracker for the scalar loss; its source is not part of the two files.
    [update val n] adds [n] observations of value [val] and refreshes the
    mean, which does not exist while the count is zero. *)
Record AverageMeter : Type := mkMeter {
  meter_val : R;
  meter_sum : R;
  meter_count : nat;
  meter_avg : R
}.

Definition AverageMeter_new : AverageMeter := mkMeter 0%R 0%R 0 0%R.

Definition AverageMeter_update (m : AverageMeter) (val : R) (n : nat)
  : result AverageMeter :=
  let s := (meter_sum m + val * INR n)%R in
  let c := (meter_count m + n)%nat in
  if Nat.eqb c 0 then Err ZeroDivisionError
  else Ok (mkMeter val s c (s / INR c)%R).

(** ** torch operations used by the driver *)

(** [nn.Softmax(dim=1)] on a matrix: every row is exponentiated and
    divided by its sum. *)
Definition rsum (l : list R) : R := fold_right Rplus 0%R l.

Definition softmax_row (row : list R) : list R :=
  let e := map exp row in
  map (fun v => (v / rsum e)%R) e.

Definition Softmax_dim1 (m : Matrix) : Matrix := map softmax_row m.

(** Index of the first maximal entry of a row, scanning from position
    [i]; [best] is the running maximum and [bi] its index. *)
Fixpoint argmax_from (row : list R) (i : nat) (best : R) (bi : nat) : nat :=
  match row with
  | [] => bi
  | v :: rest =>
      if Rlt_dec best v then argmax_from rest (S i) v i
      else argmax_from rest (S i) best bi
  end.

(** [torch.max(m, 1)]: per row the index of the maximum; a row without
    entries cannot be reduced. *)
Definition max_index_row (row : list R) : result Z :=
  match row with
  | [] => Err IndexError
  | v :: rest => Ok (Z.of_nat (argmax_from rest 1 v 0))
  end.

Fixpoint max_dim1 (m : Matrix) : result (list Z) :=
  match m with
  | [] => Ok []
  | row :: rest =>
      i <- max_index_row row ;;
      js <- max_dim1 rest ;;
      Ok (i :: js)
  end.

(** [np.concatenate(arrays, 0)] of one-dimensional arrays: an empty
    sequence of arrays is refused. *)
Definition np_concatenate (arrays : list (list Z)) : result (list Z) :=
  match arrays with
  | [] => Err ValueError
  | _ => Ok (concat arrays)
  end.


(** ** eval.py: [eval_one_epoch] *)

(** One item of the loader: the input windows [(batch, time, channels)],
    their targets flattened ([target.view(-1)]) and the source indices. *)
Record Batch : Type := mkBatch {
  b_data : Tensor;
  b_target : list Z;
  b_idx : list Z
}.

(** A [DataLoader] as the driver sees it: the [prefix] tag of
    [loader.dataset] and the batches one iteration yields, in order. *)
Record Loader : Type := mkLoader {
  prefix : string;
  batches : list Batch
}.

(** The model as a callable, in evaluation mode ([model.eval()] was
    called): a batch of windows to the pair [(z, logits)], or an
    exception. *)
Definition Model : Type := Tensor -> result (XMatrix * Matrix).

(** The loss: [(logits, targets)] to a scalar. *)
Definition Criterion : Type := Matrix -> list Z -> result R.

(** The local variables of [eval_one_epoch] that the loop updates;
    [data_var] is unbound until the first iteration assigns it. *)
Record EpochState : Type := mkEpoch {
  losses : AverageMeter;
  y_true : list (list Z);
  y_pred : list (list Z);
  data_var : option Tensor
}.

Definition epoch_init : EpochState :=
  mkEpoch AverageMeter_new [] [] None.

(** The body of the [for] loop (lines 88-100); moving tensors to the
    accelerator and back does not change their values. *)
Definition eval_batch (model : Model) (criterion : Criterion)
    (st : EpochState) (b : Batch) : result EpochState :=
  let d := b_data b in
  let target := b_target b in
  '(z, logits) <- model d ;;
  loss <- criterion logits target ;;
  n <- getitem (shape d) 0 ;;
  losses' <- AverageMeter_update (losses st) loss n ;;
  let probabilities := Softmax_dim1 logits in
  predictions <- max_dim1 probabilities ;;
  Ok (mkEpoch losses' (y_true st ++ [target]) (y_pred st ++ [predictions])
        (Some d)).

Fixpoint eval_loop (model : Model) (criterion : Criterion)
    (st : EpochState) (bs : list Batch) : result EpochState :=
  match bs with
  | [] => Ok st
  | b :: rest =>
      st' <- eval_batch model criterion st b ;;
      eval_loop model criterion st' rest
  end.

(** Lines 102-107: the placeholder entries of the test sequence.
    [[x] * ws] is the empty list when [ws <= 0]. *)
Definition pad_test (test : bool) (st : EpochState) : result EpochState :=
  if test then
    d <- from_option UnboundLocalError (data_var st) ;;
    w <- getitem (shape d) 1 ;;
    let ws := (Z.of_nat w - 1)%Z in
    first <- getitem (y_true st) 0 ;;
    l0 <- getitem first 0 ;;
    let samples_invalid := repeat l0 (Z.to_nat ws) in
    Ok (mkEpoch (losses st) (y_true st ++ [samples_invalid])
          (y_pred st ++ [samples_invalid]) (data_var st))
  else Ok st.

(** What [eval_one_epoch] hands back, by the two flags. *)
Inductive EpochReturn : Type :=
| RetPreds (loss : R) (acc fm fw : pyfloat) (preds : list Z)
| RetPairs (loss : R) (acc fm fw : pyfloat) (pairs : list Z * list Z)
| RetMetrics (loss : R) (acc fm fw : pyfloat).

(** The labels and predictions after line 110, before the flags pick
    what is returned, together with the metrics computed from them. *)
Record EpochResult : Type := mkResult {
  r_loss : R;
  r_acc : pyfloat;
  r_fm : pyfloat;
  r_fw : pyfloat;
  r_true : list Z;
  r_pred : list Z
}.

Definition eval_one_epoch_result (model : Model) (loader : Loader)
    (criterion : Criterion) : result EpochResult :=
  st <- eval_loop model criterion epoch_init (batches loader) ;;
  st <- pad_test (String.eqb (prefix loader) "test") st ;;
  yt <- np_concatenate (y_true st) ;;
  yp <- np_concatenate (y_pred st) ;;
  acc <- accuracy_score yt yp ;;
  fm <- f1_score yt yp Macro ;;
  fw <- f1_score yt yp Weighted ;;
  Ok (mkResult (meter_avg (losses st)) acc fm fw yt yp).

Definition eval_one_epoch (model : Model) (loader : Loader)
    (criterion : Criterion) (return_preds return_pairs : bool)
  : result EpochReturn :=
  r <- eval_one_epoch_result model loader criterion ;;
  if return_preds then
    Ok (RetPreds (r_loss r) (r_acc r) (r_fm r) (r_fw r) (r_pred r))
  else if return_pairs then
    Ok (RetPairs (r_loss r) (r_acc r) (r_fm r) (r_fw r) (r_true r, r_pred r))
  else
    Ok (RetMetrics (r_loss r) (r_acc r) (r_fm r) (r_fw r)).

(** ** Vocabulary for the statements about the driver *)

(** The class indices the driver derives from one batch (lines 93, 96,
    97), without the loss. *)
Definition predict (model : Model) (d : Tensor) : result (list Z) :=
  '(z, logits) <- model d ;;
  max_dim1 (Softmax_dim1 logits).

Fixpoint predict_all (model : Model) (bs : list Batch)
  : result (list (list Z)) :=
  match bs with
  | [] => Ok []
  | b :: rest =>
      p <- predict model (b_data b) ;;
      ps <- predict_all model rest ;;
      Ok (p :: ps)
  end.

(** Number of windows in a batch, [data.shape[0]]. *)
Definition batch_len (b : Batch) : nat := nth 0 (shape (b_data b)) 0.

Definition total_samples (bs : list Batch) : nat :=
  list_sum (map batch_len bs).

(** Time dimension of a batch, [data.shape[1]]. *)
Definition time_dim (d : Tensor) : option nat := nth_error (shape d) 1.

(** A batch on which one iteration of the loop goes through: the model
    answers with one non-empty row of logits per window, the criterion
    accepts them, there is one target per window and at least one
    window (a [DataLoader] yields no empty batch). *)
Definition batch_ok (model : Model) (criterion : Criterion) (b : Batch)
  : Prop :=
  exists z logits loss n,
    model (b_data b) = Ok (z, logits) /\
    criterion logits (b_target b) = Ok loss /\
    nth_error (shape (b_data b)) 0 = Some n /\
    1 <= n /\
    length logits = n /\
    length (b_target b) = n /\
    Forall (fun row => row <> []) logits.

Definition first_label (bs : list Batch) : option Z :=
  match bs with
  | [] => None
  | b :: _ => hd_error (b_target b)
  end.

(** Time dimension of the input of the last batch. *)
Definition last_time_dim (bs : list Batch) : option nat :=
  match bs with
  | [] => None
  | b :: rest => time_dim (b_data (last rest b))
  end.

(** The placeholder entries line 105 builds for a test loader. *)
Definition padding (loader : Loader) : list Z :=
  if String.eqb (prefix loader) "test" then
    match first_label (batches loader), last_time_dim (batches loader) with
    | Some l0, Some w => repeat l0 (Z.to_nat (Z.of_nat w - 1))
    | _, _ => []
    end
  else [].

(** ** The default criterion *)

(** [nn.CrossEntropyLoss()] on raw logits and integer targets: the sum
    of [- ln (softmax row)[t]] over the rows and the number of rows that
    count; a target equal to the ignore index [-100] is skipped, any
    other target outside the classes is refused. *)
Fixpoint nll_rows (logits : Matrix) (targets : list Z) : result (R * nat) :=
  match logits, targets with
  | row :: rows, t :: ts =>
      '(s, n) <- nll_rows rows ts ;;
      if Z.eqb t (-100) then Ok (s, n)
      else if Z.ltb t 0 then Err IndexError
      else
        p <- getitem (softmax_row row) (Z.to_nat t) ;;
        Ok ((s - ln p)%R, S n)
  | _, _ => Ok (0%R, 0)
  end.

Definition CrossEntropyLoss : Criterion :=
  fun logits targets =>
    if Nat.eqb (length logits) (length targets) then
      '(s, n) <- nll_rows logits targets ;;
      Ok (s / INR n)%R
    else Err ValueError.


(** ** Shape rules of the torch operations the model uses *)

Definition Shape : Type := list nat.

Fixpoint mapM {A B : Type} (f : A -> result B) (l : list A)
  : result (list B) :=
  match l with
  | [] => Ok []
  | a :: rest =>
      b <- f a ;;
      bs <- mapM f rest ;;
      Ok (b :: bs)
  end.

Definition shape_eqb (a b : Shape) : bool :=
  if list_eq_dec Nat.eq_dec a b then true else false.

(** [x.unsqueeze(dim)]: a new dimension of size 1 at position [dim]. *)
Definition unsqueeze (dim : nat) (s : Shape) : result Shape :=
  if dim <=? length s then Ok (firstn dim s ++ 1 :: skipn dim s)
  else Err IndexError.

(** [x.squeeze(dim)]: the dimension is dropped when its size is 1. *)
Definition squeeze (dim : nat) (s : Shape) : result Shape :=
  match nth_error s dim with
  | None => Err IndexError
  | Some d => if d =? 1 then Ok (firstn dim s ++ skipn (S dim) s) else Ok s
  end.

(** [x.view(lead..., -1)] and [x.reshape(lead..., -1)]: the last dimension
    is inferred from the number of entries, which the leading ones must
    divide; with a zero among them nothing can be inferred. *)
Definition view_infer (lead : list nat) (s : Shape) : result Shape :=
  let p := numel lead in
  if p =? 0 then Err RuntimeError
  else if (numel s) mod p =? 0 then Ok (lead ++ [numel s / p])
  else Err RuntimeError.

(** [x.view(size...)]: the number of entries must not change. *)
Definition view (size : Shape) (s : Shape) : result Shape :=
  if numel size =? numel s then Ok size else Err RuntimeError.

(** [x.permute(perm...)] for a permutation [perm] of the dimensions. *)
Definition permute (perm : list nat) (s : Shape) : result Shape :=
  if length perm =? length s then mapM (fun i => getitem s i) perm
  else Err RuntimeError.

(** [torch.bmm(a, b)]: batches of matrix products. *)
Definition bmm (a b : Shape) : result Shape :=
  match a, b with
  | [ba; n; m], [bb; m'; p] =>
      if (ba =? bb) && (m =? m') then Ok [ba; n; p] else Err RuntimeError
  | _, _ => Err RuntimeError
  end.

(** Softmax along [dim] keeps the shape; the dimension must exist. *)
Definition softmax_shape (dim : nat) (s : Shape) : result Shape :=
  if dim <? length s then Ok s else Err IndexError.

(** Broadcasting of two shapes, aligned at their last dimension; the
    arguments are the reversed shapes. *)
Fixpoint broadcast_rev (a b : list nat) : result (list nat) :=
  match a, b with
  | [], _ => Ok b
  | _, [] => Ok a
  | x :: a', y :: b' =>
      r <- broadcast_rev a' b' ;;
      if x =? y then Ok (x :: r)
      else if x =? 1 then Ok (y :: r)
      else if y =? 1 then Ok (x :: r)
      else Err RuntimeError
  end.

Definition broadcast (a b : Shape) : result Shape :=
  r <- broadcast_rev (rev a) (rev b) ;;
  Ok (rev r).

(** [x[:, :, t, :]]: four indices, the third one an integer. *)
Definition select_dim2 (t : nat) (s : Shape) : result Shape :=
  match s with
  | [d0; d1; d2; d3] =>
      if t <? d2 then Ok [d0; d1; d3] else Err IndexError
  | _ => Err IndexError
  end.

(** [torch.cat(tensors, dim=-1)]: at least one tensor, all of the same
    shape up to the last dimension, which adds up. *)
Fixpoint cat_last_from (lead : list nat) (total : nat) (l : list Shape)
  : result Shape :=
  match l with
  | [] => Ok (lead ++ [total])
  | s :: rest =>
      match rev s with
      | [] => Err RuntimeError
      | d :: rl =>
          if shape_eqb (rev rl) lead then cat_last_from lead (total + d) rest
          else Err RuntimeError
      end
  end.

Definition cat_last (l : list Shape) : result Shape :=
  match l with
  | [] => Err RuntimeError
  | s :: _ =>
      match rev s with
      | [] => Err RuntimeError
      | _ :: rl => cat_last_from (rev rl) 0 l
      end
  end.

(** [torch.sum(x, 0)]. *)
Definition sum_dim0 (s : Shape) : result Shape :=
  match s with
  | [] => Err IndexError
  | _ :: rest => Ok rest
  end.

(** [torch.norm(x, p=2, dim=1, keepdim=True)]. *)
Definition norm_dim1_keepdim (s : Shape) : result Shape :=
  match s with
  | d0 :: _ :: rest => Ok (d0 :: 1 :: rest)
  | _ => Err IndexError
  end.

(** [a.expand_as(b)]: [a] must broadcast to exactly the shape of [b]. *)
Definition expand_as (a b : Shape) : result Shape :=
  r <- broadcast a b ;;
  if shape_eqb r b then Ok b else Err RuntimeError.

(** ** Entries of tensors with three dimensions *)

(** Entry [(i, j, k)] of row-major data whose last two dimensions are
    [n1] and [n2]. *)
Definition at3 (d : list R) (n1 n2 : nat) (i j k : nat) : R :=
  nth ((i * n1 + j) * n2 + k) d 0%R.

(** Row-major data of the tensor [(n0, n1, n2)] with entries [f i j k]. *)
Definition tabulate3 (n0 n1 n2 : nat) (f : nat -> nat -> nat -> R)
  : list R :=
  flat_map (fun i =>
    flat_map (fun j => map (fun k => f i j k) (seq 0 n2)) (seq 0 n1))
    (seq 0 n0).

(** The three dimensions of a batched tensor; a tensor without batch
    dimension has the same data as a batch of one. *)
Definition dims3 (s : Shape) : nat * nat * nat :=
  match s with
  | [b; c; n] => (b, c, n)
  | [c; n] => (1, c, n)
  | _ => (0, 0, 0)
  end.

Definition T_view_infer (lead : list nat) (x : Tensor) : result Tensor :=
  s <- view_infer lead (shape x) ;;
  Ok (mkTensor s (data x)).

Definition T_view (size : Shape) (x : Tensor) : result Tensor :=
  s <- view size (shape x) ;;
  Ok (mkTensor s (data x)).

(** [x.permute(0, 2, 1).contiguous()]. *)
Definition T_permute021 (x : Tensor) : result Tensor :=
  s <- permute [0; 2; 1] (shape x) ;;
  let '(b, c, n) := dims3 (shape x) in
  Ok (mkTensor s (tabulate3 b n c (fun i j k => at3 (data x) c n i k j))).

Definition T_bmm (a b : Tensor) : result Tensor :=
  s <- bmm (shape a) (shape b) ;;
  let '(ba, n, m) := dims3 (shape a) in
  let '(_, _, p) := dims3 (shape b) in
  Ok (mkTensor s
        (tabulate3 ba n p (fun i j k =>
           rsum (map (fun l => (at3 (data a) n m i j l
                                * at3 (data b) m p i l k)%R)
                   (seq 0 m))))).

(** [F.softmax(x, dim=1)] on three dimensions: entry [(i, j, k)] is
    normalised over [j]. *)
Definition T_softmax_dim1 (x : Tensor) : result Tensor :=
  s <- softmax_shape 1 (shape x) ;;
  let '(b, n, p) := dims3 (shape x) in
  Ok (mkTensor s
        (tabulate3 b n p (fun i j k =>
           (exp (at3 (data x) n p i j k)
            / rsum (map (fun j' => exp (at3 (data x) n p i j' k))
                      (seq 0 n)))%R))).

(** [gamma * a + x] for a one-entry parameter [gamma] and two tensors of
    one shape (where the code computes it the shapes of [a] and [x]
    always agree, so no entry is ever repeated by broadcasting). *)
Definition T_scale_add (gamma : R) (a x : Tensor) : result Tensor :=
  if shape_eqb (shape a) (shape x) then
    Ok (mkTensor (shape x)
          (map (fun p => (gamma * fst p + snd p)%R)
             (combine (data a) (data x))))
  else Err RuntimeError.

(** ** Layers *)

Module Conv2d.

  (** [nn.Conv2d(in_channels, out_channels, (kernel_h, kernel_w))],
      stride 1 and no padding. The convolution refuses an input with
      another number of channels, a kernel larger than the input, and a
      weight without output channel. *)
Record t : Type := mk {
    in_channels : nat;
    out_channels : nat;
    kernel_h : nat;
    kernel_w : nat
  }.

Definition forward_plane (c : t) (ch h w : nat) : result (nat * nat) :=
    if (ch =? in_channels c) && (1 <=? kernel_h c) && (1 <=? kernel_w c)
       && (kernel_h c <=? h) && (kernel_w c <=? w)
       && (1 <=? out_channels c)
    then Ok (h - kernel_h c + 1, w - kernel_w c + 1)
    else Err RuntimeError.

Definition forward_shape (c : t) (s : Shape) : result Shape :=
    match s with
    | [b; ch; h; w] =>
        '(h', w') <- forward_plane c ch h w ;;
        Ok [b; out_channels c; h'; w']
    | [ch; h; w] =>
        '(h', w') <- forward_plane c ch h w ;;
        Ok [out_channels c; h'; w']
    | _ => Err RuntimeError
    end.

End Conv2d.

Module Conv1d.

  (** [nn.Conv1d(in_channels, out_channels, 1)]: with kernel size 1 the
      weight is one row of [in_channels] factors per output channel.
      The convolution refuses an input with another number of channels,
      an input of length 0, and a weight without output channel. *)
Record t : Type := mk {
    in_channels : nat;
    out_channels : nat;
    weight : list (list R);
    bias : list R
  }.

Definition forward_shape (c : t) (s : Shape) : result Shape :=
    match s with
    | [b; ch; n] =>
        if (ch =? in_channels c) && (1 <=? n) && (1 <=? out_channels c)
        then Ok [b; out_channels c; n]
        else Err RuntimeError
    | [ch; n] =>
        if (ch =? in_channels c) && (1 <=? n) && (1 <=? out_channels c)
        then Ok [out_channels c; n]
        else Err RuntimeError
    | _ => Err RuntimeError
    end.

Definition forward (c : t) (x : Tensor) : result Tensor :=
    s <- forward_shape c (shape x) ;;
    let '(b, ch, n) := dims3 (shape x) in
    Ok (mkTensor s
          (tabulate3 b (out_channels c) n (fun i o k =>
             (nth o (bias c) 0
              + rsum (map (fun ci => nth ci (nth o (weight c) []) 0
                                     * at3 (data x) ch n i ci k)
                        (seq 0 ch)))%R))).

End Conv1d.

(** [conv1d(ni, no)] of the source: a [Conv1d] with kernel size 1, the
    weight drawn by [kaiming_normal_] (here the argument [w]) and the
    bias set to zero. *)
Definition conv1d (ni no : nat) (w : list (list R)) : Conv1d.t :=
  Conv1d.mk ni no w (repeat 0%R no).

Module Linear.

  (** [nn.Linear(in_features, out_features)]: one weight row and one
      bias per output feature. *)
Record t : Type := mk {
    in_features : nat;
    out_features : nat;
    weight : list (list R);
    bias : list R
  }.

Definition forward_shape (l : t) (s : Shape) : result Shape :=
    match rev s with
    | [] => Err RuntimeError
    | d :: lead =>
        if d =? in_features l then Ok (rev lead ++ [out_features l])
        else Err RuntimeError
    end.

Definition dot (a b : list R) : R :=
    rsum (map (fun p => (fst p * snd p)%R) (combine a b)).

Definition forward_row (l : t) (row : list R) : result (list R) :=
    if length row =? in_features l then
      Ok (map (fun o => (dot (nth o (weight l) []) row + nth o (bias l) 0)%R)
            (seq 0 (out_features l)))
    else Err RuntimeError.

  (** On a matrix, row by row. *)
Definition forward (l : t) (x : Matrix) : result Matrix :=
    mapM (forward_row l) x.

End Linear.

Module GRU.

  (** [nn.GRU(input_size, hidden_size, num_layers, bidirectional=...)],
      sequence first. *)
Record t : Type := mk {
    input_size : nat;
    hidden_size : nat;
    num_layers : nat;
    bidirectional : bool;
    dropout : R
  }.

Definition num_directions (g : t) : nat :=
    if bidirectional g then 2 else 1.

  (** Shape of the first output, the hidden states of every step. *)
Definition forward_shape (g : t) (s : Shape) : result Shape :=
    match s with
    | [l; b; f] =>
        if f =? input_size g then Ok [l; b; num_directions g * hidden_size g]
        else Err RuntimeError
    | [l; f] =>
        if f =? input_size g then Ok [l; num_directions g * hidden_size g]
        else Err RuntimeError
    | _ => Err RuntimeError
    end.

End GRU.

(** ** models/AttendAndDiscriminate.py *)

(** Python's [a // b] on integers. *)
Definition floordiv (a b : Z) : result Z :=
  if Z.eqb b 0 then Err ZeroDivisionError else Ok (a / b)%Z.

(** A channel count handed to a layer constructor must not be negative. *)
Definition channel_count (n : Z) : result nat :=
  if Z.ltb n 0 then Err RuntimeError else Ok (Z.to_nat n).

Module SelfAttention.

Record t : Type := mk {
  query : Conv1d.t;
  key : Conv1d.t;
  value : Conv1d.t;
  gamma : R
}.

(** [__init__(n_channels, div)]; [wq], [wk], [wv] are the weights the
    initialiser draws for the three projections. *)
Definition init (n_channels : nat) (div : Z) (wq wk wv : list (list R))
  : result t :=
  qk <- (if 1 <? n_channels then
           d <- floordiv (Z.of_nat n_channels) div ;;
           channel_count d
         else Ok n_channels) ;;
  Ok (mk (conv1d n_channels qk wq)
         (conv1d n_channels qk wk)
         (conv1d n_channels n_channels wv)
         0%R).

Definition forward_shape (sa : t) (size : Shape) : result Shape :=
  x <- view_infer (firstn 2 size) size ;;
  f <- Conv1d.forward_shape (query sa) x ;;
  g <- Conv1d.forward_shape (key sa) x ;;
  h <- Conv1d.forward_shape (value sa) x ;;
  ft <- permute [0; 2; 1] f ;;
  fg <- bmm ft g ;;
  beta <- softmax_shape 1 fg ;;
  hb <- bmm h beta ;;
  o <- broadcast hb x ;;
  view size o.

Definition forward (sa : t) (x : Tensor) : result Tensor :=
  let size := shape x in
  x <- T_view_infer (firstn 2 size) x ;;
  f <- Conv1d.forward (query sa) x ;;
  g <- Conv1d.forward (key sa) x ;;
  h <- Conv1d.forward (value sa) x ;;
  ft <- T_permute021 f ;;
  fg <- T_bmm ft g ;;
  beta <- T_softmax_dim1 fg ;;
  hb <- T_bmm h beta ;;
  o <- T_scale_add (gamma sa) hb x ;;
  T_view size o.

End SelfAttention.

Module TemporalAttention.

Record t : Type := mk {
  fc : Linear.t
}.

Definition init (hidden_dim : nat) (w : list (list R)) (b : list R) : t :=
  mk (Linear.mk hidden_dim 1 w b).

Definition forward_shape (ta : t) (x : Shape) : result Shape :=
  o <- Linear.forward_shape (fc ta) x ;;
  out <- squeeze 2 o ;;
  sm <- softmax_shape 0 out ;;
  weights_att <- unsqueeze 2 sm ;;
  prod <- broadcast weights_att x ;;
  sum_dim0 prod.

End TemporalAttention.

Inductive Activation : Type := ReLU | Tanh.

(** The values the constructors draw at random or take as initial
    weights. *)
Record InitValues : Type := mkInit {
  sa_wq : list (list R);
  sa_wk : list (list R);
  sa_wv : list (list R);
  ta_w : list (list R);
  ta_b : list R;
  cls_w : list (list R);
  cls_b : list R;
  centers_init : Matrix
}.

(** A dropout rate handed to [nn.Dropout] or [nn.GRU] must lie in
    [0, 1]. *)
Definition check_probability (p : R) : result unit :=
  if Rle_dec 0 p then
    if Rle_dec p 1 then Ok tt else Err ValueError
  else Err ValueError.

(** [nn.GRU] wants at least one hidden feature and one layer. *)
Definition check_positive (n : nat) : result unit :=
  if 1 <=? n then Ok tt else Err ValueError.

Module FeatureExtractor.

Record t : Type := mk {
  conv1 : Conv2d.t;
  conv2 : Conv2d.t;
  conv3 : Conv2d.t;
  conv4 : Conv2d.t;
  activation : Activation;
  dropout : R;
  rnn : GRU.t;
  ta : TemporalAttention.t;
  sa : SelfAttention.t
}.

Definition init (input_dim hidden_dim filter_num filter_size
                   enc_num_layers : nat)
    (enc_is_bidirectional : bool) (dropout dropout_rnn : R)
    (activation : string) (sa_div : Z) (iv : InitValues) : result t :=
  let c1 := Conv2d.mk 1 filter_num filter_size 1 in
  let c2 := Conv2d.mk filter_num filter_num filter_size 1 in
  let c3 := Conv2d.mk filter_num filter_num filter_size 1 in
  let c4 := Conv2d.mk filter_num filter_num filter_size 1 in
  let act := if String.eqb activation "ReLU" then ReLU else Tanh in
  let rnn := GRU.mk (filter_num * input_dim) hidden_dim enc_num_layers
               enc_is_bidirectional dropout_rnn in
  _ <- check_probability dropout ;;
  _ <- check_probability dropout_rnn ;;
  _ <- check_positive hidden_dim ;;
  _ <- check_positive enc_num_layers ;;
  let ta := TemporalAttention.init hidden_dim (ta_w iv) (ta_b iv) in
  sa <- SelfAttention.init filter_num sa_div (sa_wq iv) (sa_wk iv) (sa_wv iv) ;;
  Ok (mk c1 c2 c3 c4 act dropout rnn ta sa).

(** [self.sa(torch.unsqueeze(x[:, :, t, :], dim=3))] for one step [t]. *)
Definition refine_step (fe : t) (x : Shape) (step : nat) : result Shape :=
  xt <- select_dim2 step x ;;
  u <- unsqueeze 3 xt ;;
  SelfAttention.forward_shape (sa fe) u.

(** Shape of what [forward] returns; activations and dropout keep the
    shape of their argument. *)
Definition forward_shape (fe : t) (x : Shape) : result Shape :=
  x <- unsqueeze 1 x ;;
  x <- Conv2d.forward_shape (conv1 fe) x ;;
  x <- Conv2d.forward_shape (conv2 fe) x ;;
  x <- Conv2d.forward_shape (conv3 fe) x ;;
  x <- Conv2d.forward_shape (conv4 fe) x ;;
  steps <- getitem x 2 ;;
  slices <- mapM (refine_step fe x) (seq 0 steps) ;;
  refined <- cat_last slices ;;
  x <- permute [3; 0; 1; 2] refined ;;
  d0 <- getitem x 0 ;;
  d1 <- getitem x 1 ;;
  x <- view_infer [d0; d1] x ;;
  outputs <- GRU.forward_shape (rnn fe) x ;;
  TemporalAttention.forward_shape (ta fe) outputs.

End FeatureExtractor.

Module Classifier.

Record t : Type := mk {
  fc : Linear.t
}.

Definition init (hidden_dim num_class : nat) (w : list (list R))
    (b : list R) : t :=
  mk (Linear.mk hidden_dim num_class w b).

Definition forward_shape (c : t) (z : Shape) : result Shape :=
  Linear.forward_shape (fc c) z.

Definition forward (c : t) (z : Matrix) : result Matrix :=
  Linear.forward (fc c) z.

End Classifier.

(** [torch.norm(row, p=2)]. *)
Definition l2norm (row : list R) : R :=
  sqrt (rsum (map (fun v => (v * v)%R) row)).

(** One row divided by its own norm. A row of norm zero has only zero
    entries, and zero divided by zero is not a number. *)
Definition normalize_row (row : list R) : list xreal :=
  if Req_dec_T (l2norm row) 0 then map (fun _ => NotANumber) row
  else map (fun v => Real (v / l2norm row)) row.

(** [feature.div(torch.norm(feature, p=2, dim=1, keepdim=True)
    .expand_as(feature))]: every row divided by its own norm. *)
Definition normalize_rows (feature : Matrix) : XMatrix :=
  map normalize_row feature.

(** The norm of a row of possibly undefined entries. *)
Fixpoint reals_of (row : list xreal) : option (list R) :=
  match row with
  | [] => Some []
  | Real r :: rest =>
      match reals_of rest with
      | Some rs => Some (r :: rs)
      | None => None
      end
  | NotANumber :: _ => None
  end.

Definition xl2norm (row : list xreal) : xreal :=
  match reals_of row with
  | Some rs => Real (l2norm rs)
  | None => NotANumber
  end.

(** [nn.Dropout(p)]: the identity in evaluation mode; in training mode
    the entry [(i, j)] is kept and scaled by [1 / (1 - p)] when the
    random draw [keep i j] says so, and zeroed otherwise. *)
Definition Dropout_row (p : R) (keep : nat -> bool) (row : list R) : list R :=
  map (fun jv => if keep (fst jv) then (snd jv / (1 - p))%R else 0%R)
    (combine (seq 0 (length row)) row).

Definition Dropout (p : R) (training : bool) (keep : nat -> nat -> bool)
    (x : Matrix) : Matrix :=
  if training then
    map (fun ir => Dropout_row p (keep (fst ir)) (snd ir))
      (combine (seq 0 (length x)) x)
  else x.

Module AttendAndDiscriminate.

Record t : Type := mk {
  fe : FeatureExtractor.t;
  dropout : R;
  classifier : Classifier.t;
  centers : Matrix;
  hidden_dim : nat
}.

Definition init (input_dim num_class hidden_dim filter_num filter_size
                   enc_num_layers : nat)
    (enc_is_bidirectional : bool) (dropout dropout_rnn dropout_cls : R)
    (activation : string) (sa_div : Z) (iv : InitValues) : result t :=
  fe <- FeatureExtractor.init input_dim hidden_dim filter_num filter_size
          enc_num_layers enc_is_bidirectional dropout dropout_rnn
          activation sa_div iv ;;
  _ <- check_probability dropout_cls ;;
  Ok (mk fe dropout_cls
        (Classifier.init hidden_dim num_class (cls_w iv) (cls_b iv))
        (centers_init iv) hidden_dim).

(** Shapes of the pair [forward] returns. *)
Definition forward_shape (m : t) (x : Shape) : result (Shape * Shape) :=
  feature <- FeatureExtractor.forward_shape (fe m) x ;;
  nrm <- norm_dim1_keepdim feature ;;
  e <- expand_as nrm feature ;;
  z <- broadcast feature e ;;
  logits <- Classifier.forward_shape (classifier m) feature ;;
  Ok (z, logits).

(** [forward] on values. The feature extractor is a callable held by
    the container: [fe_forward] is what [self.fe(x)] evaluates to, one
    row per window. [training] is the mode of the module and [keep] the
    random draws of the dropout layer. *)
Definition forward (fe_forward : Tensor -> result Matrix) (m : t)
    (training : bool) (keep : nat -> nat -> bool) (x : Tensor)
  : result (XMatrix * Matrix) :=
  feature <- fe_forward x ;;
  let z := normalize_rows feature in
  let out := Dropout (dropout m) training keep feature in
  logits <- Classifier.forward (classifier m) out ;;
  Ok (z, logits).

(** The container as the driver calls it, after [model.eval()]. *)
Definition as_model (fe_forward : Tensor -> result Matrix) (m : t) : Model :=
  forward fe_forward m false (fun _ _ => true).

End AttendAndDiscriminate.

(** ** eval.py: [eval_model] *)

(** A [state_dict]: parameter names and their tensors, in order. *)
Definition StateDict : Type := list (string * Tensor).

(** What a key of a checkpoint can hold: a state dict, or anything else
    (an epoch number, an optimiser state). *)
Inductive pyobj : Type :=
| PStateDict (sd : StateDict)
| POther.

(** A file: a pickled dictionary, or bytes [torch.load] cannot read. *)
Inductive file : Type :=
| Pickle (d : list (string * pyobj))
| Unreadable.

Definition FileSystem : Type := string -> option file.

Fixpoint assoc {V : Type} (k : string) (d : list (string * V)) : option V :=
  match d with
  | [] => None
  | (k', v) :: rest => if String.eqb k k' then Some v else assoc k rest
  end.

Definition keys {V : Type} (d : list (string * V)) : list string :=
  map fst d.

Definition torch_load (fs : FileSystem) (path : string)
  : result (list (string * pyobj)) :=
  match fs path with
  | None => Err FileNotFoundError
  | Some Unreadable => Err UnpicklingError
  | Some (Pickle d) => Ok d
  end.

(** [d[key]] on a dictionary. *)
Definition dict_getitem {V : Type} (d : list (string * V)) (key : string)
  : result V :=
  from_option KeyError (assoc key d).

(** A model as [eval_model] uses it: the checkpoint directory (an
    attribute the base class sets), the current parameters, and the
    forward pass in evaluation mode as a function of the parameters. *)
Record TorchModel : Type := mkModel {
  path_checkpoints : string;
  state_dict : StateDict;
  forward_of : StateDict -> Model
}.

(** The strict comparison of [load_state_dict]: no key of the model is
    missing, no key is unexpected, and every tensor has the shape of the
    parameter it replaces. *)
Definition state_dict_compatible (own sd : StateDict) : bool :=
  forallb (fun k => existsb (String.eqb k) (keys sd)) (keys own)
  && forallb (fun k => existsb (String.eqb k) (keys own)) (keys sd)
  && forallb (fun kv =>
                match assoc (fst kv) own with
                | Some v => shape_eqb (shape (snd kv)) (shape v)
                | None => true
                end) sd.

Definition load_state_dict (m : TorchModel) (o : pyobj) : result TorchModel :=
  match o with
  | POther => Err TypeError
  | PStateDict sd =>
      if state_dict_compatible (state_dict m) sd
      then Ok (mkModel (path_checkpoints m) sd (forward_of m))
      else Err RuntimeError
  end.

(** [os.path.join(a, b)] for two components. *)
Fixpoint ends_with_slash (s : string) : bool :=
  match s with
  | EmptyString => false
  | String c EmptyString => Ascii.eqb c "/"
  | String _ rest => ends_with_slash rest
  end.

Definition starts_with_slash (s : string) : bool :=
  match s with
  | String c _ => Ascii.eqb c "/"
  | EmptyString => false
  end.

Definition os_path_join (a b : string) : string :=
  if starts_with_slash b then b
  else if String.eqb a EmptyString || ends_with_slash a then (a ++ b)%string
  else (a ++ "/" ++ b)%string.

Definition checkpoint_path (m : TorchModel) : string :=
  os_path_join (path_checkpoints m) "checkpoint_best.pth".

(** [np.random.seed(int(seed))]: the seed must fit 32 bits. *)
Definition np_random_seed (seed : Z) : result unit :=
  if (0 <=? seed)%Z && (seed <? 2 ^ 32)%Z then Ok tt else Err ValueError.

(** Modelled from the spec: the dataset collaborator, whose source is
    not part of the two files. It carries the [prefix] tag of its split
    and yields [(window, target, index)] triples; every window has the
    same fixed shape. *)
Record SensorDataset : Type := mkDataset {
  ds_prefix : string;
  window_shape : Shape;
  samples : list (list R * Z * Z)
}.

(** Consecutive groups of [n] items, the last one possibly shorter;
    [cur] holds the items of the group being filled, last first. *)
Fixpoint chunks_from {A : Type} (n : nat) (cur : list A) (l : list A)
  : list (list A) :=
  match l with
  | [] => match cur with [] => [] | _ => [rev cur] end
  | x :: rest =>
      if length (x :: cur) =? n then rev (x :: cur) :: chunks_from n [] rest
      else chunks_from n (x :: cur) rest
  end.

(** The default collation: windows stacked along a new first
    dimension, targets and indices gathered. *)
Definition collate (ws : Shape) (items : list (list R * Z * Z)) : Batch :=
  mkBatch (mkTensor (length items :: ws)
             (concat (map (fun s => fst (fst s)) items)))
          (map (fun s => snd (fst s)) items)
          (map (fun s => snd s) items).

(** [DataLoader(dataset, batch_size, False, ...)]: no shuffling. *)
Definition DataLoader (ds : SensorDataset) (batch_size : Z) : result Loader :=
  if (batch_size <=? 0)%Z then Err ValueError
  else Ok (mkLoader (ds_prefix ds)
             (map (collate (window_shape ds))
                (chunks_from (Z.to_nat batch_size) [] (samples ds)))).

(** Python's [round] to an integer: to the nearest, ties to even. *)
Definition py_round (q : Q) : Z :=
  let f := Qfloor q in
  let r := (q - inject_Z f)%Q in
  match Qcompare r (1 # 2) with
  | Lt => f
  | Gt => (f + 1)%Z
  | Eq => if Z.even f then f else (f + 1)%Z
  end.

Definition str_Z (z : Z) : string := NilZero.string_of_int (Z.to_int z).

Definition two_digits (z : Z) : string :=
  if (z <? 10)%Z then ("0" ++ str_Z z)%string else str_Z z.

(** [str(timedelta(seconds=s))]. *)
Definition timedelta_str (s : Z) : string :=
  let days := (s / 86400)%Z in
  let rem := (s mod 86400)%Z in
  let hms := (str_Z (rem / 3600) ++ ":" ++ two_digits ((rem mod 3600) / 60)
              ++ ":" ++ two_digits (rem mod 60))%string in
  if (days =? 0)%Z then hms
  else (str_Z days ++ (if (Z.abs days =? 1)%Z then " day, " else " days, ")
        ++ hms)%string.

(** What [eval_model] returns. *)
Record EvalReport : Type := mkReport {
  loss_test : R;
  acc_test : pyfloat;
  fm_test : pyfloat;
  fw_test : pyfloat;
  elapsed : string;
  preds : list Z
}.

(** [eval_model(model, eval_data, criterion, batch_size, seed)]. The
    file system [fs] and the two readings [t0], [t1] of [time.time()]
    are what the function reads from its environment; what it prints is
    not part of the result. *)
Definition eval_model (fs : FileSystem) (t0 t1 : Q) (model : TorchModel)
    (eval_data : SensorDataset) (criterion : option Criterion)
    (batch_size seed : Z) : result EvalReport :=
  let criterion :=
    match criterion with
    | None => CrossEntropyLoss
    | Some c => c
    end in
  _ <- np_random_seed seed ;;
  loader_test <- DataLoader eval_data batch_size ;;
  let path_checkpoint := checkpoint_path model in
  checkpoint <- torch_load fs path_checkpoint ;;
  sd <- dict_getitem checkpoint "model_state_dict" ;;
  model <- load_state_dict model sd ;;
  r <- eval_one_epoch (forward_of model (state_dict model)) loader_test
         criterion true false ;;
  match r with
  | RetPreds loss acc fm fw p =>
      let elapsed := timedelta_str (py_round (t1 - t0)%Q) in
      Ok (mkReport loss acc fm fw elapsed p)
  | _ => Err ValueError
  end.

(** ** Further vocabulary *)

(** What line 97 picks for one row: a valid class index whose logit is
    the largest of the row, the first one in case of ties. *)
Definition is_first_max (row : list R) (c : Z) : Prop :=
  (0 <= c < Z.of_nat (length row))%Z /\
  (forall j, j < length row ->
             (nth j row 0 <= nth (Z.to_nat c) row 0)%R) /\
  (forall j, j < Z.to_nat c ->
             (nth j row 0 < nth (Z.to_nat c) row 0)%R).


(** ** The temporal attention on values *)

(** The tensor the recurrent encoder hands on: [steps] time steps of
    [batch] rows of [features] entries, row-major. *)
Record Tensor3 : Type := mkTensor3 {
  steps : nat;
  batch : nat;
  features : nat;
  entries : list R
}.

(** The hidden vector of sample [b] at step [t]. *)
Definition hidden_at (x : Tensor3) (t b : nat) : list R :=
  map (fun h => at3 (entries x) (batch x) (features x) t b h)
    (seq 0 (features x)).

(** [self.fc(x).squeeze(2)]: the score of step [t] for sample [b]. *)
Definition attention_score (ta : TemporalAttention.t) (x : Tensor3)
    (t b : nat) : R :=
  (Linear.dot (nth 0 (Linear.weight (TemporalAttention.fc ta)) [])
     (hidden_at x t b)
   + nth 0 (Linear.bias (TemporalAttention.fc ta)) 0)%R.

(** [self.sm(out)], the softmax over the time axis: the weight of step
    [t] for sample [b]. *)
Definition attention_weight (ta : TemporalAttention.t) (x : Tensor3)
    (t b : nat) : R :=
  (exp (attention_score ta x t b)
   / rsum (map (fun t' => exp (attention_score ta x t' b))
             (seq 0 (steps x))))%R.

(** [TemporalAttention.forward] on a tensor of three dimensions, for a
    layer whose linear map has one output, as the constructor builds
    it: [torch.sum(weights_att * x, 0)], one row per sample. The linear
    map refuses another number of features than it was built for. *)
Definition TemporalAttention_forward (ta : TemporalAttention.t)
    (x : Tensor3) : result Matrix :=
  if (features x =? Linear.in_features (TemporalAttention.fc ta))
     && (Linear.out_features (TemporalAttention.fc ta) =? 1)
  then
    Ok (map (fun b =>
          map (fun h =>
            rsum (map (fun t =>
                    (attention_weight ta x t b
                     * at3 (entries x) (batch x) (features x) t b h)%R)
                  (seq 0 (steps x))))
            (seq 0 (features x)))
          (seq 0 (batch x)))
  else Err RuntimeError.
(** ** A small run *)

(** Two windows of three time steps and one channel, with labels 1 and
    2, and a model that scores three classes and gets both right. *)
Definition demo_logits : Matrix :=
  [[0; 1; 0]; [0; 0; 1]]%R.

Definition demo_model : Model :=
  fun _ => Ok ([[Real 1; Real 0]; [Real 0; Real 1]], demo_logits).

Definition demo_batch : Batch :=
  mkBatch (mkTensor [2; 3; 1] [0; 0; 0; 0; 0; 0]%R) [1; 2]%Z [0; 1]%Z.

Definition demo_test_loader : Loader := mkLoader "test" [demo_batch].

Definition demo_val_loader : Loader := mkLoader "val" [demo_batch].


(** A small configuration: one sensor channel, two filters of size 2,
    two hidden features, two classes. *)
Definition demo_init_values : InitValues :=
  mkInit [[1; 0]; [0; 1]]%R [[0; 1]; [1; 0]]%R [[1; 1]; [0; 1]]%R
         [[1; 1]]%R [0]%R
         [[1; 0]; [0; 1]]%R [0; 0]%R
         [[0; 0]; [0; 0]]%R.

Definition demo_tensor : Tensor :=
  mkTensor [1; 2; 2] [1; 2; 3; 4]%R.

(** One window of five time steps and one channel, the shortest the
    four convolutions of the small configuration accept. *)
Definition demo_window : Tensor :=
  mkTensor [1; 5; 1] [1; 2; 3; 4; 5]%R.

(** A feature extractor that answers every batch with one window and
    the embedding (3, 4). *)
Definition demo_fe_forward : Tensor -> result Matrix :=
  fun _ => Ok [[3; 4]]%R.

Definition demo_torch_model : TorchModel :=
  mkModel "checkpoints" [("classifier.fc.bias"%string, mkTensor [2] [0; 0]%R)]
    (fun _ => demo_model).

Definition demo_dataset : SensorDataset :=
  mkDataset "test" [3; 1]
    [([0; 0; 0]%R, 1%Z, 0%Z); ([0; 0; 0]%R, 2%Z, 1%Z)].

(** No checkpoint was written. *)
Definition demo_fs_empty : FileSystem := fun _ => None.

(** A checkpoint whose only tensor has another shape than the model's. *)
Definition demo_fs_mismatch : FileSystem :=
  fun path =>
    if String.eqb path "checkpoints/checkpoint_best.pth" then
      Some (Pickle [("model_state_dict"%string,
                     PStateDict [("classifier.fc.bias"%string,
                                  mkTensor [3] [0; 0; 0]%R)])])
    else None.

(** A checkpoint that fits the small model, and one without the key. *)
Definition demo_fs_good : FileSystem :=
  fun path =>
    if String.eqb path "checkpoints/checkpoint_best.pth" then
      Some (Pickle [("model_state_dict"%string,
                     PStateDict [("classifier.fc.bias"%string,
                                  mkTensor [2] [1; 1]%R)])])
    else None.

Definition demo_fs_no_key : FileSystem :=
  fun path =>
    if String.eqb path "checkpoints/checkpoint_best.pth" then
      Some (Pickle [("epoch"%string, POther)])
    else None.

Definition demo_empty_dataset : SensorDataset :=
  mkDataset "val" [3; 1] [].

(** The small feature extractor and container, one-directional. *)
Definition demo_fe_init : result FeatureExtractor.t :=
  FeatureExtractor.init 1 2 2 2 1 false (1 / 2)%R (1 / 2)%R "ReLU" 1
    demo_init_values.

Definition demo_container_init : result AttendAndDiscriminate.t :=
  AttendAndDiscriminate.init 1 2 2 2 2 1 false (1 / 2)%R (1 / 2)%R (1 / 2)%R
    "ReLU" 1 demo_init_values.

(** Hidden states of one sample over two steps, and of two samples at a
    single step, two features each. *)
Definition demo_two_steps : Tensor3 := mkTensor3 2 1 2 [1; 2; 3; 4]%R.

Definition demo_one_step : Tensor3 := mkTensor3 1 2 2 [1; 2; 3; 4]%R.

(** ** The recurrent encoder and the temporal attention *)

Ltac step_bind :=
  match goal with
  | |- raises (bind ?m _) =>
      let E := fresh "E" in
      destruct m eqn:E; [cbn [bind] | eexists; reflexivity]
  end.

Lemma raises_Err {A : Type} (e : exn) : raises (@Err A e).
Proof. exists e; reflexivity. Qed.

(** The recurrent layer returns [num_directions * hidden_size] features
    per step. *)
Lemma GRU_forward_shape_last (g : GRU.t) (s o : Shape) :
  GRU.forward_shape g s = Ok o ->
  exists lead, rev o = (GRU.num_directions g * GRU.hidden_size g) :: lead.
Proof.
  unfold GRU.forward_shape. intros H.
  destruct s as [|l [|b [|f [|? ?]]]]; try discriminate.
  - destruct (b =? GRU.input_size g); [|discriminate].
    inversion H; subst. eexists; reflexivity.
  - destruct (f =? GRU.input_size g); [|discriminate].
    inversion H; subst. eexists; reflexivity.
Qed.

Lemma Linear_forward_shape_mismatch (l : Linear.t) (s : Shape) (d : nat)
    (lead : list nat) :
  rev s = d :: lead -> d <> Linear.in_features l ->
  Linear.forward_shape l s = Err RuntimeError.
Proof.
  intros Hs Hd. unfold Linear.forward_shape. rewrite Hs.
  destruct (Nat.eqb_spec d (Linear.in_features l)); [contradiction|reflexivity].
Qed.

Lemma check_probability_ok (p : R) :
  (0 <= p <= 1)%R -> check_probability p = Ok tt.
Proof.
  intros [H0 H1]. unfold check_probability.
  destruct (Rle_dec 0 p); [|contradiction].
  destruct (Rle_dec p 1); [reflexivity|contradiction].
Qed.

Lemma check_probability_inv (p : R) (u : unit) :
  check_probability p = Ok u -> (0 <= p <= 1)%R.
Proof.
  unfold check_probability.
  destruct (Rle_dec 0 p); [|discriminate].
  destruct (Rle_dec p 1); [|discriminate]. intros _. split; assumption.
Qed.

Lemma check_positive_inv (n : nat) (u : unit) :
  check_positive n = Ok u -> 1 <= n.
Proof.
  unfold check_positive. destruct (Nat.leb_spec 1 n); [|discriminate].
  intros _. assumption.
Qed.

Ltac init_bind H :=
  match type of H with
  | bind ?m _ = Ok _ =>
      let E := fresh "E" in
      destruct m eqn:E; cbn [bind] in H; [|discriminate]
  end.

(** The constructor goes through for rates in [0, 1], a positive hidden
    size and at least one layer only. *)
Lemma FeatureExtractor_init_valid
    (input_dim hidden_dim filter_num filter_size enc_num_layers : nat)
    (bidir : bool) (dropout dropout_rnn : R) (activation : string)
    (sa_div : Z) (iv : InitValues) (fe : FeatureExtractor.t) :
  FeatureExtractor.init input_dim hidden_dim filter_num filter_size
    enc_num_layers bidir dropout dropout_rnn activation sa_div iv = Ok fe ->
  (0 <= dropout <= 1)%R /\ (0 <= dropout_rnn <= 1)%R /\
  1 <= hidden_dim /\ 1 <= enc_num_layers.
Proof.
  unfold FeatureExtractor.init. intros H.
  do 4 init_bind H.
  repeat match goal with
  | E : check_probability _ = Ok _ |- _ => apply check_probability_inv in E
  | E : check_positive _ = Ok _ |- _ => apply check_positive_inv in E
  end.
  tauto.
Qed.

Lemma FeatureExtractor_init_layers
    (input_dim hidden_dim filter_num filter_size enc_num_layers : nat)
    (bidir : bool) (dropout dropout_rnn : R) (activation : string)
    (sa_div : Z) (iv : InitValues) (fe : FeatureExtractor.t) :
  FeatureExtractor.init input_dim hidden_dim filter_num filter_size
    enc_num_layers bidir dropout dropout_rnn activation sa_div iv = Ok fe ->
  FeatureExtractor.conv1 fe = Conv2d.mk 1 filter_num filter_size 1 /\
  FeatureExtractor.conv2 fe = Conv2d.mk filter_num filter_num filter_size 1 /\
  FeatureExtractor.conv3 fe = Conv2d.mk filter_num filter_num filter_size 1 /\
  FeatureExtractor.conv4 fe = Conv2d.mk filter_num filter_num filter_size 1 /\
  FeatureExtractor.rnn fe
    = GRU.mk (filter_num * input_dim) hidden_dim enc_num_layers bidir
        dropout_rnn /\
  Linear.in_features (TemporalAttention.fc (FeatureExtractor.ta fe))
    = hidden_dim /\
  Linear.out_features (TemporalAttention.fc (FeatureExtractor.ta fe)) = 1 /\
  SelfAttention.init filter_num sa_div (sa_wq iv) (sa_wk iv) (sa_wv iv)
    = Ok (FeatureExtractor.sa fe).
Proof.
  unfold FeatureExtractor.init. intros H.
  do 5 init_bind H.
  inversion H; subst; cbn. repeat split; reflexivity.
Qed.

(** Whatever reaches the temporal attention of a bidirectional encoder
    is refused by its linear layer. *)
Lemma bidirectional_raises (fe : FeatureExtractor.t) (hidden_dim : nat) :
  GRU.bidirectional (FeatureExtractor.rnn fe) = true ->
  GRU.hidden_size (FeatureExtractor.rnn fe) = hidden_dim ->
  Linear.in_features (TemporalAttention.fc (FeatureExtractor.ta fe))
    = hidden_dim ->
  1 <= hidden_dim ->
  forall x : Shape, raises (FeatureExtractor.forward_shape fe x).
Proof.
  intros Hb Hh Hin Hpos x. unfold FeatureExtractor.forward_shape.
  repeat step_bind.
  match goal with
  | E : GRU.forward_shape _ _ = Ok ?o |- _ =>
      destruct (GRU_forward_shape_last _ _ E) as [lead Hlast]
  end.
  unfold TemporalAttention.forward_shape.
  rewrite (Linear_forward_shape_mismatch _ _ Hlast).
  - apply raises_Err.
  - unfold GRU.num_directions. rewrite Hb, Hh, Hin. lia.
Qed.

(** C2. With [enc_is_bidirectional = true] the recurrent encoder returns
    [2 * hidden_dim] features per step while the linear layer of the
    temporal attention was built for [hidden_dim] inputs, so [forward]
    raises on every input: no embedding is returned. *)
Theorem bidirectional_forward_fails
    (input_dim hidden_dim filter_num filter_size enc_num_layers : nat)
    (dropout dropout_rnn : R) (activation : string) (sa_div : Z)
    (iv : InitValues) (fe : FeatureExtractor.t) :
  FeatureExtractor.init input_dim hidden_dim filter_num filter_size
    enc_num_layers true dropout dropout_rnn activation sa_div iv = Ok fe ->
  1 <= hidden_dim ->
  GRU.num_directions (FeatureExtractor.rnn fe)
    * GRU.hidden_size (FeatureExtractor.rnn fe) = 2 * hidden_dim /\
  Linear.in_features (TemporalAttention.fc (FeatureExtractor.ta fe))
    = hidden_dim /\
  forall x : Shape, raises (FeatureExtractor.forward_shape fe x).
Proof.
  intros Hinit Hh.
  destruct (FeatureExtractor_init_layers _ _ _ _ _ _ _ _ _ _ _ Hinit)
    as (_ & _ & _ & _ & Hrnn & Hin & _ & _).
  split; [rewrite Hrnn; reflexivity|]. split; [exact Hin|].
  apply (@bidirectional_raises fe hidden_dim); try assumption;
    rewrite Hrnn; reflexivity.
Qed.

(** ** The feature extractor with a one-directional encoder *)

Lemma shape_eqb_refl (s : Shape) : shape_eqb s s = true.
Proof.
  unfold shape_eqb. destruct (list_eq_dec Nat.eq_dec s s); congruence.
Qed.

Lemma mapM_const {A B : Type} (f : A -> result B) (b : B) (l : list A) :
  (forall a, In a l -> f a = Ok b) ->
  mapM f l = Ok (repeat b (length l)).
Proof.
  induction l as [|a l IH]; intros H; [reflexivity|].
  cbn [mapM length repeat]. rewrite (H a (or_introl eq_refl)). cbn [bind].
  rewrite IH by (intros a' Ha'; apply H; right; exact Ha'). reflexivity.
Qed.

Lemma cat_last_from_repeat (lead : list nat) (total n : nat) :
  cat_last_from lead total (repeat (lead ++ [1]) n)
  = Ok (lead ++ [total + n]).
Proof.
  revert total; induction n as [|n IH]; intros total.
  - cbn. rewrite Nat.add_0_r. reflexivity.
  - cbn [repeat cat_last_from]. rewrite rev_app_distr. cbn [rev app].
    rewrite rev_involutive, shape_eqb_refl, IH.
    do 3 f_equal. lia.
Qed.

Lemma cat_last_repeat (lead : list nat) (n : nat) :
  1 <= n -> cat_last (repeat (lead ++ [1]) n) = Ok (lead ++ [n]).
Proof.
  intros Hn. destruct n as [|n]; [lia|].
  unfold cat_last. cbn [repeat]. rewrite rev_app_distr. cbn [rev app].
  rewrite rev_involutive.
  change (cat_last_from lead 0 (repeat (lead ++ [1]) (S n))
          = Ok (lead ++ [S n])).
  apply cat_last_from_repeat.
Qed.

Lemma Conv2d_forward_shape_time (f_in f_out k b h w : nat) :
  1 <= k -> k <= h -> 1 <= w -> 1 <= f_out ->
  Conv2d.forward_shape (Conv2d.mk f_in f_out k 1) [b; f_in; h; w]
  = Ok [b; f_out; h - k + 1; w].
Proof.
  intros Hk Hh Hw Ho. unfold Conv2d.forward_shape, Conv2d.forward_plane.
  cbn [Conv2d.in_channels Conv2d.kernel_h Conv2d.kernel_w Conv2d.out_channels].
  rewrite Nat.eqb_refl.
  destruct (Nat.leb_spec 1 k); [|lia].
  destruct (Nat.leb_spec k h); [|lia].
  destruct (Nat.leb_spec 1 w); [|lia].
  destruct (Nat.leb_spec 1 f_out); [|lia].
  cbn [andb bind]. replace (w - 1 + 1) with w by lia. reflexivity.
Qed.

Lemma view_infer_exact (lead : list nat) (s : Shape) (q : nat) :
  numel lead <> 0 -> numel s = q * numel lead ->
  view_infer lead s = Ok (lead ++ [q]).
Proof.
  intros Hp Hs. unfold view_infer.
  destruct (Nat.eqb_spec (numel lead) 0); [contradiction|].
  rewrite Hs, Nat.Div0.mod_mul, Nat.div_mul by assumption. reflexivity.
Qed.

(** The query and key projections of a block keep at least one channel
    when the block has one channel, or when [div] is positive and at
    most the number of channels. *)
Lemma SelfAttention_init_width (n_channels : nat) (div : Z)
    (wq wk wv : list (list R)) (sa : SelfAttention.t) :
  SelfAttention.init n_channels div wq wk wv = Ok sa ->
  n_channels = 1 \/ (0 < div <= Z.of_nat n_channels)%Z ->
  1 <= Conv1d.out_channels (SelfAttention.query sa).
Proof.
  unfold SelfAttention.init. intros H Hdiv.
  destruct (Nat.ltb_spec 1 n_channels) as [Hn|Hn].
  - assert (Hd : (0 < div <= Z.of_nat n_channels)%Z) by lia.
    unfold floordiv in H. destruct (Z.eqb_spec div 0) as [->|_]; [lia|].
    cbn [bind] in H. unfold channel_count in H.
    assert (Hq : (1 <= Z.of_nat n_channels / div)%Z).
    { apply Z.div_le_lower_bound; lia. }
    destruct (Z.ltb_spec (Z.of_nat n_channels / div) 0); [lia|].
    cbn [bind] in H. inversion H; subst sa.
    cbn [SelfAttention.query conv1d Conv1d.out_channels]. lia.
  - cbn [bind] in H. inversion H; subst sa.
    cbn [SelfAttention.query conv1d Conv1d.out_channels]. lia.
Qed.

(** At the shape level the attention block returns the shape it was
    given. *)
Lemma SelfAttention_forward_shape_ok (n_channels : nat) (div : Z)
    (wq wk wv : list (list R)) (sa : SelfAttention.t) (b c : nat) :
  SelfAttention.init n_channels div wq wk wv = Ok sa ->
  1 <= Conv1d.out_channels (SelfAttention.query sa) ->
  1 <= b -> 1 <= n_channels -> 1 <= c ->
  SelfAttention.forward_shape sa [b; n_channels; c; 1]
  = Ok [b; n_channels; c; 1].
Proof.
  intros Hinit Hw Hb Hn Hc. unfold SelfAttention.init in Hinit.
  match type of Hinit with
  | bind ?m _ = _ => destruct m as [qk|]; cbn [bind] in Hinit; [|discriminate]
  end.
  inversion Hinit; subst sa; clear Hinit.
  cbn [SelfAttention.query conv1d Conv1d.out_channels] in Hw.
  unfold SelfAttention.forward_shape.
  cbn [SelfAttention.query SelfAttention.key SelfAttention.value firstn].
  rewrite (@view_infer_exact [b; n_channels] [b; n_channels; c; 1] c)
    by (cbn [numel fold_right]; nia).
  cbn [bind app]. unfold conv1d, Conv1d.forward_shape.
  cbn [Conv1d.in_channels Conv1d.out_channels].
  rewrite Nat.eqb_refl. destruct (Nat.leb_spec 1 c); [|lia].
  destruct (Nat.leb_spec 1 qk); [|lia].
  destruct (Nat.leb_spec 1 n_channels); [|lia].
  cbn [andb bind]. unfold permute. cbn [length Nat.eqb mapM getitem nth_error
    from_option bind]. unfold bmm. rewrite !Nat.eqb_refl. cbn [andb bind].
  unfold softmax_shape. cbn [length Nat.ltb Nat.leb bind].
  rewrite !Nat.eqb_refl. cbn [andb bind].
  unfold broadcast. cbn [rev app broadcast_rev bind]. rewrite !Nat.eqb_refl.
  cbn [bind rev app]. unfold view.
  destruct (Nat.eqb_spec (numel [b; n_channels; c; 1]) (numel [b; n_channels; c]))
    as [_|E]; [reflexivity|].
  exfalso; apply E; cbn [numel fold_right]; lia.
Qed.

Lemma TemporalAttention_forward_shape_ok (ta : TemporalAttention.t)
    (l b h : nat) :
  Linear.in_features (TemporalAttention.fc ta) = h ->
  Linear.out_features (TemporalAttention.fc ta) = 1 ->
  TemporalAttention.forward_shape ta [l; b; h] = Ok [b; h].
Proof.
  intros Hin Hout. unfold TemporalAttention.forward_shape, Linear.forward_shape.
  cbn [rev app]. rewrite Hin, Hout, Nat.eqb_refl. cbn [bind rev app].
  unfold squeeze. cbn [nth_error Nat.eqb firstn skipn app bind].
  unfold softmax_shape. cbn [length Nat.ltb Nat.leb bind].
  unfold unsqueeze. cbn [length Nat.leb firstn skipn app bind].
  unfold broadcast. cbn [rev app broadcast_rev bind].
  rewrite !Nat.eqb_refl. cbn [bind].
  destruct (Nat.eqb_spec 1 h) as [<-|_]; reflexivity.
Qed.

(** With a one-directional encoder the feature extractor returns one
    embedding of [hidden_dim] features per window, for windows long
    enough for the four convolutions. *)
Lemma unidirectional_forward_shape
    (input_dim hidden_dim filter_num filter_size enc_num_layers : nat)
    (dropout dropout_rnn : R) (activation : string) (sa_div : Z)
    (iv : InitValues) (fe : FeatureExtractor.t) (b t : nat) :
  FeatureExtractor.init input_dim hidden_dim filter_num filter_size
    enc_num_layers false dropout dropout_rnn activation sa_div iv = Ok fe ->
  filter_num = 1 \/ (0 < sa_div <= Z.of_nat filter_num)%Z ->
  1 <= b -> 1 <= input_dim -> 1 <= filter_num -> 1 <= filter_size ->
  4 * (filter_size - 1) < t ->
  FeatureExtractor.forward_shape fe [b; t; input_dim] = Ok [b; hidden_dim].
Proof.
  intros Hinit Hdiv Hb Hc Hf Hk Ht.
  destruct (FeatureExtractor_init_layers _ _ _ _ _ _ _ _ _ _ _ Hinit)
    as (H1 & H2 & H3 & H4 & Hrnn & Hin & Hout & Hsa).
  pose proof (@SelfAttention_init_width _ _ _ _ _ _ Hsa Hdiv) as Hw.
  unfold FeatureExtractor.forward_shape. rewrite H1, H2, H3, H4, Hrnn.
  unfold unsqueeze at 1. cbn [length Nat.leb firstn skipn app bind].
  rewrite Conv2d_forward_shape_time by lia. cbn [bind].
  rewrite Conv2d_forward_shape_time by lia. cbn [bind].
  rewrite Conv2d_forward_shape_time by lia. cbn [bind].
  rewrite Conv2d_forward_shape_time by lia. cbn [bind].
  set (n := t - filter_size + 1 - filter_size + 1 - filter_size + 1
            - filter_size + 1).
  assert (Hn : 1 <= n) by (subst n; lia).
  cbn [getitem nth_error from_option bind].
  rewrite (@mapM_const _ _ _ ([b; filter_num; input_dim] ++ [1])).
  2:{ intros step Hstep. apply in_seq in Hstep.
      unfold FeatureExtractor.refine_step, select_dim2.
      destruct (Nat.ltb_spec step n); [|lia]. cbn [bind].
      unfold unsqueeze. cbn [length Nat.leb firstn skipn app bind].
      apply (SelfAttention_forward_shape_ok _ _ _ _ Hsa); assumption. }
  cbn [bind]. rewrite length_seq, cat_last_repeat by exact Hn.
  cbn [bind app]. unfold permute.
  cbn [length Nat.eqb mapM getitem nth_error from_option bind].
  rewrite (@view_infer_exact [n; b] _ (filter_num * input_dim))
    by (cbn [numel fold_right]; nia).
  cbn [bind app]. unfold GRU.forward_shape.
  cbn [GRU.input_size GRU.num_directions GRU.bidirectional GRU.hidden_size].
  rewrite Nat.eqb_refl, Nat.mul_1_l. cbn [bind].
  apply TemporalAttention_forward_shape_ok; assumption.
Qed.

(** ** The self-attention block on values *)

Lemma flat_map_length_const {A B : Type} (f : A -> list B) (k : nat)
    (l : list A) :
  (forall a, length (f a) = k) -> length (flat_map f l) = length l * k.
Proof.
  intros Hf. induction l as [|a l IH]; [reflexivity|].
  cbn [flat_map length]. rewrite length_app, Hf, IH. lia.
Qed.

Lemma tabulate3_length (n0 n1 n2 : nat) (f : nat -> nat -> nat -> R) :
  length (tabulate3 n0 n1 n2 f) = n0 * n1 * n2.
Proof.
  unfold tabulate3.
  rewrite (@flat_map_length_const _ _ _ (n1 * n2)), length_seq; [lia|].
  intros i. rewrite (@flat_map_length_const _ _ _ n2), length_seq; [lia|].
  intros j. rewrite length_map, length_seq. reflexivity.
Qed.

Lemma scale_zero_add (a x : list R) :
  length x <= length a ->
  map (fun p => (0 * fst p + snd p)%R) (combine a x) = x.
Proof.
  revert a; induction x as [|v x IH]; intros [|u a] Hl;
    try reflexivity; cbn [length] in Hl; [lia|].
  cbn [combine map fst snd]. rewrite IH by lia. f_equal. lra.
Qed.

Lemma SelfAttention_init_fields (n_channels : nat) (div : Z)
    (wq wk wv : list (list R)) (sa : SelfAttention.t) :
  SelfAttention.init n_channels div wq wk wv = Ok sa ->
  SelfAttention.gamma sa = 0%R /\
  Conv1d.in_channels (SelfAttention.query sa) = n_channels /\
  Conv1d.in_channels (SelfAttention.key sa) = n_channels /\
  Conv1d.in_channels (SelfAttention.value sa) = n_channels /\
  Conv1d.out_channels (SelfAttention.value sa) = n_channels /\
  Conv1d.out_channels (SelfAttention.query sa)
    = Conv1d.out_channels (SelfAttention.key sa).
Proof.
  unfold SelfAttention.init. intros H.
  match type of H with
  | bind ?m _ = _ => destruct m as [qk|]; cbn [bind] in H; [|discriminate]
  end.
  inversion H; subst sa. cbn. repeat split; reflexivity.
Qed.

Lemma Conv1d_forward_ok (cv : Conv1d.t) (b c n : nat) (d : list R) :
  Conv1d.in_channels cv = c -> 1 <= n -> 1 <= Conv1d.out_channels cv ->
  exists d',
    Conv1d.forward cv (mkTensor [b; c; n] d)
    = Ok (mkTensor [b; Conv1d.out_channels cv; n] d') /\
    length d' = b * Conv1d.out_channels cv * n.
Proof.
  intros Hc Hn Ho. unfold Conv1d.forward, Conv1d.forward_shape.
  cbn [shape data dims3]. rewrite Hc, Nat.eqb_refl.
  destruct (Nat.leb_spec 1 n); [|lia].
  destruct (Nat.leb_spec 1 (Conv1d.out_channels cv)); [|lia].
  cbn [andb bind].
  eexists; split; [reflexivity|]. apply tabulate3_length.
Qed.

(** With a zero gate the block hands its input back, whatever the
    projection weights are. *)
Lemma SelfAttention_zero_gate (sa : SelfAttention.t) (x : Tensor)
    (b c : nat) (spatial : list nat) :
  SelfAttention.gamma sa = 0%R ->
  Conv1d.in_channels (SelfAttention.query sa) = c ->
  Conv1d.in_channels (SelfAttention.key sa) = c ->
  Conv1d.in_channels (SelfAttention.value sa) = c ->
  Conv1d.out_channels (SelfAttention.value sa) = c ->
  Conv1d.out_channels (SelfAttention.query sa)
    = Conv1d.out_channels (SelfAttention.key sa) ->
  1 <= Conv1d.out_channels (SelfAttention.query sa) ->
  shape x = b :: c :: spatial ->
  length (data x) = numel (shape x) ->
  1 <= b -> 1 <= c -> 1 <= numel spatial ->
  SelfAttention.forward sa x = Ok x.
Proof.
  intros Hg Hq Hk Hv Hvo Hqk Hw Hs Hd Hb Hc Hn.
  destruct x as [sx dx]. cbn [shape data] in Hs, Hd. subst sx.
  set (n := numel spatial) in *.
  assert (Hlen : length dx = b * c * n).
  { rewrite Hd. cbn [numel fold_right]. fold (numel spatial). subst n. lia. }
  unfold SelfAttention.forward, T_view_infer. cbn [shape data firstn].
  rewrite (@view_infer_exact [b; c] (b :: c :: spatial) n).
  2:{ cbn [numel fold_right]. nia. }
  2:{ cbn [numel fold_right]. fold (numel spatial). subst n. lia. }
  cbn [bind app].
  destruct (Conv1d_forward_ok (SelfAttention.query sa) b dx Hq Hn Hw)
    as (df & Ef & Lf).
  destruct (Conv1d_forward_ok (SelfAttention.key sa) b dx Hk Hn)
    as (dg & Eg & Lg); [rewrite <- Hqk; exact Hw|].
  destruct (Conv1d_forward_ok (SelfAttention.value sa) b dx Hv Hn)
    as (dh & Eh & Lh); [rewrite Hvo; exact Hc|].
  rewrite Ef, Eg, Eh. cbn [bind]. rewrite Hvo, <- Hqk.
  unfold T_permute021, permute. cbn [shape data dims3 length Nat.eqb mapM
    getitem nth_error from_option bind].
  unfold T_bmm, bmm. cbn [shape data dims3]. rewrite !Nat.eqb_refl.
  cbn [andb bind].
  unfold T_softmax_dim1, softmax_shape. cbn [shape data dims3 length Nat.ltb
    Nat.leb bind]. rewrite !Nat.eqb_refl. cbn [andb bind shape data dims3].
  unfold T_scale_add. cbn [shape data]. rewrite shape_eqb_refl, Hg.
  cbn [bind]. rewrite scale_zero_add by (rewrite tabulate3_length; lia).
  unfold T_view, view. cbn [shape data].
  destruct (Nat.eqb_spec (numel (b :: c :: spatial)) (numel [b; c; n]))
    as [_|E]; [reflexivity|].
  exfalso; apply E. cbn [numel fold_right]. fold (numel spatial).
  subst n. lia.
Qed.

(** C6. Right after construction the gate [gamma] is 0. When the query
    and key projections keep at least one channel, that is when the
    block has one channel or [0 < div <= n_channels], [forward] returns
    its input unchanged for every tensor of shape
    [(batch, channels, spatial...)] with at least one entry, whatever the
    projection weights are. Entries are real numbers: an infinite entry
    or an attention term that overflows is outside this statement. *)
Theorem SelfAttention_identity_at_init (n_channels : nat) (div : Z)
    (wq wk wv : list (list R)) (sa : SelfAttention.t) (x : Tensor)
    (b : nat) (spatial : list nat) :
  SelfAttention.init n_channels div wq wk wv = Ok sa ->
  n_channels = 1 \/ (0 < div <= Z.of_nat n_channels)%Z ->
  shape x = b :: n_channels :: spatial ->
  length (data x) = numel (shape x) ->
  1 <= b -> 1 <= n_channels -> 1 <= numel spatial ->
  SelfAttention.gamma sa = 0%R /\
  1 <= Conv1d.out_channels (SelfAttention.query sa) /\
  SelfAttention.forward sa x = Ok x.
Proof.
  intros Hinit Hdiv Hs Hd Hb Hc Hn.
  destruct (SelfAttention_init_fields _ _ _ _ _ Hinit)
    as (Hg & Hq & Hk & Hv & Hvo & Hqk).
  pose proof (@SelfAttention_init_width _ _ _ _ _ _ Hinit Hdiv) as Hw.
  split; [exact Hg|]. split; [exact Hw|].
  apply (@SelfAttention_zero_gate sa x b n_channels spatial); assumption.
Qed.

(** ** The model container *)

Lemma Dropout_row_length (p : R) (keep : nat -> bool) (row : list R) :
  length (Dropout_row p keep row) = length row.
Proof.
  unfold Dropout_row. rewrite length_map, length_combine, length_seq.
  apply Nat.min_id.
Qed.

Lemma Dropout_rows (p : R) (training : bool) (keep : nat -> nat -> bool)
    (n : nat) (x : Matrix) :
  Forall (fun row => length row = n) x ->
  Forall (fun row => length row = n) (Dropout p training keep x)
  /\ length (Dropout p training keep x) = length x.
Proof.
  intros Hx. unfold Dropout. destruct training; [|split; [exact Hx|reflexivity]].
  split.
  - apply Forall_forall. intros row Hin. apply in_map_iff in Hin.
    destruct Hin as ([i r] & <- & Hin). cbn [fst snd].
    rewrite Dropout_row_length. apply in_combine_r in Hin.
    rewrite Forall_forall in Hx. apply Hx, Hin.
  - rewrite length_map, length_combine, length_seq. apply Nat.min_id.
Qed.

Lemma Linear_forward_ok (l : Linear.t) (x : Matrix) :
  Forall (fun row => length row = Linear.in_features l) x ->
  exists y,
    Linear.forward l x = Ok y /\
    length y = length x /\
    Forall (fun r => length r = Linear.out_features l) y.
Proof.
  unfold Linear.forward. induction 1 as [|row rest Hrow _ (y & Hy & Ly & Fy)].
  - exists []. repeat split; constructor.
  - cbn [mapM]. unfold Linear.forward_row at 1.
    rewrite Hrow, Nat.eqb_refl. cbn [bind]. rewrite Hy. cbn [bind].
    eexists; split; [reflexivity|]. split; [cbn [length]; congruence|].
    constructor; [|exact Fy]. rewrite length_map, length_seq. reflexivity.
Qed.

Lemma AttendAndDiscriminate_init_fields
    (input_dim num_class hidden_dim filter_num filter_size
       enc_num_layers : nat)
    (bidir : bool) (dropout dropout_rnn dropout_cls : R)
    (activation : string) (sa_div : Z) (iv : InitValues)
    (m : AttendAndDiscriminate.t) :
  AttendAndDiscriminate.init input_dim num_class hidden_dim filter_num
    filter_size enc_num_layers bidir dropout dropout_rnn dropout_cls
    activation sa_div iv = Ok m ->
  FeatureExtractor.init input_dim hidden_dim filter_num filter_size
    enc_num_layers bidir dropout dropout_rnn activation sa_div iv
    = Ok (AttendAndDiscriminate.fe m) /\
  AttendAndDiscriminate.dropout m = dropout_cls /\
  AttendAndDiscriminate.classifier m
    = Classifier.init hidden_dim num_class (cls_w iv) (cls_b iv) /\
  AttendAndDiscriminate.hidden_dim m = hidden_dim.
Proof.
  unfold AttendAndDiscriminate.init. intros H.
  do 2 init_bind H.
  inversion H; subst m. cbn. repeat split; reflexivity.
Qed.

(** In exact arithmetic a row divided by its norm has norm 1. *)
Lemma rsum_scale (k : R) (row : list R) :
  rsum (map (fun v => (v / k * (v / k))%R) row)
  = (rsum (map (fun v => (v * v)%R) row) / (k * k))%R.
Proof.
  induction row as [|v row IH]; cbn [map rsum fold_right].
  - unfold Rdiv. rewrite Rmult_0_l. reflexivity.
  - fold (rsum (map (fun v0 => (v0 / k * (v0 / k))%R) row)).
    fold (rsum (map (fun v0 => (v0 * v0)%R) row)).
    rewrite IH. unfold Rdiv.
    destruct (Req_dec k 0) as [->|Hk].
    + rewrite Rmult_0_l, Rinv_0. lra.
    + field. exact Hk.
Qed.

Lemma rsum_squares_nonneg (row : list R) :
  (0 <= rsum (map (fun v => (v * v)%R) row))%R.
Proof.
  induction row as [|v row IH]; cbn [map rsum fold_right]; [lra|].
  fold (rsum (map (fun v0 => (v0 * v0)%R) row)). nra.
Qed.

Lemma normalize_reals_unit_norm (row : list R) :
  l2norm row <> 0%R ->
  l2norm (map (fun v => (v / l2norm row)%R) row) = 1%R.
Proof.
  intros Hn. unfold l2norm at 1. rewrite map_map, rsum_scale.
  unfold l2norm. rewrite sqrt_sqrt by apply rsum_squares_nonneg.
  unfold Rdiv. rewrite Rinv_r.
  - apply sqrt_1.
  - intros E. apply Hn. unfold l2norm. rewrite E. apply sqrt_0.
Qed.

Lemma reals_of_map_Real (l : list R) : reals_of (map Real l) = Some l.
Proof.
  induction l as [|v l IH]; [reflexivity|].
  cbn [map reals_of]. rewrite IH. reflexivity.
Qed.

(** A row of non-zero norm is divided by its norm entry by entry ... *)
Lemma normalize_row_nonzero (row : list R) :
  l2norm row <> 0%R ->
  normalize_row row = map (fun v => Real (v / l2norm row)) row.
Proof.
  intros Hn. unfold normalize_row.
  destruct (Req_dec_T (l2norm row) 0); [contradiction|reflexivity].
Qed.

(** ... and a row of norm zero becomes a row of undefined entries. *)
Lemma normalize_row_zero (row : list R) :
  l2norm row = 0%R ->
  normalize_row row = map (fun _ => NotANumber) row.
Proof.
  intros Hn. unfold normalize_row.
  destruct (Req_dec_T (l2norm row) 0); [reflexivity|contradiction].
Qed.

(** In exact arithmetic a row of non-zero norm divided by its norm has
    norm 1. *)
Lemma normalize_row_unit_norm (row : list R) :
  l2norm row <> 0%R -> xl2norm (normalize_row row) = Real 1.
Proof.
  intros Hn. rewrite normalize_row_nonzero by exact Hn.
  unfold xl2norm.
  rewrite <- (map_map (fun v => (v / l2norm row)%R) Real).
  rewrite reals_of_map_Real, normalize_reals_unit_norm by exact Hn.
  reflexivity.
Qed.

Lemma combine_seq_nth_error {A : Type} (l : list A) (s j : nat) (v : A) :
  nth_error l j = Some v ->
  nth_error (combine (seq s (length l)) l) j = Some (s + j, v).
Proof.
  revert s j; induction l as [|a l IH]; intros s [|j] H;
    cbn [nth_error] in H; try discriminate.
  - inversion H; subst. cbn. rewrite Nat.add_0_r. reflexivity.
  - cbn [length seq combine nth_error]. rewrite (IH (S s) j H).
    do 2 f_equal. lia.
Qed.

(** The dropout layer entry by entry. *)
Lemma Dropout_row_nth (p : R) (keep : nat -> bool) (row : list R)
    (j : nat) (v : R) :
  nth_error row j = Some v ->
  nth_error (Dropout_row p keep row) j
  = Some (if keep j then (v / (1 - p))%R else 0%R).
Proof.
  intros H. unfold Dropout_row.
  rewrite nth_error_map, (combine_seq_nth_error row 0 j H). reflexivity.
Qed.

Lemma Dropout_nth (p : R) (training : bool) (keep : nat -> nat -> bool)
    (x : Matrix) (i : nat) (row : list R) :
  nth_error x i = Some row ->
  nth_error (Dropout p training keep x) i
  = Some (if training then Dropout_row p (keep i) row else row).
Proof.
  intros H. unfold Dropout. destruct training; [|exact H].
  rewrite nth_error_map, (combine_seq_nth_error x 0 i H). reflexivity.
Qed.

Lemma mapM_nth_error {A B : Type} (f : A -> result B) (l : list A)
    (y : list B) (i : nat) (a : A) :
  mapM f l = Ok y -> nth_error l i = Some a ->
  exists b, f a = Ok b /\ nth_error y i = Some b.
Proof.
  revert y i; induction l as [|a0 l IH]; intros y i Hm Hn.
  - destruct i; discriminate.
  - cbn [mapM] in Hm. destruct (f a0) as [b0|] eqn:E0;
      cbn [bind] in Hm; [|discriminate].
    destruct (mapM f l) as [y'|] eqn:E1; cbn [bind] in Hm; [|discriminate].
    inversion Hm; subst y. destruct i as [|i]; cbn [nth_error] in *.
    + inversion Hn; subst. exists b0. split; [exact E0|reflexivity].
    + apply (IH y' i eq_refl Hn).
Qed.

Lemma broadcast_keepdim (b h : nat) : broadcast [b; 1] [b; h] = Ok [b; h].
Proof.
  unfold broadcast. cbn [rev app broadcast_rev bind].
  rewrite Nat.eqb_refl. cbn [bind].
  destruct (Nat.eqb_spec 1 h) as [<-|_]; reflexivity.
Qed.

Lemma broadcast_same (b h : nat) : broadcast [b; h] [b; h] = Ok [b; h].
Proof.
  unfold broadcast. cbn [rev app broadcast_rev bind].
  rewrite !Nat.eqb_refl. reflexivity.
Qed.

(** Where the feature extractor returns [b] rows of [h] features, the
    container returns an embedding of that shape and one row of
    [num_class] logits per window. *)
Lemma container_forward_shape_of_extractor (m : AttendAndDiscriminate.t)
    (s : Shape) (b h num_class : nat) (w : list (list R)) (bs : list R) :
  FeatureExtractor.forward_shape (AttendAndDiscriminate.fe m) s
    = Ok [b; h] ->
  AttendAndDiscriminate.classifier m = Classifier.init h num_class w bs ->
  AttendAndDiscriminate.forward_shape m s = Ok ([b; h], [b; num_class]).
Proof.
  intros Hfe Hcls. unfold AttendAndDiscriminate.forward_shape.
  rewrite Hfe. cbn [bind norm_dim1_keepdim]. unfold expand_as.
  rewrite broadcast_keepdim. cbn [bind]. rewrite shape_eqb_refl. cbn [bind].
  rewrite broadcast_same. cbn [bind].
  rewrite Hcls. unfold Classifier.forward_shape, Classifier.init,
    Linear.forward_shape.
  cbn [Classifier.fc Linear.in_features Linear.out_features rev app].
  rewrite Nat.eqb_refl. reflexivity.
Qed.

(** C5. On a batch the feature extractor accepts, the container returns
    the pair [(z, logits)], in training and in evaluation mode and for
    every draw of the dropout layer. Row [i] of [z] is row [i] of the
    feature embedding with every entry divided by the Euclidean norm of
    the row, without dropout; a row of norm zero gives undefined entries.
    Row [i] of [logits] is the linear classifier applied to the dropout
    of row [i] of the embedding as the feature extractor produced it,
    not of [z]: in training mode entry [j] is scaled by
    [1 / (1 - dropout_cls)] or zeroed, in evaluation mode it is kept.
    There is one row of [hidden_dim] entries in [z] and one row of
    [num_class] scores in [logits] per window. *)
Theorem forward_returns_pair (fe_forward : Tensor -> result Matrix)
    (input_dim num_class hidden_dim filter_num filter_size
       enc_num_layers : nat)
    (bidir : bool) (dropout dropout_rnn dropout_cls : R)
    (activation : string) (sa_div : Z) (iv : InitValues)
    (m : AttendAndDiscriminate.t)
    (training : bool) (keep : nat -> nat -> bool)
    (x : Tensor) (feature : Matrix) :
  AttendAndDiscriminate.init input_dim num_class hidden_dim filter_num
    filter_size enc_num_layers bidir dropout dropout_rnn dropout_cls
    activation sa_div iv = Ok m ->
  FeatureExtractor.forward_shape (AttendAndDiscriminate.fe m) (shape x)
    = Ok [length feature; hidden_dim] ->
  fe_forward x = Ok feature ->
  Forall (fun row => length row = hidden_dim) feature ->
  exists z logits,
    AttendAndDiscriminate.forward fe_forward m training keep x
      = Ok (z, logits) /\
    AttendAndDiscriminate.forward_shape m (shape x)
      = Ok ([length feature; hidden_dim], [length feature; num_class]) /\
    length z = length feature /\
    length logits = length feature /\
    Forall (fun r => length r = hidden_dim) z /\
    Forall (fun r => length r = num_class) logits /\
    (forall i row, nth_error feature i = Some row ->
       (sqrt (rsum (map (fun u => (u * u)%R) row)) <> 0%R ->
        nth_error z i
        = Some (map (fun v =>
                  Real (v / sqrt (rsum (map (fun u => (u * u)%R) row))))
                  row)) /\
       (sqrt (rsum (map (fun u => (u * u)%R) row)) = 0%R ->
        nth_error z i = Some (map (fun _ => NotANumber) row))) /\
    (forall i row, nth_error feature i = Some row ->
       exists out,
         length out = hidden_dim /\
         (forall j v, nth_error row j = Some v ->
            nth_error out j
            = Some (if training
                    then if keep i j then (v / (1 - dropout_cls))%R else 0%R
                    else v)) /\
         nth_error logits i
         = Some (map (fun o =>
                   (rsum (map (fun p => (fst p * snd p)%R)
                            (combine (nth o (cls_w iv) []) out))
                    + nth o (cls_b iv) 0)%R)
                   (seq 0 num_class))).
Proof.
  intros Hinit Hshape Hfe Hrows.
  destruct (AttendAndDiscriminate_init_fields _ _ _ _ _ _ _ _ _ _ _ _ _ Hinit)
    as (_ & Hd & Hc & _).
  destruct (Dropout_rows dropout_cls training keep Hrows) as [Hdrop Ldrop].
  destruct (@Linear_forward_ok
              (Classifier.fc (AttendAndDiscriminate.classifier m))
              (Dropout dropout_cls training keep feature))
    as (logits & Hl & Ll & Fl).
  { rewrite Hc. exact Hdrop. }
  exists (normalize_rows feature), logits.
  split.
  { unfold AttendAndDiscriminate.forward, Classifier.forward.
    rewrite Hfe, Hd. cbn [bind]. rewrite Hl. reflexivity. }
  split.
  { apply (@container_forward_shape_of_extractor m (shape x) (length feature)
             hidden_dim num_class (cls_w iv) (cls_b iv) Hshape Hc). }
  split; [apply length_map|]. split; [congruence|].
  split.
  { unfold normalize_rows. apply Forall_forall. intros r Hr.
    apply in_map_iff in Hr. destruct Hr as (row & <- & Hin).
    rewrite Forall_forall in Hrows. specialize (Hrows row Hin).
    unfold normalize_row. destruct (Req_dec_T (l2norm row) 0);
      rewrite length_map; exact Hrows. }
  split; [rewrite Hc in Fl; exact Fl|].
  split.
  - intros i row Hi. unfold normalize_rows.
    rewrite nth_error_map, Hi. cbn [option_map].
    split; intros Hn.
    + rewrite normalize_row_nonzero by exact Hn. reflexivity.
    + rewrite normalize_row_zero by exact Hn. reflexivity.
  - intros i row Hi.
    pose proof (Dropout_nth dropout_cls training keep feature i Hi) as Hdi.
    destruct (mapM_nth_error _ _ i Hl Hdi) as (r & Hr & Hli).
    assert (Hrow : length row = hidden_dim).
    { rewrite Forall_forall in Hrows. apply Hrows.
      apply (nth_error_In _ _ Hi). }
    exists (if training then Dropout_row dropout_cls (keep i) row else row).
    split; [destruct training; [rewrite Dropout_row_length|]; exact Hrow|].
    split.
    + intros j v Hj. destruct training; [|exact Hj].
      apply Dropout_row_nth. exact Hj.
    + rewrite Hli. f_equal. unfold Linear.forward_row in Hr.
      rewrite Hc in Hr.
      cbn [Classifier.init Classifier.fc Linear.in_features
             Linear.out_features Linear.weight Linear.bias] in Hr.
      assert (Hlen : length (if training
                             then Dropout_row dropout_cls (keep i) row
                             else row) = hidden_dim).
      { destruct training; [rewrite Dropout_row_length|]; exact Hrow. }
      rewrite Hlen, Nat.eqb_refl in Hr. inversion Hr. reflexivity.
Qed.

(** The container inherits both behaviours of its feature extractor:
    with a one-directional encoder it returns an embedding and the
    logits, one row each per window; with a bidirectional one it
    raises. *)
Lemma container_forward_shape_unidirectional
    (input_dim num_class hidden_dim filter_num filter_size
       enc_num_layers : nat)
    (dropout dropout_rnn dropout_cls : R) (activation : string)
    (sa_div : Z) (iv : InitValues) (m : AttendAndDiscriminate.t)
    (b t : nat) :
  AttendAndDiscriminate.init input_dim num_class hidden_dim filter_num
    filter_size enc_num_layers false dropout dropout_rnn dropout_cls
    activation sa_div iv = Ok m ->
  filter_num = 1 \/ (0 < sa_div <= Z.of_nat filter_num)%Z ->
  1 <= b -> 1 <= input_dim -> 1 <= filter_num -> 1 <= filter_size ->
  4 * (filter_size - 1) < t ->
  AttendAndDiscriminate.forward_shape m [b; t; input_dim]
  = Ok ([b; hidden_dim], [b; num_class]).
Proof.
  intros Hinit Hdiv Hb Hc Hf Hk Ht.
  destruct (AttendAndDiscriminate_init_fields _ _ _ _ _ _ _ _ _ _ _ _ _ Hinit)
    as (Hfe & _ & Hcls & _).
  apply (@container_forward_shape_of_extractor m _ b hidden_dim num_class
           (cls_w iv) (cls_b iv)); [|exact Hcls].
  apply (@unidirectional_forward_shape _ _ _ _ _ _ _ _ _ _ _ b t
           Hfe Hdiv Hb Hc Hf Hk Ht).
Qed.

Lemma container_forward_shape_bidirectional
    (input_dim num_class hidden_dim filter_num filter_size
       enc_num_layers : nat)
    (dropout dropout_rnn dropout_cls : R) (activation : string)
    (sa_div : Z) (iv : InitValues) (m : AttendAndDiscriminate.t)
    (x : Shape) :
  AttendAndDiscriminate.init input_dim num_class hidden_dim filter_num
    filter_size enc_num_layers true dropout dropout_rnn dropout_cls
    activation sa_div iv = Ok m ->
  1 <= hidden_dim ->
  raises (AttendAndDiscriminate.forward_shape m x).
Proof.
  intros Hinit Hh.
  destruct (AttendAndDiscriminate_init_fields _ _ _ _ _ _ _ _ _ _ _ _ _ Hinit)
    as (Hfe & _).
  destruct (FeatureExtractor_init_layers _ _ _ _ _ _ _ _ _ _ _ Hfe)
    as (_ & _ & _ & _ & Hrnn & Hin & _ & _).
  unfold AttendAndDiscriminate.forward_shape.
  destruct (@bidirectional_raises (AttendAndDiscriminate.fe m) hidden_dim)
    with (x := x) as [e He]; try assumption; try (rewrite Hrnn; reflexivity).
  rewrite He. apply raises_Err.
Qed.
(** ** Lemmas on the loop *)

Lemma max_dim1_length (m : Matrix) (p : list Z) :
  max_dim1 m = Ok p -> length p = length m.
Proof.
  revert p; induction m as [|row rest IH]; intros p H; simpl in H.
  - inversion H; reflexivity.
  - destruct (max_index_row row) as [i|]; simpl in H; [|discriminate].
    destruct (max_dim1 rest) as [js|]; simpl in H; [|discriminate].
    inversion H; subst; simpl; f_equal; apply IH; reflexivity.
Qed.

Lemma max_dim1_softmax_ok (m : Matrix) :
  Forall (fun row => row <> []) m ->
  exists p, max_dim1 (Softmax_dim1 m) = Ok p.
Proof.
  induction 1 as [|row rest Hrow _ [p IH]]; simpl.
  - eexists; reflexivity.
  - change (Softmax_dim1 (row :: rest))
      with (softmax_row row :: Softmax_dim1 rest).
    cbn [max_dim1]. rewrite IH.
    destruct row as [|v vs]; [congruence|].
    eexists; reflexivity.
Qed.

Lemma Softmax_dim1_length (m : Matrix) :
  length (Softmax_dim1 m) = length m.
Proof. apply length_map. Qed.

Lemma AverageMeter_update_ok (m : AverageMeter) (v : R) (n : nat) :
  1 <= n -> exists m', AverageMeter_update m v n = Ok m'.
Proof.
  intros Hn. unfold AverageMeter_update.
  destruct (Nat.eqb_spec (meter_count m + n) 0) as [E|_]; [lia|].
  eexists; reflexivity.
Qed.

Lemma batch_ok_predict (model : Model) (criterion : Criterion) (b : Batch) :
  batch_ok model criterion b ->
  exists p, predict model (b_data b) = Ok p /\
            length p = batch_len b /\
            length (b_target b) = batch_len b /\
            1 <= batch_len b.
Proof.
  intros (z & logits & loss & n & Hm & _ & Hn & Hpos & Hl & Ht & Hrows).
  destruct (max_dim1_softmax_ok Hrows) as [p Hp].
  exists p. unfold predict. rewrite Hm. simpl. split; [exact Hp|].
  assert (Hb : batch_len b = n).
  { unfold batch_len. destruct (shape (b_data b)); simpl in *; congruence. }
  rewrite Hb. repeat split; try assumption.
  rewrite (max_dim1_length _ Hp), Softmax_dim1_length. exact Hl.
Qed.

Lemma eval_batch_ok (model : Model) (criterion : Criterion)
    (st : EpochState) (b : Batch) :
  batch_ok model criterion b ->
  exists st' p,
    eval_batch model criterion st b = Ok st' /\
    predict model (b_data b) = Ok p /\
    y_true st' = y_true st ++ [b_target b] /\
    y_pred st' = y_pred st ++ [p] /\
    data_var st' = Some (b_data b).
Proof.
  intros (z & logits & loss & n & Hm & Hc & Hn & Hpos & Hl & Ht & Hrows).
  destruct (max_dim1_softmax_ok Hrows) as [p Hp].
  destruct (AverageMeter_update_ok (losses st) loss Hpos) as [m' Hm'].
  unfold eval_batch, predict, getitem. rewrite Hm. cbn [bind].
  rewrite Hc. cbn [bind]. rewrite Hn. cbn [bind from_option].
  rewrite Hm'. cbn [bind]. rewrite Hp. cbn [bind].
  eexists; exists p; repeat split; reflexivity.
Qed.

Lemma last_cons_default {A : Type} (l : list A) (a d : A) :
  last (a :: l) d = last l a.
Proof.
  revert a d; induction l as [|x l IH]; intros a d; [reflexivity|].
  change (last (a :: x :: l) d) with (last (x :: l) d).
  rewrite (IH x d), (IH x a). reflexivity.
Qed.

Lemma eval_loop_ok (model : Model) (criterion : Criterion)
    (bs : list Batch) :
  Forall (batch_ok model criterion) bs ->
  forall st, exists st' ps,
    eval_loop model criterion st bs = Ok st' /\
    predict_all model bs = Ok ps /\
    y_true st' = y_true st ++ map b_target bs /\
    y_pred st' = y_pred st ++ ps /\
    data_var st' = last (map (fun b => Some (b_data b)) bs) (data_var st).
Proof.
  induction 1 as [|b rest Hb _ IH]; intros st.
  - exists st, []; simpl. rewrite !app_nil_r. repeat split; reflexivity.
  - destruct (eval_batch_ok st Hb) as (st1 & p & H1 & Hp & Ht & Hy & Hd).
    destruct (IH st1) as (st' & ps & H2 & Hps & Ht' & Hy' & Hd').
    exists st', (p :: ps). simpl. rewrite H1. simpl. rewrite H2.
    rewrite Hp. simpl. rewrite Hps. simpl.
    rewrite Ht', Hy', Hd', Ht, Hy, Hd, <- !app_assoc. simpl.
    repeat split; try reflexivity.
    symmetry; apply last_cons_default.
Qed.

Lemma predict_all_lengths (model : Model) (criterion : Criterion)
    (bs : list Batch) :
  Forall (batch_ok model criterion) bs ->
  forall ps, predict_all model bs = Ok ps ->
  length (concat ps) = total_samples bs /\
  length (concat (map b_target bs)) = total_samples bs.
Proof.
  induction 1 as [|b rest Hb _ IH]; intros ps Hps; simpl in Hps.
  - inversion Hps; split; reflexivity.
  - destruct (batch_ok_predict Hb) as (p & Hp & Hlp & Hlt & _).
    rewrite Hp in Hps. simpl in Hps.
    destruct (predict_all model rest) as [ps'|]; simpl in Hps; [|discriminate].
    inversion Hps; subst. destruct (IH ps' eq_refl) as [I1 I2].
    unfold total_samples in *. simpl. rewrite !length_app.
    split; congruence.
Qed.

(** The first ground-truth label of the run, [y_true[0][0]]. *)
Lemma metrics_ok (yt yp : list Z) :
  length yt = length yp ->
  exists acc fm fw,
    accuracy_score yt yp = Ok acc /\
    f1_score yt yp Macro = Ok fm /\
    f1_score yt yp Weighted = Ok fw.
Proof.
  intros Hl. unfold accuracy_score, f1_score, check_consistent_length.
  rewrite Hl, Nat.eqb_refl. cbn [bind].
  destruct yt; destruct (present_labels _ yp);
    do 3 eexists; repeat split; reflexivity.
Qed.

Lemma last_map_some {A B : Type} (f : A -> B) (l : list A) (a : A) :
  last (map (fun x => Some (f x)) l) (Some (f a)) = Some (f (last l a)).
Proof.
  revert a; induction l as [|x l IH]; intros a; [reflexivity|].
  cbn [map]. rewrite !last_cons_default. apply IH.
Qed.

(** What the driver computes on a run that goes through: the targets
    and the predictions of the batches in loader order, each followed by
    the placeholder entries, and the metrics of exactly these two
    sequences. *)
Lemma eval_result_spec (model : Model) (loader : Loader)
    (criterion : Criterion) :
  batches loader <> [] ->
  Forall (batch_ok model criterion) (batches loader) ->
  (prefix loader = "test"%string ->
   exists w, last_time_dim (batches loader) = Some w) ->
  exists r ps,
    eval_one_epoch_result model loader criterion = Ok r /\
    predict_all model (batches loader) = Ok ps /\
    r_true r = concat (map b_target (batches loader)) ++ padding loader /\
    r_pred r = concat ps ++ padding loader /\
    accuracy_score (r_true r) (r_pred r) = Ok (r_acc r) /\
    f1_score (r_true r) (r_pred r) Macro = Ok (r_fm r) /\
    f1_score (r_true r) (r_pred r) Weighted = Ok (r_fw r).
Proof.
  intros Hne Hok Htime.
  destruct (eval_loop_ok Hok epoch_init)
    as (st & ps & Hloop & Hps & Ht & Hp & Hd).
  cbn [epoch_init y_true y_pred data_var app] in Ht, Hp, Hd.
  destruct (predict_all_lengths Hok Hps) as [Lp Lt].
  assert (Hnt : y_true st <> []).
  { rewrite Ht. destruct (batches loader); [congruence|discriminate]. }
  assert (Hnp : y_pred st <> []).
  { rewrite Hp. intros ->. destruct (batches loader) as [|b0 rest];
      [congruence|]. cbn [predict_all] in Hps.
    destruct (predict model (b_data b0)); cbn [bind] in Hps; [|discriminate].
    destruct (predict_all model rest); discriminate. }
  assert (Hpad : exists st2,
    pad_test (String.eqb (prefix loader) "test") st = Ok st2 /\
    concat (y_true st2) = concat (y_true st) ++ padding loader /\
    concat (y_pred st2) = concat (y_pred st) ++ padding loader /\
    y_true st2 <> [] /\ y_pred st2 <> [] /\
    losses st2 = losses st).
  { unfold padding. destruct (String.eqb_spec (prefix loader) "test") as [E|E].
    - destruct (Htime E) as [w Hw].
      destruct (batches loader) as [|b0 rest] eqn:Eb; [congruence|].
      inversion Hok as [|? ? Hb0 _]; subst.
      destruct (batch_ok_predict Hb0) as (_ & _ & _ & Hlt & Hpos).
      destruct (b_target b0) as [|l0 tl] eqn:Et; [simpl in Hlt; lia|].
      rewrite Hw. cbn [first_label hd_error]. rewrite Et.
      cbn [map] in Hd. rewrite last_cons_default, last_map_some in Hd.
      unfold pad_test, getitem. rewrite Hd. cbn [from_option bind].
      cbn [last_time_dim] in Hw. unfold time_dim in Hw. rewrite Hw.
      cbn [from_option bind]. rewrite Ht. cbn [map nth_error app].
      rewrite Et. cbn [nth_error from_option bind].
      eexists; split; [reflexivity|]. cbn [y_true y_pred losses hd_error].
      split.
      { cbn [concat]. rewrite concat_app. cbn [concat].
        rewrite app_nil_r, app_assoc. reflexivity. }
      split.
      { rewrite concat_app. cbn [concat]. rewrite app_nil_r. reflexivity. }
      split; [discriminate|]. split; [|reflexivity].
      intros H; apply app_eq_nil in H; destruct H; discriminate.
    - exists st. cbn [pad_test]. rewrite !app_nil_r.
      split; [reflexivity|]. split; [reflexivity|]. split; [reflexivity|].
      split; [assumption|]. split; [assumption|reflexivity]. }
  destruct Hpad as (st2 & Hpad & Ct & Cp & Nt & Np & Hl).
  assert (Hlen : length (concat (y_true st2)) = length (concat (y_pred st2))).
  { rewrite Ct, Cp, !length_app, Ht, Hp. congruence. }
  destruct (metrics_ok _ _ Hlen) as (acc & fm & fw & Ha & Hfm & Hfw).
  unfold eval_one_epoch_result. rewrite Hloop. cbn [bind].
  rewrite Hpad. cbn [bind]. unfold np_concatenate.
  destruct (y_true st2) as [|t0 ts] eqn:Et2; [congruence|].
  destruct (y_pred st2) as [|p0 ps2] eqn:Ep2; [congruence|].
  cbn [bind]. rewrite Ha. cbn [bind]. rewrite Hfm. cbn [bind].
  rewrite Hfw. cbn [bind].
  eexists; exists ps. cbn [r_true r_pred r_acc r_fm r_fw].
  rewrite Ct, Cp, Ht, Hp in *.
  repeat split; try reflexivity; assumption.
Qed.

(** ** Softmax does not move the maximum *)

Lemma argmax_from_map (f : R -> R) :
  (forall a b : R, (a < b)%R <-> (f a < f b)%R) ->
  forall (row : list R) (i : nat) (best : R) (bi : nat),
    argmax_from (map f row) i (f best) bi = argmax_from row i best bi.
Proof.
  intros Hf. induction row as [|v rest IH]; intros i best bi; [reflexivity|].
  cbn [map argmax_from].
  destruct (Rlt_dec (f best) (f v)) as [H|H];
    destruct (Rlt_dec best v) as [H'|H'].
  - apply IH.
  - exfalso; apply H'; apply <- Hf; exact H.
  - exfalso; apply H; apply -> Hf; exact H'.
  - apply IH.
Qed.

Lemma rsum_exp_pos (v : R) (row : list R) :
  (0 < rsum (map exp (v :: row)))%R.
Proof.
  revert v; induction row as [|x row IH]; intros v; cbn [map rsum fold_right].
  - pose proof (exp_pos v). lra.
  - pose proof (exp_pos v). specialize (IH x).
    cbn [map rsum fold_right] in IH. unfold rsum. lra.
Qed.

Lemma softmax_keeps_order (s : R) :
  (0 < s)%R ->
  forall a b : R, (a < b)%R <-> (exp a / s < exp b / s)%R.
Proof.
  intros Hs a b. assert (Hi : (0 < / s)%R) by (apply Rinv_0_lt_compat, Hs).
  unfold Rdiv. split; intros H.
  - apply Rmult_lt_compat_r; [exact Hi|]. apply exp_increasing, H.
  - apply exp_lt_inv. apply Rmult_lt_reg_r with (r := (/ s)%R); assumption.
Qed.

(** The class picked from the probabilities is the one picked from the
    logits themselves. *)
Lemma max_index_softmax (row : list R) :
  max_index_row (softmax_row row) = max_index_row row.
Proof.
  destruct row as [|v rest]; [reflexivity|].
  unfold softmax_row. rewrite map_map. cbn [map max_index_row].
  set (s := rsum (exp v :: map exp rest)).
  assert (Hs : (0 < s)%R) by apply (rsum_exp_pos v rest).
  rewrite (argmax_from_map (fun x => (exp x / s)%R) (softmax_keeps_order Hs)).
  reflexivity.
Qed.

Lemma max_dim1_softmax (m : Matrix) :
  max_dim1 (Softmax_dim1 m) = max_dim1 m.
Proof.
  induction m as [|row rest IH]; [reflexivity|].
  change (Softmax_dim1 (row :: rest))
    with (softmax_row row :: Softmax_dim1 rest).
  cbn [max_dim1]. rewrite max_index_softmax, IH. reflexivity.
Qed.

(** ** Counting over padded sequences *)

Section Counting.

Variable l0 : Z.

Lemma count_correct_app (t p t' p' : list Z) :
    length t = length p ->
    count_correct (t ++ t') (p ++ p') = count_correct t p + count_correct t' p'.
  Proof.
    revert p; induction t as [|a t IH]; intros [|b p] Hl;
      try discriminate; [reflexivity|].
    cbn [app count_correct]. rewrite IH by (simpl in Hl; lia). lia.
  Qed.

Lemma count_correct_repeat (n : nat) :
    count_correct (repeat l0 n) (repeat l0 n) = n.
  Proof.
    induction n as [|n IH]; [reflexivity|].
    cbn [repeat count_correct]. rewrite Z.eqb_refl, IH. reflexivity.
  Qed.

Lemma tp_app (c : Z) (t p t' p' : list Z) :
    length t = length p ->
    tp c (t ++ t') (p ++ p') = tp c t p + tp c t' p'.
  Proof.
    revert p; induction t as [|a t IH]; intros [|b p] Hl;
      try discriminate; [reflexivity|].
    cbn [app tp]. rewrite IH by (simpl in Hl; lia). lia.
  Qed.

Lemma fp_app (c : Z) (t p t' p' : list Z) :
    length t = length p ->
    fp c (t ++ t') (p ++ p') = fp c t p + fp c t' p'.
  Proof.
    revert p; induction t as [|a t IH]; intros [|b p] Hl;
      try discriminate; [reflexivity|].
    cbn [app fp]. rewrite IH by (simpl in Hl; lia). lia.
  Qed.

Lemma fn_app (c : Z) (t p t' p' : list Z) :
    length t = length p ->
    fn c (t ++ t') (p ++ p') = fn c t p + fn c t' p'.
  Proof.
    revert p; induction t as [|a t IH]; intros [|b p] Hl;
      try discriminate; [reflexivity|].
    cbn [app fn]. rewrite IH by (simpl in Hl; lia). lia.
  Qed.

Lemma tp_repeat (c : Z) (n : nat) :
    tp c (repeat l0 n) (repeat l0 n) = if Z.eqb c l0 then n else 0.
  Proof.
    induction n as [|n IH]; [destruct (Z.eqb c l0); reflexivity|].
    cbn [repeat tp]. rewrite IH, (Z.eqb_sym l0 c).
    destruct (Z.eqb c l0); reflexivity.
  Qed.

Lemma fp_repeat (c : Z) (n : nat) :
    fp c (repeat l0 n) (repeat l0 n) = 0.
  Proof.
    induction n as [|n IH]; [reflexivity|].
    cbn [repeat fp]. rewrite IH. destruct (Z.eqb l0 c); reflexivity.
  Qed.

Lemma fn_repeat (c : Z) (n : nat) :
    fn c (repeat l0 n) (repeat l0 n) = 0.
  Proof.
    induction n as [|n IH]; [reflexivity|].
    cbn [repeat fn]. rewrite IH. destruct (Z.eqb l0 c); reflexivity.
  Qed.

End Counting.

Lemma pad_count (w : nat) : Z.to_nat (Z.of_nat w - 1) = w - 1.
Proof. lia. Qed.

Lemma padding_test (loader : Loader) (l0 : Z) (w : nat) :
  prefix loader = "test"%string ->
  first_label (batches loader) = Some l0 ->
  last_time_dim (batches loader) = Some w ->
  padding loader = repeat l0 (w - 1).
Proof.
  intros Hp Hl Hw. unfold padding. rewrite Hp, Hl, Hw, pad_count. reflexivity.
Qed.

Lemma padding_nontest (loader : Loader) :
  prefix loader <> "test"%string -> padding loader = [].
Proof.
  intros Hp. unfold padding.
  destruct (String.eqb_spec (prefix loader) "test"); [contradiction|reflexivity].
Qed.

Lemma first_label_ok (model : Model) (criterion : Criterion)
    (bs : list Batch) :
  bs <> [] -> Forall (batch_ok model criterion) bs ->
  exists l0, first_label bs = Some l0.
Proof.
  intros Hne Hok. destruct bs as [|b rest]; [congruence|].
  inversion Hok as [|? ? Hb _]; subst.
  destruct (batch_ok_predict Hb) as (_ & _ & _ & Hl & Hpos).
  cbn [first_label]. destruct (b_target b) as [|l0 tl]; [simpl in Hl; lia|].
  exists l0; reflexivity.
Qed.

Lemma predict_all_each (model : Model) (criterion : Criterion)
    (bs : list Batch) :
  Forall (batch_ok model criterion) bs ->
  forall ps, predict_all model bs = Ok ps ->
  Forall2 (fun b p => predict model (b_data b) = Ok p /\
                      length p = batch_len b) bs ps.
Proof.
  induction 1 as [|b rest Hb _ IH]; intros ps Hps; cbn [predict_all] in Hps.
  - inversion Hps; constructor.
  - destruct (batch_ok_predict Hb) as (p & Hp & Hlp & _).
    rewrite Hp in Hps. cbn [bind] in Hps.
    destruct (predict_all model rest) as [ps'|]; cbn [bind] in Hps;
      [|discriminate].
    inversion Hps; subst. constructor; [split; assumption|].
    apply IH; reflexivity.
Qed.

(** ** Properties of [eval_one_epoch] *)

(** C3. On a test loader with at least one batch, whose last input has
    time dimension [W >= 1], both returned sequences have length
    [N + (W - 1)], [N] being the number of raw predictions over all
    batches; this is what the pairs mode returns, and the predictions
    mode returns the same predicted sequence. *)
Theorem test_sequences_length (model : Model) (loader : Loader)
    (criterion : Criterion) (W : nat) :
  prefix loader = "test"%string ->
  batches loader <> [] ->
  Forall (batch_ok model criterion) (batches loader) ->
  last_time_dim (batches loader) = Some W ->
  1 <= W ->
  exists loss acc fm fw yt yp raw,
    eval_one_epoch model loader criterion false true
      = Ok (RetPairs loss acc fm fw (yt, yp)) /\
    (forall return_pairs,
        eval_one_epoch model loader criterion true return_pairs
        = Ok (RetPreds loss acc fm fw yp)) /\
    predict_all model (batches loader) = Ok raw /\
    Z.of_nat (length yt)
      = (Z.of_nat (length (concat raw)) + (Z.of_nat W - 1))%Z /\
    Z.of_nat (length yp)
      = (Z.of_nat (length (concat raw)) + (Z.of_nat W - 1))%Z.
Proof.
  intros Hp Hne Hok Hw HW.
  destruct (eval_result_spec loader Hne Hok (fun _ => ex_intro _ W Hw))
    as (r & raw & Hr & Hraw & Ht & Hy & _).
  destruct (first_label_ok Hne Hok) as [l0 Hl0].
  destruct (predict_all_lengths Hok Hraw) as [Lp Lt].
  rewrite (padding_test loader Hp Hl0 Hw) in Ht, Hy.
  exists (r_loss r), (r_acc r), (r_fm r), (r_fw r), (r_true r), (r_pred r), raw.
  unfold eval_one_epoch. rewrite Hr. cbn [bind].
  split; [reflexivity|]. split; [reflexivity|]. split; [exact Hraw|].
  rewrite Ht, Hy, !length_app, repeat_length, Lp, Lt. lia.
Qed.

(** C8. On a loader that is not the test split, with at least one batch,
    the predictions mode returns exactly one class index per sample: the
    per-batch predictions in loader order, nothing added. *)
Theorem nontest_predictions_length (model : Model) (loader : Loader)
    (criterion : Criterion) (return_pairs : bool) :
  prefix loader <> "test"%string ->
  batches loader <> [] ->
  Forall (batch_ok model criterion) (batches loader) ->
  exists loss acc fm fw preds raw,
    eval_one_epoch model loader criterion true return_pairs
      = Ok (RetPreds loss acc fm fw preds) /\
    predict_all model (batches loader) = Ok raw /\
    Forall2 (fun b p => predict model (b_data b) = Ok p /\
                        length p = batch_len b) (batches loader) raw /\
    preds = concat raw /\
    length preds = total_samples (batches loader).
Proof.
  intros Hp Hne Hok.
  destruct (eval_result_spec loader Hne Hok) as (r & raw & Hr & Hraw & _ & Hy & _).
  { intros E; contradiction. }
  destruct (predict_all_lengths Hok Hraw) as [Lp _].
  rewrite (padding_nontest loader Hp), app_nil_r in Hy.
  exists (r_loss r), (r_acc r), (r_fm r), (r_fw r), (r_pred r), raw.
  unfold eval_one_epoch. rewrite Hr. cbn [bind].
  split; [reflexivity|]. split; [exact Hraw|].
  split; [exact (predict_all_each Hok Hraw)|].
  split; [exact Hy|]. rewrite Hy. exact Lp.
Qed.

(** C9. A loader that yields no batch makes the run raise before any
    metric exists: on the test split the variable [data] was never
    bound, otherwise [np.concatenate] refuses the empty list. *)
Theorem empty_loader_raises (model : Model) (pfx : string)
    (criterion : Criterion) (return_preds return_pairs : bool) :
  eval_one_epoch model (mkLoader pfx []) criterion return_preds return_pairs
  = Err (if String.eqb pfx "test" then UnboundLocalError else ValueError).
Proof.
  unfold eval_one_epoch, eval_one_epoch_result.
  cbn [batches prefix eval_loop bind].
  destruct (String.eqb pfx "test"); reflexivity.
Qed.

Lemma accuracy_score_nonempty (yt yp : list Z) :
  length yt = length yp -> 1 <= length yt ->
  accuracy_score yt yp
  = Ok (Fin (qnat (count_correct yt yp) / qnat (length yt))%Q).
Proof.
  intros Hl Hn. unfold accuracy_score, check_consistent_length.
  rewrite Hl, Nat.eqb_refl. cbn [bind].
  destruct yt; [cbn in Hn; lia|]. rewrite <- Hl. reflexivity.
Qed.

Lemma present_labels_nonempty (yt yp : list Z) :
  1 <= length yt -> present_labels yt yp <> [].
Proof.
  intros Hn E. destruct yt as [|a yt]; [cbn in Hn; lia|].
  assert (Hin : In a (present_labels (a :: yt) yp)).
  { unfold present_labels. apply nodup_In. left; reflexivity. }
  rewrite E in Hin. exact Hin.
Qed.

Lemma f1_score_macro_nonempty (yt yp : list Z) :
  length yt = length yp -> 1 <= length yt ->
  f1_score yt yp Macro
  = Ok (Fin (qsum (map (fun c => f1_class c yt yp) (present_labels yt yp))
             / qnat (length (present_labels yt yp)))%Q).
Proof.
  intros Hl Hn. unfold f1_score, check_consistent_length.
  rewrite Hl, Nat.eqb_refl. cbn [bind].
  pose proof (@present_labels_nonempty yt yp Hn) as Hne.
  destruct (present_labels yt yp); [congruence|reflexivity].
Qed.

Lemma f1_score_weighted_nonempty (yt yp : list Z) :
  length yt = length yp -> 1 <= length yt ->
  f1_score yt yp Weighted
  = Ok (Fin (qsum (map (fun c => qnat (support c yt) * f1_class c yt yp)%Q
                     (present_labels yt yp))
             / qnat (length yt))%Q).
Proof.
  intros Hl Hn. unfold f1_score, check_consistent_length.
  rewrite Hl, Nat.eqb_refl. cbn [bind].
  pose proof (@present_labels_nonempty yt yp Hn) as Hne.
  destruct (present_labels yt yp); [congruence|reflexivity].
Qed.

Lemma support_padded (c l0 : Z) (T : list Z) (n : nat) :
  support c (T ++ repeat l0 n)
  = count_occ Z.eq_dec T c + (if Z.eqb c l0 then n else 0).
Proof.
  unfold support. rewrite count_occ_app. f_equal.
  induction n as [|n IH]; [destruct (Z.eqb c l0); reflexivity|].
  cbn [repeat count_occ]. rewrite IH.
  destruct (Z.eq_dec l0 c) as [->|Hne].
  - rewrite Z.eqb_refl. reflexivity.
  - destruct (Z.eqb_spec c l0); [congruence|reflexivity].
Qed.

(** The F1 score of one class on the padded sequences, from the counts
    of the real predictions. *)
Lemma f1_class_padded (c l0 : Z) (T P : list Z) (n : nat) :
  length T = length P ->
  f1_class c (T ++ repeat l0 n) (P ++ repeat l0 n)
  = if Nat.eqb (2 * (tp c T P + (if Z.eqb c l0 then n else 0))
                + fp c T P + fn c T P) 0
    then 0%Q
    else (qnat (2 * (tp c T P + (if Z.eqb c l0 then n else 0)))
          / qnat (2 * (tp c T P + (if Z.eqb c l0 then n else 0))
                  + fp c T P + fn c T P))%Q.
Proof.
  intros Hl. unfold f1_class.
  rewrite tp_app, fp_app, fn_app by exact Hl.
  rewrite tp_repeat, fp_repeat, fn_repeat, !Nat.add_0_r. reflexivity.
Qed.

Lemma first_label_head (bs : list Batch) (l0 : Z) :
  first_label bs = Some l0 ->
  exists tl, concat (map b_target bs) = l0 :: tl.
Proof.
  destruct bs as [|b rest]; [discriminate|]. cbn [first_label map concat].
  destruct (b_target b) as [|a tl]; [discriminate|].
  cbn [hd_error]. intros E; inversion E; subst.
  eexists; reflexivity.
Qed.

(** C10. On a test loader the placeholder entries are the same label in
    both sequences, at the same positions; every placeholder counts as a
    correct prediction: one more hit for the accuracy and one more true
    positive of its class for the F1 scores, no false positive and no
    false negative, and no new class. The metrics the run reports are
    those of the padded sequences: with [c] hits among the [N] real
    predictions the accuracy is [(c + W - 1) / (N + W - 1)]; the F1 score
    of a class is [2 tp / (2 tp + fp + fn)] with the placeholders added
    to the true positives of the first label; the macro score is their
    mean over the classes present, the weighted score their mean
    weighted by the number of true entries of each class, placeholders
    included. *)
Theorem test_padding_scored_correct (model : Model) (loader : Loader)
    (criterion : Criterion) (W : nat) :
  prefix loader = "test"%string ->
  batches loader <> [] ->
  Forall (batch_ok model criterion) (batches loader) ->
  last_time_dim (batches loader) = Some W ->
  exists r raw l0,
    eval_one_epoch_result model loader criterion = Ok r /\
    predict_all model (batches loader) = Ok raw /\
    first_label (batches loader) = Some l0 /\
    let T := concat (map b_target (batches loader)) in
    let P := concat raw in
    let pad := repeat l0 (W - 1) in
    let k := fun c : Z => if Z.eqb c l0 then W - 1 else 0 in
    let labels := nodup Z.eq_dec ((T ++ pad) ++ (P ++ pad)) in
    let F := fun c : Z =>
      if Nat.eqb (2 * (tp c T P + k c) + fp c T P + fn c T P) 0
      then 0%Q
      else (qnat (2 * (tp c T P + k c))
            / qnat (2 * (tp c T P + k c) + fp c T P + fn c T P))%Q in
    length T = length P /\
    r_true r = T ++ pad /\
    r_pred r = P ++ pad /\
    (forall i, length T <= i < length T + (W - 1) ->
       nth_error (r_true r) i = Some l0 /\
       nth_error (r_pred r) i = Some l0) /\
    accuracy_score (r_true r) (r_pred r) = Ok (r_acc r) /\
    f1_score (r_true r) (r_pred r) Macro = Ok (r_fm r) /\
    f1_score (r_true r) (r_pred r) Weighted = Ok (r_fw r) /\
    count_correct (r_true r) (r_pred r) = count_correct T P + (W - 1) /\
    (forall c,
       tp c (r_true r) (r_pred r) = tp c T P + k c /\
       fp c (r_true r) (r_pred r) = fp c T P /\
       fn c (r_true r) (r_pred r) = fn c T P) /\
    (forall c, In c labels <-> In c T \/ In c P) /\
    r_acc r
    = Fin (qnat (count_correct T P + (W - 1)) / qnat (length T + (W - 1)))%Q /\
    r_fm r = Fin (qsum (map F labels) / qnat (length labels))%Q /\
    r_fw r
    = Fin (qsum (map (fun c =>
                   (qnat (count_occ Z.eq_dec T c + k c) * F c)%Q) labels)
           / qnat (length T + (W - 1)))%Q.
Proof.
  intros Hp Hne Hok Hw.
  destruct (eval_result_spec loader Hne Hok (fun _ => ex_intro _ W Hw))
    as (r & raw & Hr & Hraw & Ht & Hy & Ha & Hfm & Hfw).
  destruct (first_label_ok Hne Hok) as [l0 Hl0].
  destruct (predict_all_lengths Hok Hraw) as [Lp Lt].
  destruct (first_label_head _ Hl0) as [tl Htl].
  rewrite (padding_test loader Hp Hl0 Hw) in Ht, Hy.
  exists r, raw, l0. cbv zeta.
  assert (Hlen : length (concat (map b_target (batches loader)))
                 = length (concat raw)) by congruence.
  assert (HT1 : 1 <= length (concat (map b_target (batches loader)))).
  { rewrite Htl. cbn [length]. lia. }
  assert (Hlen2 : length (concat (map b_target (batches loader))
                          ++ repeat l0 (W - 1))
                  = length (concat raw ++ repeat l0 (W - 1))).
  { rewrite !length_app. congruence. }
  assert (HT2 : 1 <= length (concat (map b_target (batches loader))
                             ++ repeat l0 (W - 1))).
  { rewrite length_app. lia. }
  split; [exact Hr|]. split; [exact Hraw|]. split; [exact Hl0|].
  split; [exact Hlen|]. split; [exact Ht|]. split; [exact Hy|].
  split.
  { intros i Hi. rewrite Ht, Hy.
    rewrite !nth_error_app2 by lia.
    rewrite <- Hlen.
    split; apply nth_error_repeat; lia. }
  split; [exact Ha|]. split; [exact Hfm|]. split; [exact Hfw|].
  rewrite Ht, Hy in *.
  split.
  { rewrite count_correct_app by exact Hlen.
    rewrite count_correct_repeat. reflexivity. }
  split.
  { intros c. rewrite tp_app, fp_app, fn_app by exact Hlen.
    rewrite tp_repeat, fp_repeat, fn_repeat. lia. }
  split.
  { intros c. rewrite nodup_In, !in_app_iff. split; [|tauto].
    intros [[H|H]|[H|H]]; try tauto;
      apply repeat_spec in H; subst c; left; rewrite Htl; left; reflexivity. }
  split.
  { rewrite accuracy_score_nonempty in Ha by assumption.
    injection Ha as <-.
    rewrite count_correct_app by exact Hlen.
    rewrite count_correct_repeat, length_app, repeat_length. reflexivity. }
  split.
  { rewrite f1_score_macro_nonempty in Hfm by assumption.
    injection Hfm as <-. unfold present_labels.
    rewrite (map_ext _ _ (fun c => @f1_class_padded c l0 _ _ (W - 1) Hlen)).
    reflexivity. }
  rewrite f1_score_weighted_nonempty in Hfw by assumption.
  injection Hfw as <-. unfold present_labels.
  rewrite length_app, repeat_length.
  rewrite (map_ext _ _ (fun c =>
             f_equal2 Qmult
               (f_equal qnat (support_padded c l0 _ (W - 1)))
               (@f1_class_padded c l0 _ _ (W - 1) Hlen))).
  reflexivity.
Qed.

Ltac decide_Rlt :=
  repeat match goal with
         | |- context [Rlt_dec ?a ?b] =>
             destruct (Rlt_dec a b); try (exfalso; lra)
         end.

Lemma demo_batch_ok : batch_ok demo_model CrossEntropyLoss demo_batch.
Proof.
  unfold batch_ok. do 3 eexists. exists 2.
  split; [reflexivity|]. split; [reflexivity|]. split; [reflexivity|].
  split; [lia|]. split; [reflexivity|]. split; [reflexivity|].
  repeat constructor; discriminate.
Defined.

Lemma demo_predict : predict demo_model (b_data demo_batch) = Ok [1; 2]%Z.
Proof.
  unfold predict, demo_model. cbn [bind]. rewrite max_dim1_softmax.
  unfold demo_logits. cbn [max_dim1 max_index_row argmax_from].
  decide_Rlt. reflexivity.
Qed.

(** C1. The run on one test batch with labels [1; 2] and windows of
    three time steps: the two placeholder labels come after the real
    entries, in both sequences, not before them. *)
Theorem test_padding_lands_at_the_end :
  exists r,
    eval_one_epoch_result demo_model demo_test_loader CrossEntropyLoss = Ok r /\
    r_true r = [1; 2; 1; 1]%Z /\
    r_pred r = [1; 2; 1; 1]%Z /\
    r_true r <> ([1; 1] ++ [1; 2])%Z /\
    r_pred r <> ([1; 1] ++ [1; 2])%Z.
Proof.
  destruct (@eval_result_spec demo_model demo_test_loader CrossEntropyLoss)
    as (r & raw & Hr & Hraw & Ht & Hy & _).
  - discriminate.
  - repeat constructor. exact demo_batch_ok.
  - intros _. exists 3. reflexivity.
  - exists r. split; [exact Hr|].
    cbn [predict_all demo_test_loader batches] in Hraw.
    rewrite demo_predict in Hraw. cbn [bind] in Hraw.
    inversion Hraw; subst raw.
    assert (Hpad : padding demo_test_loader = [1; 1]%Z) by reflexivity.
    rewrite Hpad in Ht, Hy. cbn in Ht, Hy. rewrite Ht, Hy.
    repeat split; discriminate.
Qed.

Lemma demo_batches_ok (pfx : string) :
  Forall (batch_ok demo_model CrossEntropyLoss) (batches (mkLoader pfx [demo_batch])).
Proof. repeat constructor. exact demo_batch_ok. Defined.

Lemma test_sequences_length_witness :
  exists loss acc fm fw yt yp raw,
    eval_one_epoch demo_model demo_test_loader CrossEntropyLoss false true
      = Ok (RetPairs loss acc fm fw (yt, yp)) /\
    (forall return_pairs,
        eval_one_epoch demo_model demo_test_loader CrossEntropyLoss true
          return_pairs
        = Ok (RetPreds loss acc fm fw yp)) /\
    predict_all demo_model (batches demo_test_loader) = Ok raw /\
    Z.of_nat (length yt)
      = (Z.of_nat (length (concat raw)) + (Z.of_nat 3 - 1))%Z /\
    Z.of_nat (length yp)
      = (Z.of_nat (length (concat raw)) + (Z.of_nat 3 - 1))%Z.
Proof.
  apply (@test_sequences_length demo_model demo_test_loader CrossEntropyLoss 3).
  - reflexivity.
  - discriminate.
  - exact (demo_batches_ok "test").
  - reflexivity.
  - lia.
Defined.

Lemma nontest_predictions_length_witness :
  exists loss acc fm fw preds raw,
    eval_one_epoch demo_model demo_val_loader CrossEntropyLoss true false
      = Ok (RetPreds loss acc fm fw preds) /\
    predict_all demo_model (batches demo_val_loader) = Ok raw /\
    Forall2 (fun b p => predict demo_model (b_data b) = Ok p /\
                        length p = batch_len b)
      (batches demo_val_loader) raw /\
    preds = concat raw /\
    length preds = total_samples (batches demo_val_loader).
Proof.
  apply (@nontest_predictions_length demo_model demo_val_loader
           CrossEntropyLoss false).
  - discriminate.
  - discriminate.
  - exact (demo_batches_ok "val").
Defined.

Lemma test_padding_scored_correct_witness :
  exists r raw l0,
    eval_one_epoch_result demo_model demo_test_loader CrossEntropyLoss = Ok r /\
    predict_all demo_model (batches demo_test_loader) = Ok raw /\
    first_label (batches demo_test_loader) = Some l0 /\
    let T := concat (map b_target (batches demo_test_loader)) in
    let P := concat raw in
    let pad := repeat l0 (3 - 1) in
    let k := fun c : Z => if Z.eqb c l0 then 3 - 1 else 0 in
    let labels := nodup Z.eq_dec ((T ++ pad) ++ (P ++ pad)) in
    let F := fun c : Z =>
      if Nat.eqb (2 * (tp c T P + k c) + fp c T P + fn c T P) 0
      then 0%Q
      else (qnat (2 * (tp c T P + k c))
            / qnat (2 * (tp c T P + k c) + fp c T P + fn c T P))%Q in
    length T = length P /\
    r_true r = T ++ pad /\
    r_pred r = P ++ pad /\
    (forall i, length T <= i < length T + (3 - 1) ->
       nth_error (r_true r) i = Some l0 /\
       nth_error (r_pred r) i = Some l0) /\
    accuracy_score (r_true r) (r_pred r) = Ok (r_acc r) /\
    f1_score (r_true r) (r_pred r) Macro = Ok (r_fm r) /\
    f1_score (r_true r) (r_pred r) Weighted = Ok (r_fw r) /\
    count_correct (r_true r) (r_pred r) = count_correct T P + (3 - 1) /\
    (forall c,
       tp c (r_true r) (r_pred r) = tp c T P + k c /\
       fp c (r_true r) (r_pred r) = fp c T P /\
       fn c (r_true r) (r_pred r) = fn c T P) /\
    (forall c, In c labels <-> In c T \/ In c P) /\
    r_acc r
    = Fin (qnat (count_correct T P + (3 - 1)) / qnat (length T + (3 - 1)))%Q /\
    r_fm r = Fin (qsum (map F labels) / qnat (length labels))%Q /\
    r_fw r
    = Fin (qsum (map (fun c =>
                   (qnat (count_occ Z.eq_dec T c + k c) * F c)%Q) labels)
           / qnat (length T + (3 - 1)))%Q.
Proof.
  apply (@test_padding_scored_correct demo_model demo_test_loader
           CrossEntropyLoss 3).
  - reflexivity.
  - discriminate.
  - exact (demo_batches_ok "test").
  - reflexivity.
Defined.

(** ** Properties of [eval_model] *)

Lemma os_path_join_plain (dir : string) :
  dir <> EmptyString -> ends_with_slash dir = false ->
  os_path_join dir "checkpoint_best.pth"
  = (dir ++ "/checkpoint_best.pth")%string.
Proof.
  intros Hne Hs. unfold os_path_join. cbn [starts_with_slash].
  change (Ascii.eqb "c" "/") with false. cbv iota.
  destruct (String.eqb_spec dir EmptyString); [contradiction|].
  rewrite Hs. reflexivity.
Qed.

Lemma np_random_seed_ok (seed : Z) :
  (0 <= seed < 2 ^ 32)%Z -> np_random_seed seed = Ok tt.
Proof.
  intros [H0 H1]. unfold np_random_seed.
  destruct (Z.leb_spec 0 seed); [|lia].
  destruct (Z.ltb_spec seed (2 ^ 32)); [reflexivity|lia].
Qed.

Lemma DataLoader_ok (ds : SensorDataset) (batch_size : Z) :
  (1 <= batch_size)%Z ->
  exists loader, DataLoader ds batch_size = Ok loader
                 /\ prefix loader = ds_prefix ds.
Proof.
  intros H. unfold DataLoader. destruct (Z.leb_spec batch_size 0); [lia|].
  eexists; split; reflexivity.
Qed.

(** With a usable checkpoint the run is the evaluation of the model
    whose parameters are the ones stored under [model_state_dict] in
    the file [checkpoint_best.pth] of the checkpoint directory. *)
Lemma eval_model_loads_checkpoint (fs : FileSystem) (t0 t1 : Q)
    (model : TorchModel) (eval_data : SensorDataset)
    (criterion : Criterion) (batch_size seed : Z)
    (ckpt : list (string * pyobj)) (sd : StateDict) :
  (0 <= seed < 2 ^ 32)%Z -> (1 <= batch_size)%Z ->
  fs (checkpoint_path model) = Some (Pickle ckpt) ->
  assoc "model_state_dict" ckpt = Some (PStateDict sd) ->
  state_dict_compatible (state_dict model) sd = true ->
  exists loader,
    DataLoader eval_data batch_size = Ok loader /\
    eval_model fs t0 t1 model eval_data (Some criterion) batch_size seed
    = (r <- eval_one_epoch (forward_of model sd) loader criterion true false ;;
       match r with
       | RetPreds loss acc fm fw p =>
           Ok (mkReport loss acc fm fw (timedelta_str (py_round (t1 - t0)%Q)) p)
       | _ => Err ValueError
       end).
Proof.
  intros Hseed Hbs Hf Hk Hc.
  destruct (DataLoader_ok eval_data Hbs) as (loader & Hl & _).
  exists loader. split; [exact Hl|].
  unfold eval_model. rewrite (np_random_seed_ok Hseed), Hl. cbn [bind].
  unfold torch_load, dict_getitem. rewrite Hf. cbn [bind]. rewrite Hk.
  cbn [from_option bind load_state_dict]. rewrite Hc. cbn [bind].
  reflexivity.
Qed.

(** C7. The checkpoint is read from [checkpoint_best.pth] in the
    checkpoint directory of the model, under the key
    [model_state_dict]. When that file does not exist, or the stored
    parameters do not match the names and shapes of the model, the run
    ends in an exception and returns no metrics; when the loader could
    be built the exception is the one of the load itself. *)
Theorem checkpoint_failure_is_fatal (fs : FileSystem) (t0 t1 : Q)
    (model : TorchModel) (eval_data : SensorDataset)
    (criterion : option Criterion) (batch_size seed : Z) :
  fs (checkpoint_path model) = None \/
  (exists ckpt sd,
      fs (checkpoint_path model) = Some (Pickle ckpt) /\
      assoc "model_state_dict" ckpt = Some (PStateDict sd) /\
      state_dict_compatible (state_dict model) sd = false) ->
  raises (eval_model fs t0 t1 model eval_data criterion batch_size seed) /\
  ((0 <= seed < 2 ^ 32)%Z -> (1 <= batch_size)%Z ->
   eval_model fs t0 t1 model eval_data criterion batch_size seed
   = Err (match fs (checkpoint_path model) with
          | None => FileNotFoundError
          | Some _ => RuntimeError
          end)) /\
  (path_checkpoints model <> EmptyString ->
   ends_with_slash (path_checkpoints model) = false ->
   checkpoint_path model
   = (path_checkpoints model ++ "/checkpoint_best.pth")%string).
Proof.
  intros Hbad.
  assert (Hload :
    (ckpt <- torch_load fs (checkpoint_path model) ;;
     sd <- dict_getitem ckpt "model_state_dict" ;;
     load_state_dict model sd)
    = Err (match fs (checkpoint_path model) with
           | None => FileNotFoundError
           | Some _ => RuntimeError
           end)).
  { unfold torch_load, dict_getitem.
    destruct Hbad as [Hm|(ckpt & sd & Hf & Hk & Hc)].
    - rewrite Hm. reflexivity.
    - rewrite Hf. cbn [bind]. rewrite Hk. cbn [from_option bind load_state_dict].
      rewrite Hc. reflexivity. }
  assert (Hrun : forall loader,
    (ckpt <- torch_load fs (checkpoint_path model) ;;
     sd <- dict_getitem ckpt "model_state_dict" ;;
     m <- load_state_dict model sd ;;
     r <- eval_one_epoch (forward_of m (state_dict m)) loader
            match criterion with
            | None => CrossEntropyLoss
            | Some c => c
            end true false ;;
     match r with
     | RetPreds loss acc fm fw p =>
         Ok (mkReport loss acc fm fw (timedelta_str (py_round (t1 - t0)%Q)) p)
     | _ => Err ValueError
     end)
    = Err (match fs (checkpoint_path model) with
           | None => FileNotFoundError
           | Some _ => RuntimeError
           end)).
  { intros loader. revert Hload.
    destruct (torch_load fs (checkpoint_path model)) as [ckpt|e];
      cbn [bind]; [|congruence].
    destruct (dict_getitem ckpt "model_state_dict") as [sd|e];
      cbn [bind]; [|congruence].
    destruct (load_state_dict model sd) as [m|e]; cbn [bind];
      [discriminate|congruence]. }
  split; [|split].
  - unfold eval_model.
    destruct (np_random_seed seed); cbn [bind]; [|apply raises_Err].
    destruct (DataLoader eval_data batch_size) as [loader|];
      cbn [bind]; [|apply raises_Err].
    rewrite Hrun. apply raises_Err.
  - intros Hseed Hbs. unfold eval_model.
    rewrite (np_random_seed_ok Hseed). cbn [bind].
    destruct (DataLoader_ok eval_data Hbs) as (loader & Hl & _).
    rewrite Hl. cbn [bind]. apply Hrun.
  - apply os_path_join_plain.
Qed.

(** ** The properties on the small configuration *)

Ltac solve_init :=
  unfold AttendAndDiscriminate.init, FeatureExtractor.init;
  rewrite !check_probability_ok by lra;
  eexists; reflexivity.

Lemma demo_bidirectional_init :
  exists fe,
    FeatureExtractor.init 1 2 2 2 1 true (1 / 2)%R (1 / 2)%R "ReLU" 1
      demo_init_values = Ok fe.
Proof. solve_init. Defined.

Lemma demo_unidirectional_init :
  exists fe,
    FeatureExtractor.init 1 2 2 2 1 false (1 / 2)%R (1 / 2)%R "ReLU" 1
      demo_init_values = Ok fe.
Proof. solve_init. Defined.

Lemma demo_container_init_ok :
  exists m,
    AttendAndDiscriminate.init 1 2 2 2 2 1 false (1 / 2)%R (1 / 2)%R
      (1 / 2)%R "ReLU" 1 demo_init_values = Ok m.
Proof. solve_init. Defined.

Lemma bidirectional_forward_fails_witness :
  exists fe,
    FeatureExtractor.init 1 2 2 2 1 true (1 / 2)%R (1 / 2)%R "ReLU" 1
      demo_init_values = Ok fe /\
    1 <= 2 /\
    GRU.num_directions (FeatureExtractor.rnn fe)
      * GRU.hidden_size (FeatureExtractor.rnn fe) = 2 * 2 /\
    Linear.in_features (TemporalAttention.fc (FeatureExtractor.ta fe)) = 2 /\
    forall x : Shape, raises (FeatureExtractor.forward_shape fe x).
Proof.
  destruct demo_bidirectional_init as [fe Hfe]. exists fe.
  split; [exact Hfe|]. split; [lia|].
  apply (@bidirectional_forward_fails 1 2 2 2 1 (1 / 2)%R (1 / 2)%R
           "ReLU" 1%Z demo_init_values); [exact Hfe|lia].
Defined.

(** The same configuration with a one-directional encoder accepts a
    batch of four windows of nine steps. *)
Lemma unidirectional_forward_shape_example :
  exists fe,
    FeatureExtractor.init 1 2 2 2 1 false (1 / 2)%R (1 / 2)%R "ReLU" 1
      demo_init_values = Ok fe /\
    FeatureExtractor.forward_shape fe [4; 9; 1] = Ok [4; 2].
Proof.
  destruct demo_unidirectional_init as [fe Hfe]. exists fe.
  split; [exact Hfe|].
  apply (@unidirectional_forward_shape 1 2 2 2 1 (1 / 2)%R (1 / 2)%R
           "ReLU" 1%Z demo_init_values); [exact Hfe|right; lia|lia..].
Qed.

(** A block of two channels built with [div = 3] has query and key
    projections without output channel; its gate is 0 and [forward]
    raises on a tensor of valid shape instead of returning it. *)
Lemma SelfAttention_empty_projection_raises :
  exists sa,
    SelfAttention.init 2 3 [] [] (sa_wv demo_init_values) = Ok sa /\
    shape demo_tensor = [1; 2; 2] /\
    length (data demo_tensor) = numel (shape demo_tensor) /\
    SelfAttention.gamma sa = 0%R /\
    Conv1d.out_channels (SelfAttention.query sa) = 0 /\
    SelfAttention.forward sa demo_tensor = Err RuntimeError /\
    SelfAttention.forward sa demo_tensor <> Ok demo_tensor.
Proof.
  eexists. split; [reflexivity|].
  split; [reflexivity|]. split; [reflexivity|]. split; [reflexivity|].
  split; [reflexivity|].
  split; [reflexivity|].
  change (@Err Tensor RuntimeError <> Ok demo_tensor). discriminate.
Qed.

Lemma SelfAttention_identity_at_init_witness :
  exists sa,
    SelfAttention.init 2 1 (sa_wq demo_init_values) (sa_wk demo_init_values)
      (sa_wv demo_init_values) = Ok sa /\
    (2 = 1 \/ (0 < 1 <= Z.of_nat 2)%Z) /\
    SelfAttention.gamma sa = 0%R /\
    1 <= Conv1d.out_channels (SelfAttention.query sa) /\
    SelfAttention.forward sa demo_tensor = Ok demo_tensor.
Proof.
  eexists. split; [reflexivity|]. split; [right; lia|].
  apply (@SelfAttention_identity_at_init 2 1%Z (sa_wq demo_init_values)
           (sa_wk demo_init_values) (sa_wv demo_init_values) _ demo_tensor
           1 [2]).
  - reflexivity.
  - right; lia.
  - reflexivity.
  - reflexivity.
  - lia.
  - lia.
  - cbn. lia.
Defined.

Lemma forward_returns_pair_witness :
  exists m z logits,
    AttendAndDiscriminate.init 1 2 2 2 2 1 false (1 / 2)%R (1 / 2)%R
      (1 / 2)%R "ReLU" 1 demo_init_values = Ok m /\
    FeatureExtractor.forward_shape (AttendAndDiscriminate.fe m)
      (shape demo_window) = Ok [length [[3; 4]]%R; 2] /\
    demo_fe_forward demo_window = Ok [[3; 4]]%R /\
    AttendAndDiscriminate.forward demo_fe_forward m true (fun _ _ => true)
      demo_window = Ok (z, logits) /\
    AttendAndDiscriminate.forward_shape m (shape demo_window)
      = Ok ([1; 2], [1; 2]) /\
    length z = 1 /\
    length logits = 1 /\
    Forall (fun r => length r = 2) z /\
    Forall (fun r => length r = 2) logits /\
    (forall i row, nth_error [[3; 4]]%R i = Some row ->
       (sqrt (rsum (map (fun u => (u * u)%R) row)) <> 0%R ->
        nth_error z i
        = Some (map (fun v =>
                  Real (v / sqrt (rsum (map (fun u => (u * u)%R) row))))
                  row)) /\
       (sqrt (rsum (map (fun u => (u * u)%R) row)) = 0%R ->
        nth_error z i = Some (map (fun _ => NotANumber) row))) /\
    (forall i row, nth_error [[3; 4]]%R i = Some row ->
       exists out,
         length out = 2 /\
         (forall j v, nth_error row j = Some v ->
            nth_error out j = Some (v / (1 - 1 / 2))%R) /\
         nth_error logits i
         = Some (map (fun o =>
                   (rsum (map (fun p => (fst p * snd p)%R)
                            (combine (nth o (cls_w demo_init_values) []) out))
                    + nth o (cls_b demo_init_values) 0)%R)
                   (seq 0 2))).
Proof.
  destruct demo_container_init_ok as [m Hm]. exists m.
  assert (Hs : FeatureExtractor.forward_shape (AttendAndDiscriminate.fe m)
                 (shape demo_window) = Ok [length [[3; 4]]%R; 2]).
  { destruct (AttendAndDiscriminate_init_fields _ _ _ _ _ _ _ _ _ _ _ _ _ Hm)
      as (Hfe & _).
    apply (@unidirectional_forward_shape 1 2 2 2 1 (1 / 2)%R (1 / 2)%R
             "ReLU" 1%Z demo_init_values _ 1 5 Hfe); [right; lia|lia..]. }
  destruct (@forward_returns_pair demo_fe_forward 1 2 2 2 2 1 false
              (1 / 2)%R (1 / 2)%R (1 / 2)%R "ReLU" 1%Z demo_init_values
              m true (fun _ _ => true) demo_window [[3; 4]]%R Hm Hs)
    as (z & logits & H).
  - reflexivity.
  - repeat constructor.
  - exists z, logits. split; [exact Hm|]. split; [exact Hs|].
    split; [reflexivity|]. exact H.
Defined.

Lemma checkpoint_failure_is_fatal_witness :
  raises (eval_model demo_fs_empty 0 2 demo_torch_model demo_dataset None
            256 1) /\
  ((0 <= 1 < 2 ^ 32)%Z -> (1 <= 256)%Z ->
   eval_model demo_fs_empty 0 2 demo_torch_model demo_dataset None 256 1
   = Err (match demo_fs_empty (checkpoint_path demo_torch_model) with
          | None => FileNotFoundError
          | Some _ => RuntimeError
          end)) /\
  (path_checkpoints demo_torch_model <> EmptyString ->
   ends_with_slash (path_checkpoints demo_torch_model) = false ->
   checkpoint_path demo_torch_model
   = (path_checkpoints demo_torch_model ++ "/checkpoint_best.pth")%string).
Proof.
  apply (@checkpoint_failure_is_fatal demo_fs_empty 0 2 demo_torch_model
           demo_dataset None 256%Z 1%Z).
  left. reflexivity.
Defined.

(** A checkpoint whose tensor has the wrong shape stops the run with the
    error of [load_state_dict]. *)
Lemma checkpoint_mismatch_example :
  eval_model demo_fs_mismatch 0 2 demo_torch_model demo_dataset None 256 1
  = Err RuntimeError.
Proof. reflexivity. Qed.

Lemma checkpoint_missing_example :
  eval_model demo_fs_empty 0 2 demo_torch_model demo_dataset None 256 1
  = Err FileNotFoundError.
Proof. reflexivity. Qed.

(** ** More on the predictions *)

(** [argmax_from] extends a running maximum: when [best] is the entry
    at [bi], the largest of the first [length pre] entries and strictly
    above those before it, the result is the first position of a
    largest entry of the whole row. *)
Lemma argmax_from_spec (rest pre : list R) (best : R) (bi : nat) :
  bi < length pre ->
  nth bi (pre ++ rest) 0%R = best ->
  (forall j, j < length pre -> (nth j (pre ++ rest) 0 <= best)%R) ->
  (forall j, j < bi -> (nth j (pre ++ rest) 0 < best)%R) ->
  let a := argmax_from rest (length pre) best bi in
  a < length (pre ++ rest) /\
  (forall j, j < length (pre ++ rest) ->
             (nth j (pre ++ rest) 0 <= nth a (pre ++ rest) 0)%R) /\
  (forall j, j < a -> (nth j (pre ++ rest) 0 < nth a (pre ++ rest) 0)%R).
Proof.
  revert pre best bi. induction rest as [|v rest IH]; intros pre best bi Hbi Hb Hle Hlt.
  - cbn [argmax_from]. rewrite app_nil_r in *. rewrite Hb.
    repeat split; assumption.
  - cbn [argmax_from].
    assert (Hv : nth (length pre) (pre ++ v :: rest) 0%R = v).
    { rewrite app_nth2 by lia. rewrite Nat.sub_diag. reflexivity. }
    assert (Happ : pre ++ v :: rest = (pre ++ [v]) ++ rest).
    { rewrite <- app_assoc. reflexivity. }
    assert (Hlen : length (pre ++ [v]) = S (length pre)).
    { rewrite length_app. cbn [length]. lia. }
    destruct (Rlt_dec best v) as [Hbv|Hbv].
    + specialize (IH (pre ++ [v]) v (length pre)).
      rewrite Hlen, <- Happ in IH. apply IH.
      * lia.
      * exact Hv.
      * intros j Hj. destruct (Nat.eq_dec j (length pre)) as [->|Hne].
        -- rewrite Hv. lra.
        -- specialize (Hle j ltac:(lia)). lra.
      * intros j Hj. specialize (Hle j Hj). lra.
    + specialize (IH (pre ++ [v]) best bi).
      rewrite Hlen, <- Happ in IH. apply IH.
      * lia.
      * exact Hb.
      * intros j Hj. destruct (Nat.eq_dec j (length pre)) as [->|Hne].
        -- rewrite Hv. lra.
        -- apply Hle. lia.
      * exact Hlt.
Qed.

Lemma max_index_row_spec (row : list R) (c : Z) :
  max_index_row row = Ok c ->
  (0 <= c < Z.of_nat (length row))%Z /\
  (forall j, j < length row ->
             (nth j row 0 <= nth (Z.to_nat c) row 0)%R) /\
  (forall j, j < Z.to_nat c ->
             (nth j row 0 < nth (Z.to_nat c) row 0)%R).
Proof.
  destruct row as [|v rest]; [discriminate|].
  cbn [max_index_row]. intros H. inversion H; subst c; clear H.
  destruct (@argmax_from_spec rest [v] v 0) as (Ha & Hmax & Hfirst).
  - cbn; lia.
  - reflexivity.
  - intros j Hj. cbn [length] in Hj. replace j with 0 by lia. cbn. lra.
  - intros j Hj. lia.
  - cbn [length app] in Ha, Hmax, Hfirst. rewrite Nat2Z.id.
    split; [cbn [length]; lia|]. split; assumption.
Qed.

Lemma max_dim1_spec (m : Matrix) (p : list Z) :
  max_dim1 m = Ok p -> Forall2 is_first_max m p.
Proof.
  revert p; induction m as [|row rest IH]; intros p H; cbn [max_dim1] in H.
  - inversion H; constructor.
  - destruct (max_index_row row) as [c|] eqn:Ec; cbn [bind] in H;
      [|discriminate].
    destruct (max_dim1 rest) as [cs|]; cbn [bind] in H; [|discriminate].
    inversion H; subst p. constructor.
    + apply max_index_row_spec, Ec.
    + apply IH; reflexivity.
Qed.

(** X1. The class predicted for a window is the position of its largest
    logit, the first one when several are equal: a valid class index;
    the softmax of line 96 does not change which one it is. *)
Theorem predictions_are_first_largest_logit (model : Model) (d : Tensor)
    (z : XMatrix) (logits : Matrix) :
  model d = Ok (z, logits) ->
  Forall (fun row => row <> []) logits ->
  exists p,
    predict model d = Ok p /\
    max_dim1 logits = Ok p /\
    Forall2 is_first_max logits p.
Proof.
  intros Hm Hrows. destruct (max_dim1_softmax_ok Hrows) as [p Hp].
  exists p. unfold predict. rewrite Hm. cbn [bind].
  split; [exact Hp|]. rewrite max_dim1_softmax in Hp.
  split; [exact Hp|]. apply max_dim1_spec, Hp.
Qed.

Lemma predictions_are_first_largest_logit_witness :
  exists p,
    predict demo_model (b_data demo_batch) = Ok p /\
    max_dim1 demo_logits = Ok p /\
    Forall2 is_first_max demo_logits p.
Proof.
  apply (@predictions_are_first_largest_logit demo_model (b_data demo_batch)
           [[Real 1; Real 0]; [Real 0; Real 1]] demo_logits).
  - reflexivity.
  - repeat constructor; discriminate.
Defined.

(** ** A batch that fails *)

Lemma eval_loop_app (model : Model) (criterion : Criterion)
    (pre post : list Batch) (st : EpochState) :
  eval_loop model criterion st (pre ++ post)
  = (st' <- eval_loop model criterion st pre ;;
     eval_loop model criterion st' post).
Proof.
  revert st; induction pre as [|b pre IH]; intros st; [reflexivity|].
  cbn [app eval_loop].
  destruct (eval_batch model criterion st b) as [st1|e]; cbn [bind];
    [apply IH|reflexivity].
Qed.

(** X2. One batch the model or the criterion refuses ends the whole
    run: after the batches before it went through, the run raises the
    exception of that batch, in every return mode and on every split;
    nothing is returned for the batches already processed. *)
Theorem failing_batch_aborts_run (model : Model) (loader : Loader)
    (criterion : Criterion) (pre post : list Batch) (b : Batch) (e : exn)
    (return_preds return_pairs : bool) :
  batches loader = pre ++ b :: post ->
  Forall (batch_ok model criterion) pre ->
  (model (b_data b) = Err e \/
   exists z logits,
     model (b_data b) = Ok (z, logits) /\
     criterion logits (b_target b) = Err e) ->
  eval_one_epoch model loader criterion return_preds return_pairs = Err e.
Proof.
  intros Hb Hpre Hfail.
  unfold eval_one_epoch, eval_one_epoch_result. rewrite Hb, eval_loop_app.
  destruct (eval_loop_ok Hpre epoch_init) as (st & ps & Hloop & _).
  rewrite Hloop. cbn [bind eval_loop].
  assert (Hbatch : eval_batch model criterion st b = Err e).
  { unfold eval_batch.
    destruct Hfail as [Hm|(z & logits & Hm & Hc)]; rewrite Hm; cbn [bind];
      [reflexivity|]. rewrite Hc. reflexivity. }
  rewrite Hbatch. reflexivity.
Qed.

(** ** Windows of one time step *)

(** X3. On the test split a window of a single time step (or none)
    leaves nothing to align: [[label] * ws] with [ws <= 0] is empty, and
    the sequences are exactly the targets and the predictions of the
    batches. *)
Theorem single_step_windows_add_no_padding (model : Model)
    (loader : Loader) (criterion : Criterion) (W : nat) :
  prefix loader = "test"%string ->
  batches loader <> [] ->
  Forall (batch_ok model criterion) (batches loader) ->
  last_time_dim (batches loader) = Some W ->
  W <= 1 ->
  exists r raw,
    eval_one_epoch_result model loader criterion = Ok r /\
    predict_all model (batches loader) = Ok raw /\
    r_true r = concat (map b_target (batches loader)) /\
    r_pred r = concat raw.
Proof.
  intros Hp Hne Hok Hw HW.
  destruct (eval_result_spec loader Hne Hok (fun _ => ex_intro _ W Hw))
    as (r & raw & Hr & Hraw & Ht & Hy & _).
  destruct (first_label_ok Hne Hok) as [l0 Hl0].
  rewrite (padding_test loader Hp Hl0 Hw) in Ht, Hy.
  replace (W - 1) with 0 in Ht, Hy by lia.
  cbn [repeat] in Ht, Hy. rewrite app_nil_r in Ht, Hy.
  exists r, raw. repeat split; assumption.
Qed.

(** ** The accuracy of a test run *)

Lemma count_correct_le (t p : list Z) : count_correct t p <= length t.
Proof.
  revert p; induction t as [|a t IH]; intros [|b p]; cbn [count_correct length];
    try lia.
  specialize (IH p). destruct (Z.eqb a b); lia.
Qed.

Lemma qnat_pos (n : nat) : 1 <= n -> (0 < qnat n)%Q.
Proof.
  intros Hn. unfold qnat. change 0%Q with (inject_Z 0).
  rewrite <- Zlt_Qlt. lia.
Qed.

Lemma padded_ratio_le (c n p : nat) :
  c <= n -> 1 <= n ->
  (qnat c / qnat n <= qnat (c + p) / qnat (n + p))%Q.
Proof.
  intros Hc Hn.
  apply Qle_shift_div_l; [apply qnat_pos; lia|].
  unfold Qdiv. rewrite <- Qmult_assoc, (Qmult_comm (/ qnat n)), Qmult_assoc.
  apply Qle_shift_div_r; [apply qnat_pos; lia|].
  unfold qnat. rewrite <- !inject_Z_mult, <- Zle_Qle. nia.
Qed.

(** X4. The accuracy a test run reports counts every placeholder as a
    hit: with [c] correct among the [N] real predictions it is
    [(c + W - 1) / (N + W - 1)], never below the accuracy [c / N] of
    the real predictions alone. *)
Theorem test_accuracy_includes_padding (model : Model) (loader : Loader)
    (criterion : Criterion) (W : nat) :
  prefix loader = "test"%string ->
  batches loader <> [] ->
  Forall (batch_ok model criterion) (batches loader) ->
  last_time_dim (batches loader) = Some W ->
  exists r raw,
    eval_one_epoch_result model loader criterion = Ok r /\
    predict_all model (batches loader) = Ok raw /\
    let T := concat (map b_target (batches loader)) in
    let P := concat raw in
    let c := count_correct T P in
    let N := total_samples (batches loader) in
    accuracy_score T P = Ok (Fin (qnat c / qnat N)%Q) /\
    r_acc r = Fin (qnat (c + (W - 1)) / qnat (N + (W - 1)))%Q /\
    (qnat c / qnat N <= qnat (c + (W - 1)) / qnat (N + (W - 1)))%Q.
Proof.
  intros Hp Hne Hok Hw.
  destruct (eval_result_spec loader Hne Hok (fun _ => ex_intro _ W Hw))
    as (r & raw & Hr & Hraw & Ht & Hy & Ha & _).
  destruct (first_label_ok Hne Hok) as [l0 Hl0].
  destruct (predict_all_lengths Hok Hraw) as [Lp Lt].
  rewrite (padding_test loader Hp Hl0 Hw) in Ht, Hy.
  assert (HN : 1 <= total_samples (batches loader)).
  { rewrite <- Lt. destruct (batches loader) as [|b rest]; [congruence|].
    cbn [first_label] in Hl0. cbn [map concat]. rewrite length_app.
    destruct (b_target b); [discriminate|cbn [length]; lia]. }
  assert (Hlen : length (concat (map b_target (batches loader)))
                 = length (concat raw)) by congruence.
  exists r, raw. cbv zeta. split; [exact Hr|]. split; [exact Hraw|].
  split; [|split].
  - rewrite accuracy_score_nonempty by lia. rewrite Lt. reflexivity.
  - rewrite accuracy_score_nonempty in Ha.
    + inversion Ha as [Hq]. rewrite Ht, Hy.
      rewrite count_correct_app by exact Hlen.
      rewrite count_correct_repeat, length_app, repeat_length, Lt.
      reflexivity.
    + rewrite Ht, Hy, !length_app, !repeat_length. lia.
    + rewrite Ht, length_app. lia.
  - apply padded_ratio_le; [|exact HN].
    rewrite <- Lt. apply count_correct_le.
Qed.

Lemma demo_single_step_ok :
  Forall (batch_ok demo_model CrossEntropyLoss)
    [mkBatch (mkTensor [2; 1; 1] [0; 0]%R) [1; 2]%Z [0; 1]%Z].
Proof.
  repeat constructor. unfold batch_ok. do 3 eexists. exists 2.
  split; [reflexivity|]. split; [reflexivity|]. split; [reflexivity|].
  split; [lia|]. split; [reflexivity|]. split; [reflexivity|].
  repeat constructor; discriminate.
Defined.

Lemma failing_batch_aborts_run_witness :
  eval_one_epoch (fun _ => Err RuntimeError)
    (mkLoader "val" ([] ++ demo_batch :: [])) CrossEntropyLoss true false
  = Err RuntimeError.
Proof.
  apply (@failing_batch_aborts_run (fun _ => Err RuntimeError)
           (mkLoader "val" ([] ++ demo_batch :: [])) CrossEntropyLoss
           [] [] demo_batch RuntimeError true false).
  - reflexivity.
  - constructor.
  - left. reflexivity.
Defined.

Lemma single_step_windows_add_no_padding_witness :
  exists r raw,
    eval_one_epoch_result demo_model
      (mkLoader "test" [mkBatch (mkTensor [2; 1; 1] [0; 0]%R) [1; 2]%Z [0; 1]%Z])
      CrossEntropyLoss = Ok r /\
    predict_all demo_model
      [mkBatch (mkTensor [2; 1; 1] [0; 0]%R) [1; 2]%Z [0; 1]%Z] = Ok raw /\
    r_true r = concat (map b_target
      [mkBatch (mkTensor [2; 1; 1] [0; 0]%R) [1; 2]%Z [0; 1]%Z]) /\
    r_pred r = concat raw.
Proof.
  apply (@single_step_windows_add_no_padding demo_model
           (mkLoader "test"
              [mkBatch (mkTensor [2; 1; 1] [0; 0]%R) [1; 2]%Z [0; 1]%Z])
           CrossEntropyLoss 1).
  - reflexivity.
  - discriminate.
  - exact demo_single_step_ok.
  - reflexivity.
  - lia.
Defined.

Lemma test_accuracy_includes_padding_witness :
  exists r raw,
    eval_one_epoch_result demo_model demo_test_loader CrossEntropyLoss = Ok r /\
    predict_all demo_model (batches demo_test_loader) = Ok raw /\
    let T := concat (map b_target (batches demo_test_loader)) in
    let P := concat raw in
    let c := count_correct T P in
    let N := total_samples (batches demo_test_loader) in
    accuracy_score T P = Ok (Fin (qnat c / qnat N)%Q) /\
    r_acc r = Fin (qnat (c + (3 - 1)) / qnat (N + (3 - 1)))%Q /\
    (qnat c / qnat N <= qnat (c + (3 - 1)) / qnat (N + (3 - 1)))%Q.
Proof.
  apply (@test_accuracy_includes_padding demo_model demo_test_loader
           CrossEntropyLoss 3).
  - reflexivity.
  - discriminate.
  - exact (demo_batches_ok "test").
  - reflexivity.
Defined.

(** ** Construction of the self-attention block *)

(** X10. [SelfAttention(n_channels, div)] with more than one channel
    needs a positive [div]: zero raises [ZeroDivisionError], a negative
    one asks for a negative number of channels and is refused; a
    positive one gives query and key projections of [n_channels // div]
    channels, at most [n_channels]. With one channel or none [div] is
    not looked at. The gate starts at 0 in every case. *)
Theorem SelfAttention_init_div (n_channels : nat) (div : Z)
    (wq wk wv : list (list R)) :
  (n_channels <= 1 ->
   exists sa,
     SelfAttention.init n_channels div wq wk wv = Ok sa /\
     Conv1d.out_channels (SelfAttention.query sa) = n_channels /\
     Conv1d.out_channels (SelfAttention.key sa) = n_channels /\
     SelfAttention.gamma sa = 0%R) /\
  (2 <= n_channels -> div = 0%Z ->
   SelfAttention.init n_channels div wq wk wv = Err ZeroDivisionError) /\
  (2 <= n_channels -> (div < 0)%Z ->
   SelfAttention.init n_channels div wq wk wv = Err RuntimeError) /\
  (2 <= n_channels -> (0 < div)%Z ->
   exists sa,
     SelfAttention.init n_channels div wq wk wv = Ok sa /\
     Conv1d.out_channels (SelfAttention.query sa)
       = Z.to_nat (Z.of_nat n_channels / div) /\
     Conv1d.out_channels (SelfAttention.key sa)
       = Z.to_nat (Z.of_nat n_channels / div) /\
     Conv1d.out_channels (SelfAttention.query sa) <= n_channels /\
     SelfAttention.gamma sa = 0%R).
Proof.
  unfold SelfAttention.init, floordiv, channel_count.
  repeat split.
  - intros Hn. destruct (Nat.ltb_spec 1 n_channels); [lia|].
    cbn [bind]. eexists. split; [reflexivity|]. cbn. repeat split.
  - intros Hn ->. destruct (Nat.ltb_spec 1 n_channels); [|lia]. reflexivity.
  - intros Hn Hd. destruct (Nat.ltb_spec 1 n_channels); [|lia].
    destruct (Z.eqb_spec div 0); [lia|]. cbn [bind].
    destruct (Z.ltb_spec (Z.of_nat n_channels / div) 0) as [_|Hq];
      [reflexivity|].
    exfalso. pose proof (Z.div_mod (Z.of_nat n_channels) div ltac:(lia)).
    pose proof (Z.mod_neg_bound (Z.of_nat n_channels) div Hd). nia.
  - intros Hn Hd. destruct (Nat.ltb_spec 1 n_channels); [|lia].
    destruct (Z.eqb_spec div 0); [lia|]. cbn [bind].
    assert (Hq : (0 <= Z.of_nat n_channels / div)%Z)
      by (apply Z.div_pos; lia).
    assert (Hq' : (Z.of_nat n_channels / div <= Z.of_nat n_channels)%Z).
    { apply Z.div_le_upper_bound; [lia|]. nia. }
    destruct (Z.ltb_spec (Z.of_nat n_channels / div) 0); [lia|].
    cbn [bind]. eexists. split; [reflexivity|]. cbn.
    repeat split. lia.
Qed.

(** ** The self-attention block as a residual connection *)

(** X11. Whatever the gate and the weights are, the block returns a
    tensor of the shape of its input, and the difference to the input
    is the gate times an attention term that does not depend on the
    gate: entry by entry the output is [x + gamma * a]. *)
Theorem SelfAttention_is_residual (q k v : Conv1d.t) (x : Tensor)
    (b c : nat) (spatial : list nat) :
  Conv1d.in_channels q = c ->
  Conv1d.in_channels k = c ->
  Conv1d.in_channels v = c ->
  Conv1d.out_channels v = c ->
  Conv1d.out_channels q = Conv1d.out_channels k ->
  1 <= Conv1d.out_channels q ->
  shape x = b :: c :: spatial ->
  length (data x) = numel (shape x) ->
  1 <= b -> 1 <= c -> 1 <= numel spatial ->
  exists a,
    length a = length (data x) /\
    forall gamma,
      SelfAttention.forward (SelfAttention.mk q k v gamma) x
      = Ok (mkTensor (shape x)
              (map (fun p => (gamma * fst p + snd p)%R)
                 (combine a (data x)))).
Proof.
  intros Hq Hk Hv Hvo Hqk Hw Hs Hd Hb Hc Hn.
  destruct x as [sx dx]. cbn [shape data] in *. subst sx.
  set (n := numel spatial) in *.
  assert (Hlen : length dx = b * c * n).
  { rewrite Hd. cbn [numel fold_right]. fold (numel spatial). subst n. lia. }
  destruct (Conv1d_forward_ok q b dx Hq Hn Hw) as (df & Ef & Lf).
  destruct (Conv1d_forward_ok k b dx Hk Hn) as (dg & Eg & Lg);
    [rewrite <- Hqk; exact Hw|].
  destruct (Conv1d_forward_ok v b dx Hv Hn) as (dh & Eh & Lh);
    [rewrite Hvo; exact Hc|].
  eexists. split; cycle 1.
  - intros gamma.
    unfold SelfAttention.forward, T_view_infer.
    cbn [shape data firstn SelfAttention.query SelfAttention.key
           SelfAttention.value SelfAttention.gamma].
    rewrite (@view_infer_exact [b; c] (b :: c :: spatial) n).
    2:{ cbn [numel fold_right]. nia. }
    2:{ cbn [numel fold_right]. fold (numel spatial). subst n. lia. }
    cbn [bind app]. rewrite Ef, Eg, Eh. cbn [bind]. rewrite Hvo, <- Hqk.
    unfold T_permute021, permute. cbn [shape data dims3 length Nat.eqb mapM
      getitem nth_error from_option bind].
    unfold T_bmm, bmm. cbn [shape data dims3]. rewrite !Nat.eqb_refl.
    cbn [andb bind].
    unfold T_softmax_dim1, softmax_shape. cbn [shape data dims3 length Nat.ltb
      Nat.leb bind]. rewrite !Nat.eqb_refl. cbn [andb bind shape data dims3].
    unfold T_scale_add. cbn [shape data]. rewrite shape_eqb_refl.
    cbn [bind]. unfold T_view, view. cbn [shape data].
    destruct (Nat.eqb_spec (numel (b :: c :: spatial)) (numel [b; c; n]))
      as [_|E]; [reflexivity|].
    exfalso; apply E. cbn [numel fold_right]. fold (numel spatial).
    subst n. lia.
  - rewrite tabulate3_length. lia.
Qed.

Lemma SelfAttention_init_div_witness :
  (2 <= 2 -> (0 < 2)%Z ->
   exists sa,
     SelfAttention.init 2 2 [[1; 1]]%R [[1; 0]]%R [[1; 0]; [0; 1]]%R = Ok sa /\
     Conv1d.out_channels (SelfAttention.query sa) = 1) /\
  SelfAttention.init 2 0 [] [] [] = Err ZeroDivisionError.
Proof.
  pose proof (SelfAttention_init_div 2 2 [[1; 1]]%R [[1; 0]]%R
                [[1; 0]; [0; 1]]%R) as (_ & _ & _ & H).
  pose proof (SelfAttention_init_div 2 0 [] [] []) as (_ & H0 & _).
  split.
  - intros H2 Hd. destruct (H H2 Hd) as (sa & Hsa & Hq & _).
    exists sa. split; [exact Hsa|exact Hq].
  - apply H0; [lia|reflexivity].
Defined.

Lemma SelfAttention_is_residual_witness :
  exists a,
    length a = length (data demo_tensor) /\
    forall gamma,
      SelfAttention.forward
        (SelfAttention.mk (conv1d 2 2 [[1; 0]; [0; 1]]%R)
           (conv1d 2 2 [[0; 1]; [1; 0]]%R)
           (conv1d 2 2 [[1; 1]; [0; 1]]%R) gamma) demo_tensor
      = Ok (mkTensor (shape demo_tensor)
              (map (fun p => (gamma * fst p + snd p)%R)
                 (combine a (data demo_tensor)))).
Proof.
  apply (@SelfAttention_is_residual (conv1d 2 2 [[1; 0]; [0; 1]]%R)
           (conv1d 2 2 [[0; 1]; [1; 0]]%R) (conv1d 2 2 [[1; 1]; [0; 1]]%R)
           demo_tensor 1 2 [2]).
  - reflexivity.
  - reflexivity.
  - reflexivity.
  - reflexivity.
  - reflexivity.
  - cbn. lia.
  - reflexivity.
  - reflexivity.
  - lia.
  - lia.
  - cbn. lia.
Defined.

(** ** The feature extractor up to its encoder *)

Lemma Conv2d_forward_shape_short (f_in f_out k b h w : nat) :
  h < k ->
  Conv2d.forward_shape (Conv2d.mk f_in f_out k 1) [b; f_in; h; w]
  = Err RuntimeError.
Proof.
  intros Hh. unfold Conv2d.forward_shape, Conv2d.forward_plane.
  cbn [Conv2d.in_channels Conv2d.kernel_h Conv2d.kernel_w Conv2d.out_channels].
  destruct (Nat.leb_spec k h); [lia|].
  rewrite !andb_false_r. cbn [andb]. reflexivity.
Qed.

Lemma Conv2d_forward_shape_no_filter (f_in k b ch h w : nat) :
  Conv2d.forward_shape (Conv2d.mk f_in 0 k 1) [b; ch; h; w]
  = Err RuntimeError.
Proof.
  unfold Conv2d.forward_shape, Conv2d.forward_plane.
  cbn [Conv2d.in_channels Conv2d.kernel_h Conv2d.kernel_w Conv2d.out_channels
         Nat.leb].
  rewrite !andb_false_r. reflexivity.
Qed.

(** A block whose query projection has no output channel refuses every
    input. *)
Lemma SelfAttention_forward_shape_empty (n_channels : nat) (div : Z)
    (wq wk wv : list (list R)) (sa : SelfAttention.t) (b c : nat) :
  SelfAttention.init n_channels div wq wk wv = Ok sa ->
  Conv1d.out_channels (SelfAttention.query sa) = 0 ->
  1 <= b -> 1 <= n_channels -> 1 <= c ->
  SelfAttention.forward_shape sa [b; n_channels; c; 1] = Err RuntimeError.
Proof.
  intros Hinit Hw Hb Hn Hc. unfold SelfAttention.forward_shape.
  cbn [firstn].
  rewrite (@view_infer_exact [b; n_channels] [b; n_channels; c; 1] c)
    by (cbn [numel fold_right]; nia).
  cbn [bind app]. unfold Conv1d.forward_shape at 1. rewrite Hw.
  cbn [Nat.leb]. rewrite !andb_false_r. reflexivity.
Qed.

(** Everything before the recurrent encoder goes through for windows
    long enough, whatever the number of sensor channels: the encoder
    receives [t - 4 (filter_size - 1)] steps of [filter_num * c]
    features. *)
Lemma forward_shape_to_encoder
    (input_dim hidden_dim filter_num filter_size enc_num_layers : nat)
    (bidir : bool) (dropout dropout_rnn : R) (activation : string)
    (sa_div : Z) (iv : InitValues) (fe : FeatureExtractor.t) (b t c : nat) :
  FeatureExtractor.init input_dim hidden_dim filter_num filter_size
    enc_num_layers bidir dropout dropout_rnn activation sa_div iv = Ok fe ->
  1 <= Conv1d.out_channels (SelfAttention.query (FeatureExtractor.sa fe)) ->
  1 <= b -> 1 <= c -> 1 <= filter_num -> 1 <= filter_size ->
  4 * (filter_size - 1) < t ->
  FeatureExtractor.forward_shape fe [b; t; c]
  = (outputs <- GRU.forward_shape (FeatureExtractor.rnn fe)
                  [t - 4 * (filter_size - 1); b; filter_num * c] ;;
     TemporalAttention.forward_shape (FeatureExtractor.ta fe) outputs).
Proof.
  intros Hinit Hw Hb Hc Hf Hk Ht.
  destruct (FeatureExtractor_init_layers _ _ _ _ _ _ _ _ _ _ _ Hinit)
    as (H1 & H2 & H3 & H4 & Hrnn & Hin & Hout & Hsa).
  unfold FeatureExtractor.forward_shape. rewrite H1, H2, H3, H4.
  unfold unsqueeze at 1. cbn [length Nat.leb firstn skipn app bind].
  rewrite Conv2d_forward_shape_time by lia. cbn [bind].
  rewrite Conv2d_forward_shape_time by lia. cbn [bind].
  rewrite Conv2d_forward_shape_time by lia. cbn [bind].
  rewrite Conv2d_forward_shape_time by lia. cbn [bind].
  replace (t - filter_size + 1 - filter_size + 1 - filter_size + 1
           - filter_size + 1) with (t - 4 * (filter_size - 1)) by lia.
  set (n := t - 4 * (filter_size - 1)).
  assert (Hn : 1 <= n) by (subst n; lia).
  cbn [getitem nth_error from_option bind].
  rewrite (@mapM_const _ _ _ ([b; filter_num; c] ++ [1])).
  2:{ intros step Hstep. apply in_seq in Hstep.
      unfold FeatureExtractor.refine_step, select_dim2.
      destruct (Nat.ltb_spec step n); [|lia]. cbn [bind].
      unfold unsqueeze. cbn [length Nat.leb firstn skipn app bind].
      apply (SelfAttention_forward_shape_ok _ _ _ _ Hsa); assumption. }
  cbn [bind]. rewrite length_seq, cat_last_repeat by exact Hn.
  cbn [bind app]. unfold permute.
  cbn [length Nat.eqb mapM getitem nth_error from_option bind].
  rewrite (@view_infer_exact [n; b] _ (filter_num * c))
    by (cbn [numel fold_right]; nia).
  cbn [bind app]. reflexivity.
Qed.

(** With a query projection without output channel the attention block
    refuses the first time step. *)
Lemma forward_shape_empty_projection
    (input_dim hidden_dim filter_num filter_size enc_num_layers : nat)
    (bidir : bool) (dropout dropout_rnn : R) (activation : string)
    (sa_div : Z) (iv : InitValues) (fe : FeatureExtractor.t) (b t c : nat) :
  FeatureExtractor.init input_dim hidden_dim filter_num filter_size
    enc_num_layers bidir dropout dropout_rnn activation sa_div iv = Ok fe ->
  Conv1d.out_channels (SelfAttention.query (FeatureExtractor.sa fe)) = 0 ->
  1 <= b -> 1 <= c -> 1 <= filter_num -> 1 <= filter_size ->
  4 * (filter_size - 1) < t ->
  FeatureExtractor.forward_shape fe [b; t; c] = Err RuntimeError.
Proof.
  intros Hinit Hw Hb Hc Hf Hk Ht.
  destruct (FeatureExtractor_init_layers _ _ _ _ _ _ _ _ _ _ _ Hinit)
    as (H1 & H2 & H3 & H4 & Hrnn & Hin & Hout & Hsa).
  unfold FeatureExtractor.forward_shape. rewrite H1, H2, H3, H4.
  unfold unsqueeze at 1. cbn [length Nat.leb firstn skipn app bind].
  rewrite Conv2d_forward_shape_time by lia. cbn [bind].
  rewrite Conv2d_forward_shape_time by lia. cbn [bind].
  rewrite Conv2d_forward_shape_time by lia. cbn [bind].
  rewrite Conv2d_forward_shape_time by lia. cbn [bind].
  replace (t - filter_size + 1 - filter_size + 1 - filter_size + 1
           - filter_size + 1) with (S (t - 4 * (filter_size - 1) - 1)) by lia.
  cbn [getitem nth_error from_option bind seq mapM].
  unfold FeatureExtractor.refine_step at 1, select_dim2.
  cbn [Nat.ltb Nat.leb bind].
  unfold unsqueeze. cbn [length Nat.leb firstn skipn app bind].
  rewrite (@SelfAttention_forward_shape_empty _ _ _ _ _ _ b c Hsa Hw)
    by assumption.
  reflexivity.
Qed.

(** X12. A window must have more than [4 * (filter_size - 1)] time
    steps: each of the four convolutions takes [filter_size - 1] of
    them, and a shorter window is refused by the convolution that runs
    out of steps. *)
Theorem short_window_is_refused
    (input_dim hidden_dim filter_num filter_size enc_num_layers : nat)
    (bidir : bool) (dropout dropout_rnn : R) (activation : string)
    (sa_div : Z) (iv : InitValues) (fe : FeatureExtractor.t) (b t c : nat) :
  FeatureExtractor.init input_dim hidden_dim filter_num filter_size
    enc_num_layers bidir dropout dropout_rnn activation sa_div iv = Ok fe ->
  1 <= c -> 1 <= filter_size ->
  t <= 4 * (filter_size - 1) ->
  FeatureExtractor.forward_shape fe [b; t; c] = Err RuntimeError.
Proof.
  intros Hinit Hc Hk Ht.
  destruct (FeatureExtractor_init_layers _ _ _ _ _ _ _ _ _ _ _ Hinit)
    as (H1 & H2 & H3 & H4 & _).
  unfold FeatureExtractor.forward_shape. rewrite H1, H2, H3, H4.
  unfold unsqueeze at 1. cbn [length Nat.leb firstn skipn app bind].
  destruct filter_num as [|f'] eqn:Ef;
    [rewrite Conv2d_forward_shape_no_filter; reflexivity|].
  rewrite <- Ef in *.
  assert (Hf : 1 <= filter_num) by lia.
  destruct (le_lt_dec filter_size t) as [L1|L1];
    [|rewrite Conv2d_forward_shape_short by lia; reflexivity].
  rewrite Conv2d_forward_shape_time by lia. cbn [bind].
  destruct (le_lt_dec filter_size (t - filter_size + 1)) as [L2|L2];
    [|rewrite Conv2d_forward_shape_short by lia; reflexivity].
  rewrite Conv2d_forward_shape_time by lia. cbn [bind].
  destruct (le_lt_dec filter_size (t - filter_size + 1 - filter_size + 1))
    as [L3|L3];
    [|rewrite Conv2d_forward_shape_short by lia; reflexivity].
  rewrite Conv2d_forward_shape_time by lia. cbn [bind].
  rewrite Conv2d_forward_shape_short by lia. reflexivity.
Qed.

(** X13. A batch with another number of sensor channels than
    [input_dim] passes the four convolutions and the self-attention,
    whose kernels span the time axis only, and is refused by the
    recurrent encoder, which was sized for [filter_num * input_dim]
    features. *)
Theorem channel_mismatch_is_refused_by_encoder
    (input_dim hidden_dim filter_num filter_size enc_num_layers : nat)
    (bidir : bool) (dropout dropout_rnn : R) (activation : string)
    (sa_div : Z) (iv : InitValues) (fe : FeatureExtractor.t) (b t c : nat) :
  FeatureExtractor.init input_dim hidden_dim filter_num filter_size
    enc_num_layers bidir dropout dropout_rnn activation sa_div iv = Ok fe ->
  1 <= b -> 1 <= c -> 1 <= filter_num -> 1 <= filter_size ->
  4 * (filter_size - 1) < t ->
  c <> input_dim ->
  (x <- unsqueeze 1 [b; t; c] ;;
   x <- Conv2d.forward_shape (FeatureExtractor.conv1 fe) x ;;
   x <- Conv2d.forward_shape (FeatureExtractor.conv2 fe) x ;;
   x <- Conv2d.forward_shape (FeatureExtractor.conv3 fe) x ;;
   Conv2d.forward_shape (FeatureExtractor.conv4 fe) x)
  = Ok [b; filter_num; t - 4 * (filter_size - 1); c] /\
  GRU.forward_shape (FeatureExtractor.rnn fe)
    [t - 4 * (filter_size - 1); b; filter_num * c] = Err RuntimeError /\
  FeatureExtractor.forward_shape fe [b; t; c] = Err RuntimeError.
Proof.
  intros Hinit Hb Hc Hf Hk Ht Hne.
  destruct (FeatureExtractor_init_layers _ _ _ _ _ _ _ _ _ _ _ Hinit)
    as (H1 & H2 & H3 & H4 & Hrnn & _).
  assert (Hgru : GRU.forward_shape (FeatureExtractor.rnn fe)
                   [t - 4 * (filter_size - 1); b; filter_num * c]
                 = Err RuntimeError).
  { rewrite Hrnn. unfold GRU.forward_shape. cbn [GRU.input_size].
    destruct (Nat.eqb_spec (filter_num * c) (filter_num * input_dim)) as [E|_];
      [|reflexivity].
    exfalso. apply Hne. nia. }
  split; [|split; [exact Hgru|]].
  - rewrite H1, H2, H3, H4.
    unfold unsqueeze. cbn [length Nat.leb firstn skipn app bind].
    rewrite Conv2d_forward_shape_time by lia. cbn [bind].
    rewrite Conv2d_forward_shape_time by lia. cbn [bind].
    rewrite Conv2d_forward_shape_time by lia. cbn [bind].
    rewrite Conv2d_forward_shape_time by lia.
    do 4 f_equal. lia.
  - destruct (Conv1d.out_channels
                (SelfAttention.query (FeatureExtractor.sa fe))) as [|w] eqn:Ew.
    + apply (@forward_shape_empty_projection _ _ _ _ _ _ _ _ _ _ _ _ b t c
               Hinit Ew Hb Hc Hf Hk Ht).
    + rewrite (@forward_shape_to_encoder _ _ _ _ _ _ _ _ _ _ _ _ b t c
                 Hinit); [|rewrite Ew; lia|assumption..].
      rewrite Hgru. reflexivity.
Qed.

(** X14. A feature extractor with a one-directional encoder, built with
    dropout rates in [0, 1], at least one hidden feature and one layer,
    and with [filter_num = 1] or [0 < sa_div <= filter_num] so that the
    projections of the attention block keep a channel, maps a batch
    [(B, T, input_dim)] of windows longer than [4 * (filter_size - 1)]
    steps to one embedding of [hidden_dim] features per window, whatever
    [T] is. *)
Theorem feature_extractor_output_shape
    (input_dim hidden_dim filter_num filter_size enc_num_layers : nat)
    (dropout dropout_rnn : R) (activation : string) (sa_div : Z)
    (iv : InitValues) (fe : FeatureExtractor.t) (b t : nat) :
  FeatureExtractor.init input_dim hidden_dim filter_num filter_size
    enc_num_layers false dropout dropout_rnn activation sa_div iv = Ok fe ->
  (0 <= dropout <= 1)%R -> (0 <= dropout_rnn <= 1)%R ->
  1 <= hidden_dim -> 1 <= enc_num_layers ->
  filter_num = 1 \/ (0 < sa_div <= Z.of_nat filter_num)%Z ->
  1 <= b -> 1 <= input_dim -> 1 <= filter_num -> 1 <= filter_size ->
  4 * (filter_size - 1) < t ->
  1 <= Conv1d.out_channels (SelfAttention.query (FeatureExtractor.sa fe)) /\
  FeatureExtractor.forward_shape fe [b; t; input_dim] = Ok [b; hidden_dim].
Proof.
  intros Hinit _ _ _ _ Hdiv Hb Hc Hf Hk Ht.
  destruct (FeatureExtractor_init_layers _ _ _ _ _ _ _ _ _ _ _ Hinit)
    as (_ & _ & _ & _ & _ & _ & _ & Hsa).
  split; [exact (@SelfAttention_init_width _ _ _ _ _ _ Hsa Hdiv)|].
  exact (@unidirectional_forward_shape _ _ _ _ _ _ _ _ _ _ _ b t
           Hinit Hdiv Hb Hc Hf Hk Ht).
Qed.

(** X15. The container built with a one-directional encoder, dropout
    rates in [0, 1], at least one hidden feature and one layer, and
    [filter_num = 1] or [0 < sa_div <= filter_num], returns for such a
    batch an embedding of shape [(B, hidden_dim)] and logits of shape
    [(B, num_class)]. *)
Theorem container_output_shapes
    (input_dim num_class hidden_dim filter_num filter_size
       enc_num_layers : nat)
    (dropout dropout_rnn dropout_cls : R) (activation : string)
    (sa_div : Z) (iv : InitValues) (m : AttendAndDiscriminate.t)
    (b t : nat) :
  AttendAndDiscriminate.init input_dim num_class hidden_dim filter_num
    filter_size enc_num_layers false dropout dropout_rnn dropout_cls
    activation sa_div iv = Ok m ->
  (0 <= dropout <= 1)%R -> (0 <= dropout_rnn <= 1)%R ->
  (0 <= dropout_cls <= 1)%R ->
  1 <= hidden_dim -> 1 <= enc_num_layers ->
  filter_num = 1 \/ (0 < sa_div <= Z.of_nat filter_num)%Z ->
  1 <= b -> 1 <= input_dim -> 1 <= filter_num -> 1 <= filter_size ->
  4 * (filter_size - 1) < t ->
  AttendAndDiscriminate.forward_shape m [b; t; input_dim]
  = Ok ([b; hidden_dim], [b; num_class]).
Proof.
  intros Hinit _ _ _ _ _ Hdiv Hb Hc Hf Hk Ht.
  exact (@container_forward_shape_unidirectional _ _ _ _ _ _ _ _ _ _ _ _ _
           b t Hinit Hdiv Hb Hc Hf Hk Ht).
Qed.

(** ** The embedding the container returns *)

Lemma container_forward_ok (fe_forward : Tensor -> result Matrix)
    (input_dim num_class hidden_dim filter_num filter_size
       enc_num_layers : nat)
    (bidir : bool) (dropout dropout_rnn dropout_cls : R)
    (activation : string) (sa_div : Z) (iv : InitValues)
    (m : AttendAndDiscriminate.t)
    (training : bool) (keep : nat -> nat -> bool)
    (x : Tensor) (feature : Matrix) :
  AttendAndDiscriminate.init input_dim num_class hidden_dim filter_num
    filter_size enc_num_layers bidir dropout dropout_rnn dropout_cls
    activation sa_div iv = Ok m ->
  fe_forward x = Ok feature ->
  Forall (fun row => length row = hidden_dim) feature ->
  exists logits,
    AttendAndDiscriminate.forward fe_forward m training keep x
    = Ok (normalize_rows feature, logits).
Proof.
  intros Hinit Hfe Hrows.
  destruct (AttendAndDiscriminate_init_fields _ _ _ _ _ _ _ _ _ _ _ _ _ Hinit)
    as (_ & Hd & Hc & _).
  destruct (Dropout_rows dropout_cls training keep Hrows) as [Hdrop _].
  destruct (@Linear_forward_ok
              (Classifier.fc (AttendAndDiscriminate.classifier m))
              (Dropout dropout_cls training keep feature))
    as (logits & Hl & _).
  { rewrite Hc. exact Hdrop. }
  exists logits. unfold AttendAndDiscriminate.forward, Classifier.forward.
  rewrite Hfe, Hd. cbn [bind]. rewrite Hl. reflexivity.
Qed.

(** X16. In exact arithmetic every row of the returned embedding [z]
    whose feature vector is not of norm zero has Euclidean norm 1. *)
Theorem embedding_rows_have_unit_norm
    (fe_forward : Tensor -> result Matrix)
    (input_dim num_class hidden_dim filter_num filter_size
       enc_num_layers : nat)
    (bidir : bool) (dropout dropout_rnn dropout_cls : R)
    (activation : string) (sa_div : Z) (iv : InitValues)
    (m : AttendAndDiscriminate.t)
    (training : bool) (keep : nat -> nat -> bool)
    (x : Tensor) (feature : Matrix) :
  AttendAndDiscriminate.init input_dim num_class hidden_dim filter_num
    filter_size enc_num_layers bidir dropout dropout_rnn dropout_cls
    activation sa_div iv = Ok m ->
  fe_forward x = Ok feature ->
  Forall (fun row => length row = hidden_dim) feature ->
  exists z logits,
    AttendAndDiscriminate.forward fe_forward m training keep x
    = Ok (z, logits) /\
    Forall2 (fun row zrow => l2norm row <> 0%R -> xl2norm zrow = Real 1)
      feature z.
Proof.
  intros Hinit Hfe Hrows.
  destruct (@container_forward_ok fe_forward _ _ _ _ _ _ _ _ _ _ _ _ _ _ training keep x _
              Hinit Hfe Hrows)
    as (logits & H).
  exists (normalize_rows feature), logits. split; [exact H|].
  unfold normalize_rows. clear. induction feature as [|row rest IH];
    constructor; [|exact IH].
  apply normalize_row_unit_norm.
Qed.

Lemma l2norm_scale (c : R) (row : list R) :
  (0 < c)%R -> l2norm (map (Rmult c) row) = (c * l2norm row)%R.
Proof.
  intros Hc. unfold l2norm. rewrite map_map.
  assert (E : rsum (map (fun v => (c * v * (c * v))%R) row)
              = (c * c * rsum (map (fun v => (v * v)%R) row))%R).
  { induction row as [|v row IH]; cbn [map rsum fold_right]; [lra|].
    fold (rsum (map (fun v0 => (c * v0 * (c * v0))%R) row)).
    fold (rsum (map (fun v0 => (v0 * v0)%R) row)). rewrite IH. lra. }
  rewrite E, sqrt_mult_alt by nra. rewrite sqrt_square by lra. reflexivity.
Qed.

Lemma normalize_rows_scale (c : R) (feature : Matrix) :
  (0 < c)%R ->
  Forall (fun row => l2norm row <> 0%R) feature ->
  normalize_rows (map (map (Rmult c)) feature) = normalize_rows feature.
Proof.
  intros Hc Hn. unfold normalize_rows. rewrite map_map.
  induction Hn as [|row rest Hrow _ IH]; [reflexivity|].
  cbn [map]. rewrite IH. f_equal.
  assert (Hs : l2norm (map (Rmult c) row) <> 0%R).
  { rewrite l2norm_scale by exact Hc. nra. }
  rewrite (@normalize_row_nonzero _ Hs), (@normalize_row_nonzero _ Hrow).
  rewrite map_map, l2norm_scale by exact Hc.
  apply map_ext. intros v. f_equal. field. split; lra.
Qed.

(** X17. In exact arithmetic the embedding [z] only keeps the direction
    of the features: a feature extractor whose output is [c] times
    larger, [c > 0], gives the same [z]. *)
Theorem embedding_ignores_feature_scale
    (fe1 fe2 : Tensor -> result Matrix)
    (input_dim num_class hidden_dim filter_num filter_size
       enc_num_layers : nat)
    (bidir : bool) (dropout dropout_rnn dropout_cls : R)
    (activation : string) (sa_div : Z) (iv : InitValues)
    (m : AttendAndDiscriminate.t)
    (training : bool) (keep : nat -> nat -> bool)
    (x : Tensor) (feature : Matrix) (c : R) :
  AttendAndDiscriminate.init input_dim num_class hidden_dim filter_num
    filter_size enc_num_layers bidir dropout dropout_rnn dropout_cls
    activation sa_div iv = Ok m ->
  fe1 x = Ok feature ->
  fe2 x = Ok (map (map (Rmult c)) feature) ->
  (0 < c)%R ->
  Forall (fun row => length row = hidden_dim) feature ->
  Forall (fun row => l2norm row <> 0%R) feature ->
  exists z logits1 logits2,
    AttendAndDiscriminate.forward fe1 m training keep x = Ok (z, logits1) /\
    AttendAndDiscriminate.forward fe2 m training keep x = Ok (z, logits2).
Proof.
  intros Hinit H1 H2 Hc Hrows Hnorm.
  destruct (@container_forward_ok fe1 _ _ _ _ _ _ _ _ _ _ _ _ _ _ training keep x _
              Hinit H1 Hrows)
    as (l1 & E1).
  assert (Hrows' : Forall (fun row => length row = hidden_dim)
                     (map (map (Rmult c)) feature)).
  { apply Forall_forall. intros row Hin. apply in_map_iff in Hin.
    destruct Hin as (r & <- & Hin). rewrite length_map.
    rewrite Forall_forall in Hrows. apply Hrows, Hin. }
  destruct (@container_forward_ok fe2 _ _ _ _ _ _ _ _ _ _ _ _ _ _ training keep x _
              Hinit H2 Hrows')
    as (l2 & E2).
  rewrite (normalize_rows_scale Hc Hnorm) in E2.
  exists (normalize_rows feature), l1, l2. split; assumption.
Qed.

(** ** A feature extractor of another width *)

Lemma Linear_forward_bad_row (l : Linear.t) (x : Matrix) :
  Exists (fun row => length row <> Linear.in_features l) x ->
  Linear.forward l x = Err RuntimeError.
Proof.
  unfold Linear.forward. induction x as [|row rest IH]; intros H.
  - inversion H.
  - cbn [mapM]. unfold Linear.forward_row at 1.
    destruct (Nat.eqb_spec (length row) (Linear.in_features l)) as [E|E];
      [|reflexivity].
    cbn [bind]. rewrite IH; [reflexivity|].
    inversion H; subst; [contradiction|assumption].
Qed.

Lemma Dropout_keeps_bad_row (p : R) (training : bool)
    (keep : nat -> nat -> bool) (n : nat) (x : Matrix) :
  Exists (fun row => length row <> n) x ->
  Exists (fun row => length row <> n) (Dropout p training keep x).
Proof.
  unfold Dropout. destruct training; [|trivial].
  generalize 0 as i. induction x as [|row rest IH]; intros i H.
  - inversion H.
  - cbn [length seq combine map fst snd].
    inversion H; subst.
    + left. rewrite Dropout_row_length. assumption.
    + right. apply IH. assumption.
Qed.

(** X18. The classifier is sized for [hidden_dim] features: when the
    feature extractor returns a row of another length, [forward] raises
    and returns neither embedding nor logits. *)
Theorem feature_width_mismatch_raises
    (fe_forward : Tensor -> result Matrix)
    (input_dim num_class hidden_dim filter_num filter_size
       enc_num_layers : nat)
    (bidir : bool) (dropout dropout_rnn dropout_cls : R)
    (activation : string) (sa_div : Z) (iv : InitValues)
    (m : AttendAndDiscriminate.t)
    (training : bool) (keep : nat -> nat -> bool)
    (x : Tensor) (feature : Matrix) :
  AttendAndDiscriminate.init input_dim num_class hidden_dim filter_num
    filter_size enc_num_layers bidir dropout dropout_rnn dropout_cls
    activation sa_div iv = Ok m ->
  fe_forward x = Ok feature ->
  Exists (fun row => length row <> hidden_dim) feature ->
  AttendAndDiscriminate.forward fe_forward m training keep x
  = Err RuntimeError.
Proof.
  intros Hinit Hfe Hbad.
  destruct (AttendAndDiscriminate_init_fields _ _ _ _ _ _ _ _ _ _ _ _ _ Hinit)
    as (_ & Hd & Hc & _).
  unfold AttendAndDiscriminate.forward, Classifier.forward.
  rewrite Hfe. cbn [bind]. rewrite Linear_forward_bad_row; [reflexivity|].
  rewrite Hc. cbn [Classifier.init Classifier.fc Linear.in_features].
  apply Dropout_keeps_bad_row, Hbad.
Qed.

(** ** The properties on the small configuration *)

Lemma demo_fe_exists : exists fe, demo_fe_init = Ok fe.
Proof. unfold demo_fe_init. solve_init. Defined.

Lemma demo_container_exists : exists m, demo_container_init = Ok m.
Proof. unfold demo_container_init. solve_init. Defined.

Lemma short_window_is_refused_witness :
  exists fe,
    demo_fe_init = Ok fe /\
    FeatureExtractor.forward_shape fe [4; 3; 1] = Err RuntimeError.
Proof.
  destruct demo_fe_exists as [fe Hfe]. exists fe. split; [exact Hfe|].
  apply (@short_window_is_refused 1 2 2 2 1 false (1 / 2)%R (1 / 2)%R
           "ReLU" 1%Z demo_init_values fe 4 3 1 Hfe); lia.
Defined.

Lemma channel_mismatch_is_refused_by_encoder_witness :
  exists fe,
    demo_fe_init = Ok fe /\
    FeatureExtractor.forward_shape fe [4; 9; 3] = Err RuntimeError.
Proof.
  destruct demo_fe_exists as [fe Hfe]. exists fe. split; [exact Hfe|].
  apply (@channel_mismatch_is_refused_by_encoder 1 2 2 2 1 false (1 / 2)%R
           (1 / 2)%R "ReLU" 1%Z demo_init_values fe 4 9 3 Hfe); lia.
Defined.

Lemma feature_extractor_output_shape_witness :
  exists fe,
    demo_fe_init = Ok fe /\
    1 <= Conv1d.out_channels (SelfAttention.query (FeatureExtractor.sa fe)) /\
    FeatureExtractor.forward_shape fe [4; 9; 1] = Ok [4; 2].
Proof.
  destruct demo_fe_exists as [fe Hfe]. exists fe. split; [exact Hfe|].
  apply (@feature_extractor_output_shape 1 2 2 2 1 (1 / 2)%R (1 / 2)%R
           "ReLU" 1%Z demo_init_values fe 4 9 Hfe);
    try lra; try lia; right; lia.
Defined.

Lemma container_output_shapes_witness :
  exists m,
    demo_container_init = Ok m /\
    AttendAndDiscriminate.forward_shape m [4; 9; 1] = Ok ([4; 2], [4; 2]).
Proof.
  destruct demo_container_exists as [m Hm]. exists m. split; [exact Hm|].
  apply (@container_output_shapes 1 2 2 2 2 1 (1 / 2)%R (1 / 2)%R (1 / 2)%R
           "ReLU" 1%Z demo_init_values m 4 9 Hm);
    try lra; try lia; right; lia.
Defined.

Lemma demo_feature_norm : l2norm [3; 4]%R <> 0%R.
Proof.
  unfold l2norm. cbn [map rsum fold_right]. intros H.
  apply sqrt_eq_0 in H; lra.
Qed.

Lemma embedding_rows_have_unit_norm_witness :
  exists m z logits,
    demo_container_init = Ok m /\
    AttendAndDiscriminate.forward demo_fe_forward m false (fun _ _ => true)
      demo_tensor = Ok (z, logits) /\
    Forall2 (fun row zrow => l2norm row <> 0%R -> xl2norm zrow = Real 1)
      [[3; 4]]%R z.
Proof.
  destruct demo_container_exists as [m Hm]. exists m.
  destruct (@embedding_rows_have_unit_norm demo_fe_forward 1 2 2 2 2 1 false
              (1 / 2)%R (1 / 2)%R (1 / 2)%R "ReLU" 1%Z demo_init_values m
              false (fun _ _ => true) demo_tensor [[3; 4]]%R Hm)
    as (z & logits & H).
  - reflexivity.
  - repeat constructor.
  - exists z, logits. split; [exact Hm|exact H].
Defined.

Lemma embedding_ignores_feature_scale_witness :
  exists m z logits1 logits2,
    demo_container_init = Ok m /\
    AttendAndDiscriminate.forward demo_fe_forward m false (fun _ _ => true)
      demo_tensor = Ok (z, logits1) /\
    AttendAndDiscriminate.forward
      (fun _ => Ok (map (map (Rmult 2)) [[3; 4]]%R)) m false
      (fun _ _ => true) demo_tensor = Ok (z, logits2).
Proof.
  destruct demo_container_exists as [m Hm]. exists m.
  destruct (@embedding_ignores_feature_scale demo_fe_forward
              (fun _ => Ok (map (map (Rmult 2)) [[3; 4]]%R))
              1 2 2 2 2 1 false (1 / 2)%R (1 / 2)%R (1 / 2)%R "ReLU" 1%Z
              demo_init_values m false (fun _ _ => true) demo_tensor
              [[3; 4]]%R 2%R Hm)
    as (z & l1 & l2 & H).
  - reflexivity.
  - reflexivity.
  - lra.
  - repeat constructor.
  - repeat constructor. exact demo_feature_norm.
  - exists z, l1, l2. split; [exact Hm|exact H].
Defined.

Lemma feature_width_mismatch_raises_witness :
  exists m,
    demo_container_init = Ok m /\
    AttendAndDiscriminate.forward (fun _ => Ok [[3; 4; 5]]%R) m false
      (fun _ _ => true) demo_tensor = Err RuntimeError.
Proof.
  destruct demo_container_exists as [m Hm]. exists m. split; [exact Hm|].
  apply (@feature_width_mismatch_raises (fun _ => Ok [[3; 4; 5]]%R)
           1 2 2 2 2 1 false (1 / 2)%R (1 / 2)%R (1 / 2)%R "ReLU" 1%Z
           demo_init_values m false (fun _ _ => true) demo_tensor
           [[3; 4; 5]]%R Hm).
  - reflexivity.
  - left. cbn. lia.
Defined.

(** ** The temporal attention on values *)

Lemma rsum_map_le {A : Type} (f g : A -> R) (l : list A) :
  (forall a, In a l -> (f a <= g a)%R) ->
  (rsum (map f l) <= rsum (map g l))%R.
Proof.
  induction l as [|a l IH]; intros H; cbn [map rsum fold_right]; [lra|].
  fold (rsum (map f l)). fold (rsum (map g l)).
  pose proof (H a (or_introl eq_refl)).
  assert (rsum (map f l) <= rsum (map g l))%R
    by (apply IH; intros a' Ha'; apply H; right; exact Ha').
  lra.
Qed.

Lemma rsum_map_scale {A : Type} (f : A -> R) (c : R) (l : list A) :
  rsum (map (fun a => (f a * c)%R) l) = (rsum (map f l) * c)%R.
Proof.
  induction l as [|a l IH]; cbn [map rsum fold_right]; [lra|].
  fold (rsum (map (fun a0 => (f a0 * c)%R) l)). fold (rsum (map f l)).
  rewrite IH. lra.
Qed.

Lemma rsum_exp_positive {A : Type} (g : A -> R) (l : list A) :
  l <> [] -> (0 < rsum (map (fun a => exp (g a)) l))%R.
Proof.
  destruct l as [|a l]; [congruence|]. intros _.
  cbn [map rsum fold_right].
  fold (rsum (map (fun a0 => exp (g a0)) l)).
  assert (0 <= rsum (map (fun a0 => exp (g a0)) l))%R.
  { induction l as [|a' l IH]; cbn [map rsum fold_right]; [lra|].
    fold (rsum (map (fun a0 => exp (g a0)) l)).
    pose proof (exp_pos (g a')). lra. }
  pose proof (exp_pos (g a)). lra.
Qed.

Lemma seq_nonempty (n : nat) : 1 <= n -> seq 0 n <> [].
Proof. destruct n; [lia|discriminate]. Qed.

Lemma attention_weight_pos (ta : TemporalAttention.t) (x : Tensor3)
    (t b : nat) :
  1 <= steps x -> (0 < attention_weight ta x t b)%R.
Proof.
  intros Hs. unfold attention_weight. apply Rdiv_lt_0_compat.
  - apply exp_pos.
  - apply rsum_exp_positive, seq_nonempty, Hs.
Qed.

Lemma attention_weights_sum (ta : TemporalAttention.t) (x : Tensor3)
    (b : nat) :
  1 <= steps x ->
  rsum (map (fun t => attention_weight ta x t b) (seq 0 (steps x))) = 1%R.
Proof.
  intros Hs. unfold attention_weight, Rdiv.
  rewrite (rsum_map_scale (fun t => exp (attention_score ta x t b))).
  apply Rinv_r. apply Rgt_not_eq.
  apply (rsum_exp_positive (fun t => attention_score ta x t b)).
  apply seq_nonempty, Hs.
Qed.

Lemma nth_map_seq {A : Type} (f : nat -> A) (n i : nat) (d : A) :
  i < n -> nth i (map f (seq 0 n)) d = f i.
Proof.
  intros Hi. rewrite (nth_indep _ d (f 0)) by (rewrite length_map, length_seq; lia).
  rewrite (map_nth f (seq 0 n) 0 i), seq_nth by lia. reflexivity.
Qed.

(** X19. The context the temporal attention returns for a sample is a
    weighted mean of its hidden states over time: the weights are
    positive and add up to 1, so every component of the context lies
    between the smallest and the largest value that component takes
    over the steps. *)
Theorem temporal_attention_is_weighted_mean (hidden_dim : nat)
    (w : list (list R)) (bias : list R) (x : Tensor3) :
  features x = hidden_dim ->
  1 <= steps x ->
  let ta := TemporalAttention.init hidden_dim w bias in
  exists context,
    TemporalAttention_forward ta x = Ok context /\
    length context = batch x /\
    (forall b, b < batch x ->
       length (nth b context []) = hidden_dim /\
       rsum (map (fun t => attention_weight ta x t b) (seq 0 (steps x)))
         = 1%R /\
       (forall t, (0 < attention_weight ta x t b)%R)) /\
    (forall b h lo hi, b < batch x -> h < hidden_dim ->
       (forall t, t < steps x ->
          (lo <= at3 (entries x) (batch x) (features x) t b h <= hi)%R) ->
       (lo <= nth h (nth b context []) 0 <= hi)%R).
Proof.
  intros Hf Hs ta. unfold TemporalAttention_forward.
  cbn [ta TemporalAttention.init TemporalAttention.fc Linear.in_features
         Linear.out_features].
  rewrite Hf, !Nat.eqb_refl. cbn [andb]. eexists. split; [reflexivity|].
  split; [rewrite length_map, length_seq; reflexivity|]. split.
  - intros b Hb. rewrite (nth_map_seq _ _ Hb).
    rewrite length_map, length_seq. split; [reflexivity|].
    split; [apply attention_weights_sum, Hs|].
    intros t. apply attention_weight_pos, Hs.
  - intros b h lo hi Hb Hh Hbound.
    rewrite (nth_map_seq _ _ Hb), (nth_map_seq _ _ Hh).
    pose proof (attention_weights_sum
                  (TemporalAttention.init hidden_dim w bias) x b Hs) as Hsum.
    split.
    + replace lo with
        (rsum (map (fun t => attention_weight
                               (TemporalAttention.init hidden_dim w bias) x t b)
                 (seq 0 (steps x))) * lo)%R by (rewrite Hsum; lra).
      rewrite <- rsum_map_scale. apply rsum_map_le.
      intros t Ht. apply in_seq in Ht.
      pose proof (attention_weight_pos
                    (TemporalAttention.init hidden_dim w bias) x t b Hs).
      destruct (Hbound t ltac:(lia)). cbv beta.
      apply Rmult_le_compat_l; [apply Rlt_le, attention_weight_pos, Hs|lra].
    + replace hi with
        (rsum (map (fun t => attention_weight
                               (TemporalAttention.init hidden_dim w bias) x t b)
                 (seq 0 (steps x))) * hi)%R by (rewrite Hsum; lra).
      rewrite <- rsum_map_scale. apply rsum_map_le.
      intros t Ht. apply in_seq in Ht.
      pose proof (attention_weight_pos
                    (TemporalAttention.init hidden_dim w bias) x t b Hs).
      destruct (Hbound t ltac:(lia)). cbv beta.
      apply Rmult_le_compat_l; [apply Rlt_le, attention_weight_pos, Hs|lra].
Qed.

Lemma rsum_map_scale_l {A : Type} (f : A -> R) (c : R) (l : list A) :
  rsum (map (fun a => (f a * c)%R) l) = (c * rsum (map f l))%R.
Proof. rewrite rsum_map_scale. lra. Qed.

Lemma attention_weight_bias (hidden_dim : nat) (w : list (list R))
    (b1 b2 : list R) (x : Tensor3) (t b : nat) :
  attention_weight (TemporalAttention.init hidden_dim w b1) x t b
  = attention_weight (TemporalAttention.init hidden_dim w b2) x t b.
Proof.
  assert (H : forall bias,
    attention_weight (TemporalAttention.init hidden_dim w bias) x t b
    = (exp (Linear.dot (nth 0 w []) (hidden_at x t b))
       / rsum (map (fun t' => exp (Linear.dot (nth 0 w []) (hidden_at x t' b)))
                 (seq 0 (steps x))))%R).
  { intros bias. unfold attention_weight, attention_score.
    cbn [TemporalAttention.init TemporalAttention.fc Linear.weight Linear.bias].
    set (c := nth 0 bias 0%R).
    rewrite exp_plus.
    rewrite (map_ext _ (fun t' =>
               (exp (Linear.dot (nth 0 w []) (hidden_at x t' b)) * exp c)%R))
      by (intros t'; apply exp_plus).
    rewrite rsum_map_scale_l. unfold Rdiv. rewrite Rinv_mult.
    pose proof (exp_pos c).
    match goal with
    | |- (?a * ?k * (/ ?k * ?i) = ?a * ?i)%R =>
        transitivity (a * (k * / k) * i)%R; [ring|];
        rewrite Rinv_r by lra; ring
    end. }
  rewrite (H b1), (H b2). reflexivity.
Qed.

(** X20. In exact arithmetic the bias of the scoring layer has no
    effect: it moves the scores of all steps by the same amount, and
    the softmax over time cancels it. Two layers with the same weights
    return the same context. *)
Theorem temporal_attention_ignores_bias (hidden_dim : nat)
    (w : list (list R)) (b1 b2 : list R) (x : Tensor3) :
  TemporalAttention_forward (TemporalAttention.init hidden_dim w b1) x
  = TemporalAttention_forward (TemporalAttention.init hidden_dim w b2) x.
Proof.
  unfold TemporalAttention_forward.
  cbn [TemporalAttention.init TemporalAttention.fc Linear.in_features
         Linear.out_features].
  destruct ((features x =? hidden_dim) && (1 =? 1)); [|reflexivity].
  f_equal. apply map_ext. intros b. apply map_ext. intros h.
  f_equal. apply map_ext. intros t.
  change (TemporalAttention.mk (Linear.mk hidden_dim 1 w b1))
    with (TemporalAttention.init hidden_dim w b1).
  change (TemporalAttention.mk (Linear.mk hidden_dim 1 w b2))
    with (TemporalAttention.init hidden_dim w b2).
  rewrite (attention_weight_bias hidden_dim w b1 b2). reflexivity.
Qed.

(** X21. A sequence of a single step is its own context: the only
    weight is 1 and the layer returns the hidden vectors unchanged. *)
Theorem temporal_attention_single_step (hidden_dim : nat)
    (w : list (list R)) (bias : list R) (x : Tensor3) :
  features x = hidden_dim ->
  steps x = 1 ->
  TemporalAttention_forward (TemporalAttention.init hidden_dim w bias) x
  = Ok (map (fun b => hidden_at x 0 b) (seq 0 (batch x))).
Proof.
  intros Hf Hs. unfold TemporalAttention_forward.
  cbn [TemporalAttention.init TemporalAttention.fc Linear.in_features
         Linear.out_features].
  rewrite Hf, !Nat.eqb_refl. cbn [andb]. f_equal.
  apply map_ext. intros b. unfold hidden_at. rewrite Hf.
  apply map_ext. intros h. unfold attention_weight. rewrite Hs.
  cbn [seq map rsum fold_right].
  match goal with
  | |- context [exp ?s] => pose proof (exp_pos s)
  end.
  field. lra.
Qed.

Lemma temporal_attention_is_weighted_mean_witness :
  let ta := TemporalAttention.init 2 [[1; 1]]%R [0]%R in
  exists context,
    TemporalAttention_forward ta demo_two_steps = Ok context /\
    length context = batch demo_two_steps /\
    (forall b, b < batch demo_two_steps ->
       length (nth b context []) = 2 /\
       rsum (map (fun t => attention_weight ta demo_two_steps t b)
               (seq 0 (steps demo_two_steps))) = 1%R /\
       (forall t, (0 < attention_weight ta demo_two_steps t b)%R)) /\
    (forall b h lo hi, b < batch demo_two_steps -> h < 2 ->
       (forall t, t < steps demo_two_steps ->
          (lo <= at3 (entries demo_two_steps) (batch demo_two_steps)
                   (features demo_two_steps) t b h <= hi)%R) ->
       (lo <= nth h (nth b context []) 0 <= hi)%R).
Proof.
  apply (@temporal_attention_is_weighted_mean 2 [[1; 1]]%R [0]%R
           demo_two_steps).
  - reflexivity.
  - cbn. lia.
Defined.

Lemma temporal_attention_single_step_witness :
  TemporalAttention_forward (TemporalAttention.init 2 [[1; 1]]%R [0]%R)
    demo_one_step
  = Ok (map (fun b => hidden_at demo_one_step 0 b)
          (seq 0 (batch demo_one_step))).
Proof.
  apply (@temporal_attention_single_step 2 [[1; 1]]%R [0]%R demo_one_step);
    reflexivity.
Defined.

(** ** More on [eval_model] *)

(** X5. A checkpoint file that holds no entry [model_state_dict] stops
    the run with the [KeyError] of the lookup; the model is not
    evaluated. *)
Theorem checkpoint_without_state_dict_key (fs : FileSystem) (t0 t1 : Q)
    (model : TorchModel) (eval_data : SensorDataset)
    (criterion : option Criterion) (batch_size seed : Z)
    (ckpt : list (string * pyobj)) :
  (0 <= seed < 2 ^ 32)%Z -> (1 <= batch_size)%Z ->
  fs (checkpoint_path model) = Some (Pickle ckpt) ->
  assoc "model_state_dict" ckpt = None ->
  eval_model fs t0 t1 model eval_data criterion batch_size seed
  = Err KeyError.
Proof.
  intros Hseed Hbs Hf Hk. unfold eval_model.
  rewrite (np_random_seed_ok Hseed). cbn [bind].
  destruct (DataLoader_ok eval_data Hbs) as (loader & Hl & _).
  rewrite Hl. cbn [bind]. unfold torch_load, dict_getitem.
  rewrite Hf. cbn [bind]. rewrite Hk. reflexivity.
Qed.

(** X6. The loader is built before the checkpoint is opened: a seed
    outside [0, 2^32) or a batch size below 1 raises [ValueError]
    whatever the checkpoint directory holds. *)
Theorem bad_seed_or_batch_size_raises_first (fs : FileSystem) (t0 t1 : Q)
    (model : TorchModel) (eval_data : SensorDataset)
    (criterion : option Criterion) (batch_size seed : Z) :
  (seed < 0 \/ 2 ^ 32 <= seed \/ batch_size <= 0)%Z ->
  eval_model fs t0 t1 model eval_data criterion batch_size seed
  = Err ValueError.
Proof.
  intros H. unfold eval_model, np_random_seed.
  destruct (Z.leb_spec 0 seed); cbn [andb bind]; [|reflexivity].
  destruct (Z.ltb_spec seed (2 ^ 32)); cbn [bind]; [|reflexivity].
  unfold DataLoader. destruct (Z.leb_spec batch_size 0); [reflexivity|lia].
Qed.

(** ** The batches of the loader *)

Lemma chunks_from_concat {A : Type} (n : nat) (l cur : list A) :
  concat (chunks_from n cur l) = rev cur ++ l.
Proof.
  revert cur; induction l as [|x l IH]; intros cur.
  - cbn [chunks_from]. destruct cur as [|c cur]; [reflexivity|].
    cbn [concat]. reflexivity.
  - cbn [chunks_from].
    destruct (length (x :: cur) =? n).
    + cbn [concat]. rewrite IH. cbn [rev app]. rewrite <- app_assoc.
      reflexivity.
    + rewrite IH. cbn [rev]. rewrite <- app_assoc. reflexivity.
Qed.

Lemma chunks_from_sizes {A : Type} (n : nat) (l cur : list A) :
  1 <= n -> length cur < n ->
  Forall (fun c => 1 <= length c <= n) (chunks_from n cur l).
Proof.
  intros Hn. revert cur; induction l as [|x l IH]; intros cur Hcur.
  - cbn [chunks_from]. destruct cur as [|c cur]; constructor; [|constructor].
    rewrite length_rev. cbn [length] in *. lia.
  - cbn [chunks_from].
    destruct (Nat.eqb_spec (length (x :: cur)) n) as [E|E].
    + constructor; [rewrite length_rev; lia|]. apply IH. cbn [length]. lia.
    + apply IH. cbn [length] in *. lia.
Qed.

Lemma collate_batch_len (ws : Shape) (items : list (list R * Z * Z)) :
  batch_len (collate ws items) = length items.
Proof. reflexivity. Qed.

(** What [DataLoader] hands to the loop for a batch size of at least 1:
    every sample once and in dataset order, in batches that are neither
    empty nor larger than the batch size. *)
Lemma DataLoader_batches (ds : SensorDataset) (batch_size : Z) :
  (1 <= batch_size)%Z ->
  exists loader,
    DataLoader ds batch_size = Ok loader /\
    prefix loader = ds_prefix ds /\
    concat (map b_target (batches loader))
      = map (fun s => snd (fst s)) (samples ds) /\
    concat (map b_idx (batches loader)) = map (fun s => snd s) (samples ds) /\
    total_samples (batches loader) = length (samples ds) /\
    Forall (fun b => 1 <= batch_len b <= Z.to_nat batch_size /\
                     length (b_target b) = batch_len b /\
                     shape (b_data b) = batch_len b :: window_shape ds)
      (batches loader).
Proof.
  intros Hbs. unfold DataLoader.
  destruct (Z.leb_spec batch_size 0); [lia|].
  eexists. split; [reflexivity|]. cbn [prefix batches].
  set (n := Z.to_nat batch_size).
  pose proof (@chunks_from_concat _ n (samples ds) []) as Hc.
  cbn [rev app] in Hc.
  pose proof (@chunks_from_sizes _ n (samples ds) [] ltac:(lia)
                ltac:(cbn; lia)) as Hs.
  set (ch := chunks_from n [] (samples ds)) in *.
  split; [reflexivity|]. rewrite <- Hc. clearbody ch. clear Hc.
  split; [|split; [|split]].
  - induction ch as [|c ch IH]; [reflexivity|].
    inversion Hs; subst. cbn [map concat]. rewrite map_app, IH by assumption.
    reflexivity.
  - induction ch as [|c ch IH]; [reflexivity|].
    inversion Hs; subst. cbn [map concat]. rewrite map_app, IH by assumption.
    reflexivity.
  - unfold total_samples. induction ch as [|c ch IH]; [reflexivity|].
    inversion Hs; subst. cbn [map concat list_sum].
    rewrite collate_batch_len, length_app.
    rewrite <- IH by assumption. reflexivity.
  - induction Hs as [|c ch Hc _ IH]; constructor; [|exact IH].
    rewrite collate_batch_len. cbn [collate b_target b_data shape].
    rewrite length_map. repeat split; lia.
Qed.

(** X7. With shuffling off, [eval_model] feeds the loop every sample of
    the dataset exactly once and in dataset order, in batches of at
    least one and at most [batch_size] windows. *)
Theorem loader_keeps_dataset_order (ds : SensorDataset) (batch_size : Z) :
  (1 <= batch_size)%Z ->
  exists loader,
    DataLoader ds batch_size = Ok loader /\
    prefix loader = ds_prefix ds /\
    concat (map b_target (batches loader))
      = map (fun s => snd (fst s)) (samples ds) /\
    concat (map b_idx (batches loader)) = map (fun s => snd s) (samples ds) /\
    total_samples (batches loader) = length (samples ds) /\
    Forall (fun b => 1 <= batch_len b <= Z.to_nat batch_size /\
                     length (b_target b) = batch_len b /\
                     shape (b_data b) = batch_len b :: window_shape ds)
      (batches loader).
Proof. intros H. exact (DataLoader_batches ds H). Qed.

Lemma last_time_dim_of_shapes (bs : list Batch) (W : nat) (ws : Shape) :
  bs <> [] ->
  Forall (fun b => exists n, shape (b_data b) = n :: W :: ws) bs ->
  last_time_dim bs = Some W.
Proof.
  intros Hne Hall. destruct bs as [|b rest]; [congruence|].
  cbn [last_time_dim]. unfold time_dim.
  assert (Hin : In (last rest b) (b :: rest)).
  { clear. revert b. induction rest as [|x rest IH]; intros b.
    - left; reflexivity.
    - right. rewrite last_cons_default. apply IH. }
  rewrite Forall_forall in Hall. destruct (Hall _ Hin) as [n Hn].
  rewrite Hn. reflexivity.
Qed.

(** X8. With a usable checkpoint, [eval_model] returns one prediction
    per sample of the dataset, computed with the parameters of the
    checkpoint, and on a test dataset [W - 1] more, [W] being the
    length of the windows; the elapsed time is the rounded difference
    of the two clock readings. *)
Theorem eval_model_prediction_count (fs : FileSystem) (t0 t1 : Q)
    (model : TorchModel) (ds : SensorDataset) (criterion : Criterion)
    (batch_size seed : Z) (ckpt : list (string * pyobj)) (sd : StateDict)
    (W : nat) (ws : Shape) :
  (0 <= seed < 2 ^ 32)%Z -> (1 <= batch_size)%Z ->
  fs (checkpoint_path model) = Some (Pickle ckpt) ->
  assoc "model_state_dict" ckpt = Some (PStateDict sd) ->
  state_dict_compatible (state_dict model) sd = true ->
  samples ds <> [] ->
  window_shape ds = W :: ws -> 1 <= W ->
  (forall loader, DataLoader ds batch_size = Ok loader ->
     Forall (batch_ok (forward_of model sd) criterion) (batches loader)) ->
  exists report,
    eval_model fs t0 t1 model ds (Some criterion) batch_size seed
      = Ok report /\
    Z.of_nat (length (preds report))
      = (Z.of_nat (length (samples ds))
         + (if String.eqb (ds_prefix ds) "test" then Z.of_nat W - 1 else 0))%Z /\
    elapsed report = timedelta_str (py_round (t1 - t0)%Q).
Proof.
  intros Hseed Hbs Hf Hk Hc Hne Hws HW Hok.
  destruct (@eval_model_loads_checkpoint fs t0 t1 model ds criterion
              batch_size seed ckpt sd Hseed Hbs Hf Hk Hc)
    as (loader & Hl & Hrun).
  destruct (DataLoader_batches ds Hbs)
    as (loader' & Hl' & Hpre & Htg & _ & Htot & Hshape).
  rewrite Hl in Hl'. inversion Hl'; subst loader'; clear Hl'.
  specialize (Hok loader Hl).
  assert (Hbne : batches loader <> []).
  { intros E. rewrite E in Htot. cbn in Htot.
    destruct (samples ds); [congruence|discriminate]. }
  assert (Htime : last_time_dim (batches loader) = Some W).
  { apply (@last_time_dim_of_shapes _ W ws Hbne).
    eapply Forall_impl; [|exact Hshape].
    intros b (_ & _ & Hs). exists (batch_len b). rewrite Hs, Hws. reflexivity. }
  destruct (eval_result_spec loader Hbne Hok (fun _ => ex_intro _ W Htime))
    as (r & raw & Hr & Hraw & _ & Hy & _).
  destruct (predict_all_lengths Hok Hraw) as [Lp _].
  rewrite Hrun. unfold eval_one_epoch. rewrite Hr. cbn [bind].
  eexists. split; [reflexivity|]. cbn [preds elapsed].
  split; [|reflexivity].
  rewrite Hy, length_app, Lp, Htot. unfold padding. rewrite Hpre.
  destruct (String.eqb (ds_prefix ds) "test").
  - destruct (first_label_ok Hbne Hok) as [l0 Hl0].
    rewrite Hl0, Htime, repeat_length. lia.
  - cbn [length]. lia.
Qed.

(** X9. With a usable checkpoint but a dataset without samples the run
    still raises: the loader yields no batch, and the loop leaves
    nothing to concatenate (or, on the test split, no [data]). *)
Theorem eval_model_empty_dataset_raises (fs : FileSystem) (t0 t1 : Q)
    (model : TorchModel) (ds : SensorDataset) (criterion : Criterion)
    (batch_size seed : Z) (ckpt : list (string * pyobj)) (sd : StateDict) :
  (0 <= seed < 2 ^ 32)%Z -> (1 <= batch_size)%Z ->
  fs (checkpoint_path model) = Some (Pickle ckpt) ->
  assoc "model_state_dict" ckpt = Some (PStateDict sd) ->
  state_dict_compatible (state_dict model) sd = true ->
  samples ds = [] ->
  eval_model fs t0 t1 model ds (Some criterion) batch_size seed
  = Err (if String.eqb (ds_prefix ds) "test" then UnboundLocalError
         else ValueError).
Proof.
  intros Hseed Hbs Hf Hk Hc Hs.
  destruct (@eval_model_loads_checkpoint fs t0 t1 model ds criterion
              batch_size seed ckpt sd Hseed Hbs Hf Hk Hc)
    as (loader & Hl & Hrun).
  rewrite Hrun. unfold DataLoader in Hl.
  destruct (Z.leb_spec batch_size 0); [lia|].
  inversion Hl; subst loader; clear Hl. rewrite Hs.
  unfold eval_one_epoch, eval_one_epoch_result.
  cbn [chunks_from map batches prefix eval_loop bind].
  destruct (String.eqb (ds_prefix ds) "test"); reflexivity.
Qed.

Lemma checkpoint_without_state_dict_key_witness :
  eval_model demo_fs_no_key 0 2 demo_torch_model demo_dataset None 256 1
  = Err KeyError.
Proof.
  apply (@checkpoint_without_state_dict_key demo_fs_no_key 0 2
           demo_torch_model demo_dataset None 256%Z 1%Z
           [("epoch"%string, POther)]).
  - lia.
  - lia.
  - reflexivity.
  - reflexivity.
Defined.

Lemma bad_seed_or_batch_size_raises_first_witness :
  eval_model demo_fs_good 0 2 demo_torch_model demo_dataset None 0 1
  = Err ValueError.
Proof.
  apply (@bad_seed_or_batch_size_raises_first demo_fs_good 0 2
           demo_torch_model demo_dataset None 0%Z 1%Z).
  right. right. lia.
Defined.

Lemma loader_keeps_dataset_order_witness :
  exists loader,
    DataLoader demo_dataset 1 = Ok loader /\
    prefix loader = ds_prefix demo_dataset /\
    concat (map b_target (batches loader))
      = map (fun s => snd (fst s)) (samples demo_dataset) /\
    concat (map b_idx (batches loader))
      = map (fun s => snd s) (samples demo_dataset) /\
    total_samples (batches loader) = length (samples demo_dataset) /\
    Forall (fun b => 1 <= batch_len b <= Z.to_nat 1 /\
                     length (b_target b) = batch_len b /\
                     shape (b_data b) = batch_len b :: window_shape demo_dataset)
      (batches loader).
Proof.
  apply (@loader_keeps_dataset_order demo_dataset 1%Z). lia.
Defined.

Lemma demo_dataset_batches_ok (loader : Loader) :
  DataLoader demo_dataset 256 = Ok loader ->
  Forall (batch_ok (forward_of demo_torch_model
                      [("classifier.fc.bias"%string, mkTensor [2] [1; 1]%R)])
            CrossEntropyLoss) (batches loader).
Proof.
  intros H. inversion H; subst loader. cbn [batches].
  exact (demo_batches_ok "test").
Defined.

Lemma eval_model_prediction_count_witness :
  exists report,
    eval_model demo_fs_good 0 2 demo_torch_model demo_dataset
      (Some CrossEntropyLoss) 256 1 = Ok report /\
    Z.of_nat (length (preds report))
      = (Z.of_nat (length (samples demo_dataset))
         + (if String.eqb (ds_prefix demo_dataset) "test"
            then Z.of_nat 3 - 1 else 0))%Z /\
    elapsed report = timedelta_str (py_round (2 - 0)%Q).
Proof.
  apply (@eval_model_prediction_count demo_fs_good 0 2 demo_torch_model
           demo_dataset CrossEntropyLoss 256%Z 1%Z
           [("model_state_dict"%string,
             PStateDict [("classifier.fc.bias"%string, mkTensor [2] [1; 1]%R)])]
           [("classifier.fc.bias"%string, mkTensor [2] [1; 1]%R)] 3 [1]).
  - lia.
  - lia.
  - reflexivity.
  - reflexivity.
  - reflexivity.
  - discriminate.
  - reflexivity.
  - lia.
  - exact demo_dataset_batches_ok.
Defined.

Lemma eval_model_empty_dataset_raises_witness :
  eval_model demo_fs_good 0 2 demo_torch_model demo_empty_dataset
    (Some CrossEntropyLoss) 256 1
  = Err (if String.eqb (ds_prefix demo_empty_dataset) "test"
         then UnboundLocalError else ValueError).
Proof.
  apply (@eval_model_empty_dataset_raises demo_fs_good 0 2 demo_torch_model
           demo_empty_dataset CrossEntropyLoss 256%Z 1%Z
           [("model_state_dict"%string,
             PStateDict [("classifier.fc.bias"%string, mkTensor [2] [1; 1]%R)])]
           [("classifier.fc.bias"%string, mkTensor [2] [1; 1]%R)]).
  - lia.
  - lia.
  - reflexivity.
  - reflexivity.
  - reflexivity.
  - reflexivity.
Defined.
